(** * SceneManager: texture registry, material registry and shader-state
      dispatch of [Source/SceneManager.cpp], as a shallow embedding.

    The C++ class mutates its members and talks to three collaborators that
    are not part of the repository: the image loader ([stb_image]), the OpenGL
    driver and the [ShaderManager].  Members become the fields of a record
    that is threaded through a small state-and-fault monad; collaborators are
    either interface parameters (what they answer) or a trace of the calls the
    code issues to them (what they are told).  Console logging through
    [std::cout] is the one effect that is left out. *)

From Stdlib Require Import ZArith Lia.
From stdpp Require Import base list strings.

Local Open Scope Z_scope.

(** ** External interfaces *)

(** GLM.  [float] is the carrier of the C++ [float]; [flit] gives the value
    the compiler assigns to the text of a floating literal.  Matrices and the
    functions of [glm/gtx/transform.hpp] stay abstract: nothing below depends
    on how the library computes them. *)
Class GLM := {
  float : Type;
  flit : string -> float;
  mat4 : Type;
  glm_radians : float -> float;
  glm_scale : float * float * float -> mat4;
  glm_rotate : float -> float * float * float -> mat4;
  glm_translate : float * float * float -> mat4;
  mat4_mul : mat4 -> mat4 -> mat4
}.

(** What [stbi_load] hands back besides the pixel buffer. *)
Record Image := {
  width : Z;
  height : Z;
  colorChannels : Z
}.

(** The calls that the code issues to OpenGL.  [glDeleteTextures] is never
    issued by this file; it belongs to the vocabulary so that "a handle has
    been freed" can be said at all. *)
Inductive gl_call :=
| glGenTextures (name : Z)
| glDeleteTextures (name : Z)
| glBindTexture (texture : Z)
| glActiveTexture (unit : Z)
| glTexParameteri (pname param : string)
| glTexImage2D (internalformat : string) (w h : Z) (format : string)
| glGenerateMipmap.

(** Everything the scene manager tells its collaborators, oldest first. *)
Inductive event :=
| stbi_set_flip_vertically_on_load (flag : bool)
| stbi_load_call (filename : string)
| stbi_image_free
| GL (c : gl_call)
| Mesh (method : string).

(** The platform answers two questions: what an image file decodes to
    ([None] is the null pointer of a failed decode), and which unused
    texture name the driver picks given everything that happened so far. *)
Class Platform := {
  stbi_load : string -> option Image;
  gl_fresh_name : list event -> Z
}.

(** ** 32-bit conversions

    [TEXTURE_INFO::ID] is passed by address to [glGenTextures], so it is a
    [GLuint]; the lookups return it as [int]. *)
Definition GLuint_of_int (z : Z) : Z := z mod 2 ^ 32.

Definition int_of_GLuint (u : Z) : Z :=
  if u <? 2 ^ 31 then u else u - 2 ^ 32.

(** ** Data model *)

Record TEXTURE_INFO := {
  tag : string;
  ID : Z
}.

Section Model.
Context {glm : GLM}.

Definition vec2 : Type := float * float.
Definition vec3 : Type := float * float * float.
Definition vec4 : Type := float * float * float * float.

(** The material record; its tag field is [mat_tag] because [tag] already
    names the field of [TEXTURE_INFO]. *)
Record OBJECT_MATERIAL := {
  diffuseColor : vec3;
  specularColor : vec3;
  shininess : float;
  mat_tag : string
}.

(** A value pushed to the shader, by the setter that pushed it. *)
Inductive uniform :=
| Mat4Value (m : mat4)
| IntValue (i : Z)
| BoolValue (b : bool)
| FloatValue (f : float)
| Vec2Value (v : vec2)
| Vec3Value (v : vec3)
| Vec4Value (v : vec4)
| Sampler2DValue (slot : Z).

(** The shader manager is known by the pushes it received, oldest first. *)
Definition ShaderManager : Type := list (string * uniform).

(** The uniform names of the anonymous namespace. *)
Definition g_ModelName : string := "model".
Definition g_ColorValueName : string := "objectColor".
Definition g_TextureValueName : string := "objectTexture".
Definition g_UseTextureName : string := "bUseTexture".
Definition g_UseLightingName : string := "bUseLighting".

(** The members of the class, and the trace of calls made so far.
    [m_pShaderManager = None] is the null pointer. *)
Record SceneManager := {
  m_pShaderManager : option ShaderManager;
  m_textureIDs : list TEXTURE_INFO;
  m_loadedTextures : Z;
  m_objectMaterials : list OBJECT_MATERIAL;
  trace : list event
}.

Definition set_pShaderManager (p : option ShaderManager) (s : SceneManager) :=
  {| m_pShaderManager := p;
     m_textureIDs := m_textureIDs s;
     m_loadedTextures := m_loadedTextures s;
     m_objectMaterials := m_objectMaterials s;
     trace := trace s |}.

Definition set_textureIDs (a : list TEXTURE_INFO) (s : SceneManager) :=
  {| m_pShaderManager := m_pShaderManager s;
     m_textureIDs := a;
     m_loadedTextures := m_loadedTextures s;
     m_objectMaterials := m_objectMaterials s;
     trace := trace s |}.

Definition set_loadedTextures (n : Z) (s : SceneManager) :=
  {| m_pShaderManager := m_pShaderManager s;
     m_textureIDs := m_textureIDs s;
     m_loadedTextures := n;
     m_objectMaterials := m_objectMaterials s;
     trace := trace s |}.

Definition set_objectMaterials (ms : list OBJECT_MATERIAL) (s : SceneManager) :=
  {| m_pShaderManager := m_pShaderManager s;
     m_textureIDs := m_textureIDs s;
     m_loadedTextures := m_loadedTextures s;
     m_objectMaterials := ms;
     trace := trace s |}.

Definition set_trace (t : list event) (s : SceneManager) :=
  {| m_pShaderManager := m_pShaderManager s;
     m_textureIDs := m_textureIDs s;
     m_loadedTextures := m_loadedTextures s;
     m_objectMaterials := m_objectMaterials s;
     trace := t |}.

(** ** The monad: state, and the two ways the C++ can leave defined
    behaviour *)

Inductive fault :=
| NullDereference
| OutOfBounds.

Inductive outcome (A : Type) :=
| Done (a : A) (s : SceneManager)
| Crash (f : fault).
Arguments Done {A} a s.
Arguments Crash {A} f.

Definition M (A : Type) : Type := SceneManager -> outcome A.

Definition ret {A} (a : A) : M A := fun s => Done a s.

Definition bind {A B} (m : M A) (k : A -> M B) : M B :=
  fun s => match m s with
           | Done a s' => k a s'
           | Crash f => Crash f
           end.

Definition get : M SceneManager := fun s => Done s s.
Definition modify (f : SceneManager -> SceneManager) : M unit :=
  fun s => Done tt (f s).

End Model.

Arguments Done {glm A} a s.
Arguments Crash {glm A} f.

Notation "x <- m ;; k" := (bind m (fun x => k))
  (at level 100, m at next level, right associativity).
Notation "m ;; k" := (bind m (fun _ => k))
  (at level 100, right associativity).

Section Operations.
Context {glm : GLM} {platform : Platform}.

(** [for (int i = from; i < from + todo; i++) body(i)].  The bound is read
    once: no loop body in this file assigns to it. *)
Fixpoint for_from (i : Z) (todo : nat) (body : Z -> M unit) : M unit :=
  match todo with
  | O => ret tt
  | S todo' => body i ;; for_from (i + 1) todo' body
  end.

Definition for_upto (n : Z) (body : Z -> M unit) : M unit :=
  for_from 0 (Z.to_nat n) body.

(** *** Collaborator calls *)

Definition emit (e : event) : M unit :=
  modify (fun s => set_trace (trace s ++ [e]) s).

Definition gl (c : gl_call) : M unit := emit (GL c).

(** [glGenTextures(1, &name)]: the driver picks the name. *)
Definition gen_texture : M Z :=
  s <- get ;;
  let name := GLuint_of_int (gl_fresh_name (trace s)) in
  gl (glGenTextures name) ;; ret name.

(** [m_pShaderManager->set...Value(name, v)] with no null test in front. *)
Definition shader_set (name : string) (v : uniform) : M unit :=
  fun s => match m_pShaderManager s with
           | Some sm => Done tt (set_pShaderManager (Some (sm ++ [(name, v)])) s)
           | None => Crash NullDereference
           end.

(** [if (NULL != m_pShaderManager) { body }]. *)
Definition if_shader (body : M unit) : M unit :=
  fun s => match m_pShaderManager s with
           | Some _ => body s
           | None => Done tt s
           end.

(** *** The fixed array [m_textureIDs]: sixteen entries, indexed by [int] *)

Definition capacity : Z := 16.

Definition read_slot (i : Z) : M TEXTURE_INFO :=
  fun s => if decide (0 <= i)
           then match m_textureIDs s !! Z.to_nat i with
                | Some e => Done e s
                | None => Crash OutOfBounds
                end
           else Crash OutOfBounds.

Definition write_slot (i : Z) (f : TEXTURE_INFO -> TEXTURE_INFO) : M unit :=
  e <- read_slot i ;;
  modify (fun s => set_textureIDs (<[Z.to_nat i := f e]> (m_textureIDs s)) s).

Definition with_ID (v : Z) (e : TEXTURE_INFO) := {| tag := tag e; ID := v |}.
Definition with_tag (t : string) (e : TEXTURE_INFO) := {| tag := t; ID := ID e |}.

(** ** The class *)

(** [SceneManager::SceneManager(pShaderManager)], run while the collaborators
    have already seen [tr].  [ID = -1] stores the [GLuint] 4294967295. *)
Definition SceneManager_ctor (pShaderManager : option ShaderManager)
    (tr : list event) : SceneManager :=
  {| m_pShaderManager := pShaderManager;
     m_textureIDs :=
       replicate 16 {| tag := "/0"; ID := GLuint_of_int (-1) |};
     m_loadedTextures := 0;
     m_objectMaterials := [];
     trace := tr |}.

(** The registration at the end of a successful load:
    [m_textureIDs[m_loadedTextures].ID = textureID], then [.tag = tag], then
    [m_loadedTextures++].  There is no test against the array size. *)
Definition register_texture (textureID : Z) (t : string) : M bool :=
  s <- get ;;
  write_slot (m_loadedTextures s) (with_ID textureID) ;;
  write_slot (m_loadedTextures s) (with_tag t) ;;
  modify (set_loadedTextures (m_loadedTextures s + 1)) ;;
  ret true.

(** What follows the upload when the channel count was 3 or 4. *)
Definition finish_texture (textureID : Z) (t : string) : M bool :=
  gl glGenerateMipmap ;;
  emit stbi_image_free ;;
  gl (glBindTexture 0) ;;
  register_texture textureID t.

Definition CreateGLTexture (filename t : string) : M bool :=
  emit (stbi_set_flip_vertically_on_load true) ;;
  emit (stbi_load_call filename) ;;
  match stbi_load filename with
  | Some image =>
      textureID <- gen_texture ;;
      gl (glBindTexture textureID) ;;
      gl (glTexParameteri "GL_TEXTURE_WRAP_S" "GL_REPEAT") ;;
      gl (glTexParameteri "GL_TEXTURE_WRAP_T" "GL_REPEAT") ;;
      gl (glTexParameteri "GL_TEXTURE_MIN_FILTER" "GL_LINEAR") ;;
      gl (glTexParameteri "GL_TEXTURE_MAG_FILTER" "GL_LINEAR") ;;
      if colorChannels image =? 3 then
        gl (glTexImage2D "GL_RGB8" (width image) (height image) "GL_RGB") ;;
        finish_texture textureID t
      else if colorChannels image =? 4 then
        gl (glTexImage2D "GL_RGBA8" (width image) (height image) "GL_RGBA") ;;
        finish_texture textureID t
      else
        ret false
  | None => ret false
  end.

Definition GL_TEXTURE0 : Z := 33984.

Definition BindGLTextures : M unit :=
  s <- get ;;
  for_upto (m_loadedTextures s) (fun i =>
    gl (glActiveTexture (GL_TEXTURE0 + i)) ;;
    e <- read_slot i ;;
    gl (glBindTexture (ID e))).

(** The loop body is [glGenTextures(1, &m_textureIDs[i].ID)]. *)
Definition DestroyGLTextures : M unit :=
  s <- get ;;
  for_upto (m_loadedTextures s) (fun i =>
    name <- gen_texture ;;
    write_slot i (with_ID name)).

(** [~SceneManager()]; deleting the meshes is a call to the mesh library. *)
Definition SceneManager_dtor : M unit :=
  modify (set_pShaderManager None) ;;
  emit (Mesh "~ShapeMeshes") ;;
  DestroyGLTextures.

(** [while ((index < m_loadedTextures) && (bFound == false))]: [todo] counts
    the indices still below [m_loadedTextures]; a match ends the loop with
    the value assigned in that iteration, running out of indices ends it
    with the initial [-1]. *)
Fixpoint FindTextureID_loop (t : string) (index : Z) (todo : nat) : M Z :=
  match todo with
  | O => ret (-1)
  | S todo' =>
      e <- read_slot index ;;
      if bool_decide (tag e = t) then ret (int_of_GLuint (ID e))
      else FindTextureID_loop t (index + 1) todo'
  end.

Definition FindTextureID (t : string) : M Z :=
  s <- get ;;
  FindTextureID_loop t 0 (Z.to_nat (m_loadedTextures s)).

Fixpoint FindTextureSlot_loop (t : string) (index : Z) (todo : nat) : M Z :=
  match todo with
  | O => ret (-1)
  | S todo' =>
      e <- read_slot index ;;
      if bool_decide (tag e = t) then ret index
      else FindTextureSlot_loop t (index + 1) todo'
  end.

Definition FindTextureSlot (t : string) : M Z :=
  s <- get ;;
  FindTextureSlot_loop t 0 (Z.to_nat (m_loadedTextures s)).

(** The three assignments of the matching iteration; the tag of the output
    parameter is not assigned. *)
Definition copy_material (from material : OBJECT_MATERIAL) : OBJECT_MATERIAL :=
  {| diffuseColor := diffuseColor from;
     specularColor := specularColor from;
     shininess := shininess from;
     mat_tag := mat_tag material |}.

(** The scan of [FindMaterial] over the records from [index] on; the vector
    is indexed below its size only, so the records themselves are the
    recursion.  The result is the output parameter after the loop. *)
Fixpoint FindMaterial_loop (ms : list OBJECT_MATERIAL) (t : string)
    (material : OBJECT_MATERIAL) : OBJECT_MATERIAL :=
  match ms with
  | [] => material
  | m :: rest =>
      if bool_decide (mat_tag m = t) then copy_material m material
      else FindMaterial_loop rest t material
  end.

(** [material] is the reference parameter: passed in, handed back.  The
    function ends in [return(true)] whatever [bFound] is. *)
Definition FindMaterial (t : string) (material : OBJECT_MATERIAL)
    : M (bool * OBJECT_MATERIAL) :=
  s <- get ;;
  if bool_decide (length (m_objectMaterials s) = 0%nat) then
    ret (false, material)
  else
    ret (true, FindMaterial_loop (m_objectMaterials s) t material).

Definition SetTransformations (scaleXYZ : vec3)
    (XrotationDegrees YrotationDegrees ZrotationDegrees : float)
    (positionXYZ : vec3) : M unit :=
  let scale := glm_scale scaleXYZ in
  let rotationX :=
    glm_rotate (glm_radians XrotationDegrees)
      (flit "1.0f", flit "0.0f", flit "0.0f") in
  let rotationY :=
    glm_rotate (glm_radians YrotationDegrees)
      (flit "0.0f", flit "1.0f", flit "0.0f") in
  let rotationZ :=
    glm_rotate (glm_radians ZrotationDegrees)
      (flit "0.0f", flit "0.0f", flit "1.0f") in
  let translation := glm_translate positionXYZ in
  let modelView :=
    mat4_mul (mat4_mul (mat4_mul (mat4_mul translation rotationZ) rotationY)
                rotationX) scale in
  if_shader (shader_set g_ModelName (Mat4Value modelView)).

Definition SetShaderColor
    (redColorValue greenColorValue blueColorValue alphaValue : float) : M unit :=
  let currentColor :=
    (redColorValue, greenColorValue, blueColorValue, alphaValue) in
  if_shader (
    shader_set g_UseTextureName (IntValue 0) ;;
    shader_set g_ColorValueName (Vec4Value currentColor)).

Definition SetShaderTexture (textureTag : string) : M unit :=
  if_shader (
    shader_set g_UseTextureName (IntValue 1) ;;
    textureID <- FindTextureSlot textureTag ;;
    shader_set g_TextureValueName (Sampler2DValue textureID)).

Definition SetTextureUVScale (u v : float) : M unit :=
  if_shader (shader_set "UVscale" (Vec2Value (u, v))).

(** [indeterminate] is what the local [OBJECT_MATERIAL material;] holds
    before [FindMaterial] is called on it: the declaration has no
    initialiser.  The pushes are not guarded by a null test. *)
Definition SetShaderMaterial (materialTag : string)
    (indeterminate : OBJECT_MATERIAL) : M unit :=
  s <- get ;;
  if bool_decide (0 < length (m_objectMaterials s))%nat then
    r <- FindMaterial materialTag indeterminate ;;
    let '(bReturn, material) := r in
    if bReturn then
      shader_set "material.diffuseColor" (Vec3Value (diffuseColor material)) ;;
      shader_set "material.specularColor" (Vec3Value (specularColor material)) ;;
      shader_set "material.shininess" (FloatValue (shininess material))
    else ret tt
  else ret tt.

(** ** Scene preparation *)

Definition push_back (m : OBJECT_MATERIAL) : M unit :=
  modify (fun s => set_objectMaterials (m_objectMaterials s ++ [m]) s).

Definition make_material (d s : string * string * string) (sh t : string)
    : OBJECT_MATERIAL :=
  {| diffuseColor := (flit d.1.1, flit d.1.2, flit d.2);
     specularColor := (flit s.1.1, flit s.1.2, flit s.2);
     shininess := flit sh;
     mat_tag := t |}.

Definition DefineObjectMaterials : M unit :=
  push_back (make_material ("0.4f", "0.4f", "0.4f") ("0.7f", "0.7f", "0.6f")
               "52.0" "metal") ;;
  push_back (make_material ("0.2f", "0.2f", "0.3f") ("0.0f", "0.0f", "0.0f")
               "0.1" "wood") ;;
  push_back (make_material ("0.2f", "0.2f", "0.2f") ("1.0f", "1.0f", "1.0f")
               "95.0" "glass") ;;
  push_back (make_material ("0.4f", "0.4f", "0.4f") ("0.2f", "0.2f", "0.2f")
               "30.0" "plate") ;;
  push_back (make_material ("0.6f", "0.5f", "0.3f") ("0.0f", "0.0f", "0.0f")
               "0.1" "cheese") ;;
  push_back (make_material ("0.7f", "0.6f", "0.5f") ("0.02f", "0.02f", "0.02f")
               "0.001" "bread") ;;
  push_back (make_material ("0.5f", "0.4f", "0.3f") ("0.01f", "0.01f", "0.01f")
               "0.001" "darkbread") ;;
  push_back (make_material ("0.8f", "0.8f", "0.9f") ("0.0f", "0.0f", "0.0f")
               "2.0" "shiplap") ;;
  push_back (make_material ("0.4f", "0.2f", "0.4f") ("0.1f", "0.05f", "0.1f")
               "0.55" "grape").

(** [setVec3Value(name, x, y, z)] on literals. *)
Definition set_vec3 (name x y z : string) : M unit :=
  shader_set name (Vec3Value (flit x, flit y, flit z)).

Definition set_float (name x : string) : M unit :=
  shader_set name (FloatValue (flit x)).

Definition set_bool (name : string) (b : bool) : M unit :=
  shader_set name (BoolValue b).

(** One of the four point lights; they share the attenuation terms. *)
Definition point_light (i : string) (position ambient diffuse specular
    : string * string * string) : M unit :=
  let field f := "pointLights[" +:+ i +:+ "]." +:+ f in
  set_vec3 (field "position") position.1.1 position.1.2 position.2 ;;
  set_vec3 (field "ambient") ambient.1.1 ambient.1.2 ambient.2 ;;
  set_vec3 (field "diffuse") diffuse.1.1 diffuse.1.2 diffuse.2 ;;
  set_vec3 (field "specular") specular.1.1 specular.1.2 specular.2 ;;
  set_float (field "constant") "1.0f" ;;
  set_float (field "linear") "0.09f" ;;
  set_float (field "quadratic") "0.032f" ;;
  set_bool (field "bActive") true.

(** No call here is behind a null test. *)
Definition SetupSceneLights : M unit :=
  set_bool g_UseLightingName true ;;
  set_vec3 "directionalLight.direction" "-0.05f" "-0.3f" "-0.1f" ;;
  set_vec3 "directionalLight.ambient" ".18f" ".18f" ".18f" ;;
  set_vec3 "directionalLight.diffuse" "0.6f" "0.6f" "0.6f" ;;
  set_vec3 "directionalLight.specular" "0.0f" "0.0f" "0.0f" ;;
  set_bool "directionalLight.bActive" true ;;
  point_light "0" ("-15.0f", "17.0f", "5.0f") ("0.2f", "0.2f", "0.2f")
    ("0.7f", "0.7f", "0.7f") ("0.1f", "0.1f", "0.1f") ;;
  point_light "1" ("15.0f", "17.0f", "5.0f") ("0.05f", "0.05f", "0.05f")
    ("0.3f", "0.3f", "0.3f") ("0.1f", "0.1f", "0.1f") ;;
  point_light "2" ("-15.0f", "17.0f", "6.0f") ("0.05f", "0.05f", "0.05f")
    ("0.2f", "0.2f", "0.2f") ("0.8f", "0.8f", "0.8f") ;;
  point_light "3" ("15.0f", "17.0f", "6.0f") ("0.05f", "0.05f", "0.05f")
    ("0.2f", "0.2f", "0.2f") ("0.8f", "0.8f", "0.8f").

(** The eleven loads, in source order; every return value is dropped. *)
Definition scene_textures : list (string * string) :=
  [ ("textures/dark_wood_floor.JPG", "floor");
    ("textures/shiplap.JPG", "shiplap");
    ("textures/bricks.JPG", "brick");
    ("textures/Wood_mantle.JPG", "mantle");
    ("textures/black_metal.JPG", "metal");
    ("textures/black_metal2.JPG", "metal2");
    ("textures/pine_bark.JPG", "bark");
    ("textures/Tree_end.JPG", "tree_end");
    ("textures/rusticwood.JPG", "rusticwood");
    ("textures/Leaf.JPG", "leaf");
    ("textures/BLUEY.JPG", "cartoon") ].

(** [bReturn = CreateGLTexture(file, tag);] for each entry in turn; the
    results are collected so that statements can speak of them. *)
Fixpoint load_textures (files : list (string * string)) : M (list bool) :=
  match files with
  | [] => ret []
  | (filename, t) :: rest =>
      bReturn <- CreateGLTexture filename t ;;
      others <- load_textures rest ;;
      ret (bReturn :: others)
  end.

Definition LoadSceneTextures : M unit :=
  load_textures scene_textures ;;
  BindGLTextures.

Definition PrepareScene : M unit :=
  LoadSceneTextures ;;
  DefineObjectMaterials ;;
  SetupSceneLights ;;
  emit (Mesh "LoadPlaneMesh") ;;
  emit (Mesh "LoadBoxMesh") ;;
  emit (Mesh "LoadCylinderMesh") ;;
  emit (Mesh "LoadTorusMesh") ;;
  emit (Mesh "LoadSphereMesh") ;;
  emit (Mesh "LoadConeMesh") ;;
  emit (Mesh "DrawExtraTorusMesh1") ;;
  emit (Mesh "DrawExtraTorusMesh2").

End Operations.

(** ** Rendering

    The five render functions are straight-line code: assignments to the
    locals [scaleXYZ], [XrotationDegrees], [YrotationDegrees],
    [ZrotationDegrees] and [positionXYZ], calls of the setters, and calls
    into the mesh library.  An assignment is a binding that the following
    statements see.  [indeterminate l] is what the uninitialised local
    [OBJECT_MATERIAL material;] holds in the [SetShaderMaterial] call made
    at source line [l]. *)

Notation "'assign' x := v ;; k" := (let x := v in k)
  (at level 100, x name, v at next level, right associativity).

Section Rendering.
Context {glm : GLM}.

(** [SceneManager::RenderWall()], source lines 1686 to 1725. *)
Definition RenderWall : M unit :=
  assign XrotationDegrees := flit "0.0f" ;;
  assign YrotationDegrees := flit "0.0f" ;;
  assign ZrotationDegrees := flit "0.0f" ;;
  assign scaleXYZ := (flit "20.0f", flit "1.0f", flit "8.0f") ;;
  assign XrotationDegrees := flit "90.0f" ;;
  assign YrotationDegrees := flit "0.0f" ;;
  assign ZrotationDegrees := flit "0.0f" ;;
  assign positionXYZ := (flit "0.0f", flit "8.0f", flit "-10.0f") ;;
  SetTransformations scaleXYZ XrotationDegrees YrotationDegrees
    ZrotationDegrees positionXYZ ;;
  SetShaderTexture "shiplap" ;;
  emit (Mesh "DrawPlaneMesh").

(** [SceneManager::RenderTrees()], source lines 1726 to 1895. *)
Definition RenderTrees : M unit :=
  assign XrotationDegrees := flit "0.0f" ;;
  assign YrotationDegrees := flit "0.0f" ;;
  assign ZrotationDegrees := flit "0.0f" ;;
  assign scaleXYZ := (flit "0.25f", flit "0.25f", flit "0.25f") ;;
  assign XrotationDegrees := flit "0.0f" ;;
  assign YrotationDegrees := flit "0.0f" ;;
  assign ZrotationDegrees := flit "0.0f" ;;
  assign positionXYZ := (flit "-4.5f", flit "8.5f", flit "-2.75f") ;;
  SetTransformations scaleXYZ XrotationDegrees YrotationDegrees
    ZrotationDegrees positionXYZ ;;
  SetShaderColor (flit "0.961") (flit "0.871") (flit "0.702") (flit "1") ;;
  emit (Mesh "DrawCylinderMesh") ;;
  assign scaleXYZ := (flit "0.19f", flit "0.19f", flit "0.19f") ;;
  assign XrotationDegrees := flit "90.0f" ;;
  assign YrotationDegrees := flit "0.0f" ;;
  assign ZrotationDegrees := flit "0.0f" ;;
  assign positionXYZ := (flit "-4.5f", flit "8.75f", flit "-2.75f") ;;
  SetTransformations scaleXYZ XrotationDegrees YrotationDegrees
    ZrotationDegrees positionXYZ ;;
  SetShaderColor (flit "0.961") (flit "0.871") (flit "0.702") (flit "1") ;;
  emit (Mesh "DrawTorusMesh") ;;
  assign scaleXYZ := (flit "0.5f", flit "2.5f", flit "0.5f") ;;
  assign XrotationDegrees := flit "0.0f" ;;
  assign YrotationDegrees := flit "0.0f" ;;
  assign ZrotationDegrees := flit "0.0f" ;;
  assign positionXYZ := (flit "-4.5f", flit "8.75f", flit "-2.75f") ;;
  SetTransformations scaleXYZ XrotationDegrees YrotationDegrees
    ZrotationDegrees positionXYZ ;;
  SetShaderColor (flit "0.1") (flit "0.1") (flit "0.1") (flit "1") ;;
  SetShaderTexture "leaf" ;;
  SetTextureUVScale (flit "4") (flit "4") ;;
  emit (Mesh "DrawConeMesh") ;;
  assign scaleXYZ := (flit "0.25f", flit "0.25f", flit "0.25f") ;;
  assign XrotationDegrees := flit "0.0f" ;;
  assign YrotationDegrees := flit "0.0f" ;;
  assign ZrotationDegrees := flit "0.0f" ;;
  assign positionXYZ := (flit "4.5f", flit "8.5f", flit "-2.75f") ;;
  SetTransformations scaleXYZ XrotationDegrees YrotationDegrees
    ZrotationDegrees positionXYZ ;;
  SetShaderColor (flit "0.961") (flit "0.871") (flit "0.702") (flit "1") ;;
  emit (Mesh "DrawCylinderMesh") ;;
  assign scaleXYZ := (flit "0.19f", flit "0.19f", flit "0.19f") ;;
  assign XrotationDegrees := flit "90.0f" ;;
  assign YrotationDegrees := flit "0.0f" ;;
  assign ZrotationDegrees := flit "0.0f" ;;
  assign positionXYZ := (flit "4.5f", flit "8.75f", flit "-2.75f") ;;
  SetTransformations scaleXYZ XrotationDegrees YrotationDegrees
    ZrotationDegrees positionXYZ ;;
  SetShaderColor (flit "0.961") (flit "0.871") (flit "0.702") (flit "1") ;;
  emit (Mesh "DrawTorusMesh") ;;
  assign scaleXYZ := (flit "0.5f", flit "2.5f", flit "0.5f") ;;
  assign XrotationDegrees := flit "0.0f" ;;
  assign YrotationDegrees := flit "0.0f" ;;
  assign ZrotationDegrees := flit "0.0f" ;;
  assign positionXYZ := (flit "4.5f", flit "8.75f", flit "-2.75f") ;;
  SetTransformations scaleXYZ XrotationDegrees YrotationDegrees
    ZrotationDegrees positionXYZ ;;
  SetShaderColor (flit "0.1") (flit "0.1") (flit "0.1") (flit "1") ;;
  SetShaderTexture "leaf" ;;
  SetTextureUVScale (flit "4") (flit "4") ;;
  emit (Mesh "DrawConeMesh").

(** [SceneManager::RenderWoodenBowl()], source lines 1898 to 1959. *)
Definition RenderWoodenBowl (indeterminate : Z -> OBJECT_MATERIAL) : M unit :=
  assign XrotationDegrees := flit "0.0f" ;;
  assign YrotationDegrees := flit "0.0f" ;;
  assign ZrotationDegrees := flit "0.0f" ;;
  assign scaleXYZ := (flit "1.35f", flit "0.4f", flit "0.4f") ;;
  assign XrotationDegrees := flit "90.0f" ;;
  assign YrotationDegrees := flit "0.0f" ;;
  assign ZrotationDegrees := flit "0.0f" ;;
  assign positionXYZ := (flit "0.0f", flit "8.75f", flit "-2.9f") ;;
  SetTransformations scaleXYZ XrotationDegrees YrotationDegrees
    ZrotationDegrees positionXYZ ;;
  SetShaderTexture "rusticwood" ;;
  SetShaderMaterial "wood" (indeterminate 1928) ;;
  emit (Mesh "DrawTorusMesh") ;;
  assign scaleXYZ := (flit "1.7f", flit "0.2f", flit "0.5f") ;;
  assign XrotationDegrees := flit "180.0f" ;;
  assign YrotationDegrees := flit "0.0f" ;;
  assign ZrotationDegrees := flit "0.0f" ;;
  assign positionXYZ := (flit "0.0f", flit "8.7f", flit "-2.9f") ;;
  SetTransformations scaleXYZ XrotationDegrees YrotationDegrees
    ZrotationDegrees positionXYZ ;;
  SetShaderTexture "rusticwood" ;;
  SetShaderMaterial "wood" (indeterminate 1956) ;;
  emit (Mesh "DrawHalfSphereMesh").

(** [SceneManager::RenderFireBox()], source lines 1215 to 1685. *)
Definition RenderFireBox (indeterminate : Z -> OBJECT_MATERIAL) : M unit :=
  assign XrotationDegrees := flit "0.0f" ;;
  assign YrotationDegrees := flit "0.0f" ;;
  assign ZrotationDegrees := flit "0.0f" ;;
  assign scaleXYZ := (flit "3.5f", flit "6.0f", flit "3.0f") ;;
  assign XrotationDegrees := flit "90.0f" ;;
  assign YrotationDegrees := flit "0.0f" ;;
  assign ZrotationDegrees := flit "0.0f" ;;
  assign positionXYZ := (flit "0.0f", flit "3.0f", flit "-7.5f") ;;
  SetTransformations scaleXYZ XrotationDegrees YrotationDegrees
    ZrotationDegrees positionXYZ ;;
  SetShaderTexture "brick" ;;
  emit (Mesh "DrawPlaneMesh") ;;
  assign scaleXYZ := (flit "3.0f", flit "0.0f", flit "3.0f") ;;
  assign XrotationDegrees := flit "90.0f" ;;
  assign YrotationDegrees := flit "70.0f" ;;
  assign ZrotationDegrees := flit "0.0f" ;;
  assign positionXYZ := (flit "-2.4f", flit "3.0f", flit "-6.84f") ;;
  SetTransformations scaleXYZ XrotationDegrees YrotationDegrees
    ZrotationDegrees positionXYZ ;;
  SetShaderTexture "brick" ;;
  emit (Mesh "DrawPlaneMesh") ;;
  assign scaleXYZ := (flit "3.0f", flit "0.0f", flit "3.0f") ;;
  assign XrotationDegrees := flit "90.0f" ;;
  assign YrotationDegrees := flit "-70.0f" ;;
  assign ZrotationDegrees := flit "0.0f" ;;
  assign positionXYZ := (flit "2.4f", flit "3.0f", flit "-6.84f") ;;
  SetTransformations scaleXYZ XrotationDegrees YrotationDegrees
    ZrotationDegrees positionXYZ ;;
  SetShaderTexture "brick" ;;
  emit (Mesh "DrawPlaneMesh") ;;
  assign scaleXYZ := (flit "6.5f", flit "1.0f", flit "5.0f") ;;
  assign XrotationDegrees := flit "0.0f" ;;
  assign YrotationDegrees := flit "0.0f" ;;
  assign ZrotationDegrees := flit "0.0f" ;;
  assign positionXYZ := (flit "0.0f", flit "0.5f", flit "-7.00f") ;;
  SetTransformations scaleXYZ XrotationDegrees YrotationDegrees
    ZrotationDegrees positionXYZ ;;
  SetShaderTexture "metal" ;;
  SetShaderMaterial "metal" (indeterminate 1326) ;;
  emit (Mesh "DrawBoxMesh") ;;
  assign scaleXYZ := (flit "6.5f", flit "1.0f", flit "5.0f") ;;
  assign XrotationDegrees := flit "0.0f" ;;
  assign YrotationDegrees := flit "0.0f" ;;
  assign ZrotationDegrees := flit "0.0f" ;;
  assign positionXYZ := (flit "0.0f", flit "5.5f", flit "-7.00f") ;;
  SetTransformations scaleXYZ XrotationDegrees YrotationDegrees
    ZrotationDegrees positionXYZ ;;
  SetShaderTexture "metal" ;;
  SetShaderMaterial "metal" (indeterminate 1353) ;;
  emit (Mesh "DrawBoxMesh") ;;
  assign scaleXYZ := (flit "7.0f", flit "1.0f", flit "0.45f") ;;
  assign XrotationDegrees := flit "0.0f" ;;
  assign YrotationDegrees := flit "0.0f" ;;
  assign ZrotationDegrees := flit "0.0f" ;;
  assign positionXYZ := (flit "0.0f", flit "0.5f", flit "-4.3f") ;;
  SetTransformations scaleXYZ XrotationDegrees YrotationDegrees
    ZrotationDegrees positionXYZ ;;
  SetShaderTexture "metal2" ;;
  SetShaderMaterial "metal" (indeterminate 1383) ;;
  emit (Mesh "DrawBoxMesh") ;;
  assign scaleXYZ := (flit "7.0f", flit "1.0f", flit "0.45f") ;;
  assign XrotationDegrees := flit "0.0f" ;;
  assign YrotationDegrees := flit "0.0f" ;;
  assign ZrotationDegrees := flit "0.0f" ;;
  assign positionXYZ := (flit "0.0f", flit "5.5f", flit "-4.3f") ;;
  SetTransformations scaleXYZ XrotationDegrees YrotationDegrees
    ZrotationDegrees positionXYZ ;;
  SetShaderTexture "metal2" ;;
  SetShaderMaterial "metal" (indeterminate 1411) ;;
  emit (Mesh "DrawBoxMesh") ;;
  assign scaleXYZ := (flit "5.0f", flit "0.10f", flit "0.45f") ;;
  assign XrotationDegrees := flit "0.0f" ;;
  assign YrotationDegrees := flit "0.0f" ;;
  assign ZrotationDegrees := flit "90.0f" ;;
  assign positionXYZ := (flit "-3.2f", flit "3.5f", flit "-4.3f") ;;
  SetTransformations scaleXYZ XrotationDegrees YrotationDegrees
    ZrotationDegrees positionXYZ ;;
  SetShaderTexture "metal2" ;;
  SetShaderMaterial "metal" (indeterminate 1441) ;;
  emit (Mesh "DrawBoxMesh") ;;
  assign scaleXYZ := (flit "5.0f", flit "0.10f", flit "0.45f") ;;
  assign XrotationDegrees := flit "0.0f" ;;
  assign YrotationDegrees := flit "0.0f" ;;
  assign ZrotationDegrees := flit "90.0f" ;;
  assign positionXYZ := (flit "3.2f", flit "3.5f", flit "-4.3f") ;;
  SetTransformations scaleXYZ XrotationDegrees YrotationDegrees
    ZrotationDegrees positionXYZ ;;
  SetShaderTexture "metal2" ;;
  SetShaderMaterial "metal" (indeterminate 1469) ;;
  emit (Mesh "DrawBoxMesh") ;;
  assign scaleXYZ := (flit "0.8f", flit "0.2f", flit "0.2f") ;;
  assign XrotationDegrees := flit "0.0f" ;;
  assign YrotationDegrees := flit "90.0f" ;;
  assign ZrotationDegrees := flit "180.0f" ;;
  assign positionXYZ := (flit "-1.5f", flit "1.5f", flit "-6.0f") ;;
  SetTransformations scaleXYZ XrotationDegrees YrotationDegrees
    ZrotationDegrees positionXYZ ;;
  SetShaderTexture "metal2" ;;
  SetShaderMaterial "metal" (indeterminate 1497) ;;
  emit (Mesh "DrawHalfTorusMesh") ;;
  assign scaleXYZ := (flit "0.5f", flit "0.2f", flit "0.2f") ;;
  assign XrotationDegrees := flit "0.0f" ;;
  assign YrotationDegrees := flit "90.0f" ;;
  assign ZrotationDegrees := flit "0.0f" ;;
  assign positionXYZ := (flit "-1.5f", flit "1.0f", flit "-6.0f") ;;
  SetTransformations scaleXYZ XrotationDegrees YrotationDegrees
    ZrotationDegrees positionXYZ ;;
  SetShaderTexture "metal2" ;;
  SetShaderMaterial "metal" (indeterminate 1524) ;;
  emit (Mesh "DrawHalfTorusMesh") ;;
  assign scaleXYZ := (flit "0.8f", flit "0.2f", flit "0.2f") ;;
  assign XrotationDegrees := flit "0.0f" ;;
  assign YrotationDegrees := flit "90.0f" ;;
  assign ZrotationDegrees := flit "180.0f" ;;
  assign positionXYZ := (flit "1.5f", flit "1.5f", flit "-6.0f") ;;
  SetTransformations scaleXYZ XrotationDegrees YrotationDegrees
    ZrotationDegrees positionXYZ ;;
  SetShaderTexture "metal2" ;;
  SetShaderMaterial "metal" (indeterminate 1552) ;;
  emit (Mesh "DrawHalfTorusMesh") ;;
  assign scaleXYZ := (flit "0.5f", flit "0.2f", flit "0.2f") ;;
  assign XrotationDegrees := flit "0.0f" ;;
  assign YrotationDegrees := flit "90.0f" ;;
  assign ZrotationDegrees := flit "0.0f" ;;
  assign positionXYZ := (flit "1.5f", flit "1.0f", flit "-6.0f") ;;
  SetTransformations scaleXYZ XrotationDegrees YrotationDegrees
    ZrotationDegrees positionXYZ ;;
  SetShaderTexture "metal2" ;;
  SetShaderMaterial "metal" (indeterminate 1579) ;;
  emit (Mesh "DrawHalfTorusMesh") ;;
  assign scaleXYZ := (flit ".3f", flit "3.50f", flit ".3f") ;;
  assign XrotationDegrees := flit "0.0f" ;;
  assign YrotationDegrees := flit "0.0f" ;;
  assign ZrotationDegrees := flit "90.0f" ;;
  assign positionXYZ := (flit "1.8f", flit "1.6f", flit "-5.6f") ;;
  SetTransformations scaleXYZ XrotationDegrees YrotationDegrees
    ZrotationDegrees positionXYZ ;;
  SetShaderTexture "bark" ;;
  SetShaderMaterial "wood" (indeterminate 1611) ;;
  emit (Mesh "DrawCylinderMesh(false, false)") ;;
  SetShaderTexture "tree_end" ;;
  SetShaderMaterial "wood" (indeterminate 1616) ;;
  emit (Mesh "DrawCylinderMesh(true, true, false)") ;;
  assign scaleXYZ := (flit ".3f", flit "3.50f", flit ".3f") ;;
  assign XrotationDegrees := flit "0.0f" ;;
  assign YrotationDegrees := flit "0.0f" ;;
  assign ZrotationDegrees := flit "90.0f" ;;
  assign positionXYZ := (flit "1.8f", flit "1.6f", flit "-6.3f") ;;
  SetTransformations scaleXYZ XrotationDegrees YrotationDegrees
    ZrotationDegrees positionXYZ ;;
  SetShaderTexture "bark" ;;
  SetShaderMaterial "wood" (indeterminate 1644) ;;
  emit (Mesh "DrawCylinderMesh(false, false)") ;;
  SetShaderTexture "tree_end" ;;
  SetShaderMaterial "wood" (indeterminate 1649) ;;
  emit (Mesh "DrawCylinderMesh(true, true, false)") ;;
  assign scaleXYZ := (flit ".3f", flit "3.50f", flit ".3f") ;;
  assign XrotationDegrees := flit "20.0f" ;;
  assign YrotationDegrees := flit "0.0f" ;;
  assign ZrotationDegrees := flit "90.0f" ;;
  assign positionXYZ := (flit "1.8f", flit "2.1f", flit "-6.5f") ;;
  SetTransformations scaleXYZ XrotationDegrees YrotationDegrees
    ZrotationDegrees positionXYZ ;;
  SetShaderTexture "bark" ;;
  SetShaderMaterial "wood" (indeterminate 1676) ;;
  emit (Mesh "DrawCylinderMesh(false, false)") ;;
  SetShaderTexture "tree_end" ;;
  SetShaderMaterial "wood" (indeterminate 1681) ;;
  emit (Mesh "DrawCylinderMesh(true, true, false)").

(** [SceneManager::RenderScene()], source lines 665 to 1213. *)
Definition RenderScene (indeterminate : Z -> OBJECT_MATERIAL) : M unit :=
  RenderWall ;;
  RenderFireBox indeterminate ;;
  RenderTrees ;;
  RenderWoodenBowl indeterminate ;;
  assign XrotationDegrees := flit "0.0f" ;;
  assign YrotationDegrees := flit "0.0f" ;;
  assign ZrotationDegrees := flit "0.0f" ;;
  assign scaleXYZ := (flit "20.0f", flit "1.0f", flit "10.0f") ;;
  assign XrotationDegrees := flit "0.0f" ;;
  assign YrotationDegrees := flit "0.0f" ;;
  assign ZrotationDegrees := flit "0.0f" ;;
  assign positionXYZ := (flit "0.0f", flit "0.0f", flit "0.0f") ;;
  SetTransformations scaleXYZ XrotationDegrees YrotationDegrees
    ZrotationDegrees positionXYZ ;;
  SetShaderTexture "floor" ;;
  SetTextureUVScale (flit "1") (flit "1") ;;
  emit (Mesh "DrawPlaneMesh") ;;
  assign scaleXYZ := (flit "40.0f", flit "0.5f", flit "0.1f") ;;
  assign XrotationDegrees := flit "0.0f" ;;
  assign YrotationDegrees := flit "0.0f" ;;
  assign ZrotationDegrees := flit "0.0f" ;;
  assign positionXYZ := (flit "0.0f", flit "0.25f", flit "-9.95f") ;;
  SetTransformations scaleXYZ XrotationDegrees YrotationDegrees
    ZrotationDegrees positionXYZ ;;
  SetShaderColor (flit "1") (flit "1") (flit "1") (flit "1") ;;
  SetShaderMaterial "wood" (indeterminate 729) ;;
  emit (Mesh "DrawBoxMesh") ;;
  assign scaleXYZ := (flit "5.25f", flit "0.5f", flit "0.1f") ;;
  assign XrotationDegrees := flit "0.0f" ;;
  assign YrotationDegrees := flit "90.0f" ;;
  assign ZrotationDegrees := flit "0.0f" ;;
  assign positionXYZ := (flit "-6.03f", flit "0.25f", flit "-6.87f") ;;
  SetTransformations scaleXYZ XrotationDegrees YrotationDegrees
    ZrotationDegrees positionXYZ ;;
  SetShaderColor (flit "1") (flit "1") (flit "1") (flit "1") ;;
  SetShaderMaterial "wood" (indeterminate 761) ;;
  emit (Mesh "DrawBoxMesh") ;;
  assign scaleXYZ := (flit "5.25f", flit "0.5f", flit "0.1f") ;;
  assign XrotationDegrees := flit "0.0f" ;;
  assign YrotationDegrees := flit "90.0f" ;;
  assign ZrotationDegrees := flit "0.0f" ;;
  assign positionXYZ := (flit "6.03f", flit "0.25f", flit "-6.87f") ;;
  SetTransformations scaleXYZ XrotationDegrees YrotationDegrees
    ZrotationDegrees positionXYZ ;;
  SetShaderColor (flit "1") (flit "1") (flit "1") (flit "1") ;;
  SetShaderMaterial "wood" (indeterminate 793) ;;
  emit (Mesh "DrawBoxMesh") ;;
  assign scaleXYZ := (flit "12.0f", flit "10.0f", flit "6.0f") ;;
  assign XrotationDegrees := flit "0.0f" ;;
  assign YrotationDegrees := flit "0.0f" ;;
  assign ZrotationDegrees := flit "0.0f" ;;
  assign positionXYZ := (flit "0.0f", flit "11.0f", flit "-7.0f") ;;
  SetTransformations scaleXYZ XrotationDegrees YrotationDegrees
    ZrotationDegrees positionXYZ ;;
  SetShaderTexture "shiplap" ;;
  SetShaderMaterial "shiplap" (indeterminate 822) ;;
  SetTextureUVScale (flit "2.0") (flit "2.0") ;;
  emit (Mesh "DrawBoxMesh") ;;
  assign scaleXYZ := (flit "2.75f", flit "6.0f", flit "6.0f") ;;
  assign XrotationDegrees := flit "0.0f" ;;
  assign YrotationDegrees := flit "0.0f" ;;
  assign ZrotationDegrees := flit "0.0f" ;;
  assign positionXYZ := (flit "-4.6f", flit "3.0f", flit "-7.0f") ;;
  SetTransformations scaleXYZ XrotationDegrees YrotationDegrees
    ZrotationDegrees positionXYZ ;;
  SetShaderTexture "shiplap" ;;
  SetShaderMaterial "shiplap" (indeterminate 850) ;;
  emit (Mesh "DrawBoxMesh") ;;
  assign scaleXYZ := (flit "2.75f", flit "6.0f", flit "6.0f") ;;
  assign XrotationDegrees := flit "0.0f" ;;
  assign YrotationDegrees := flit "0.0f" ;;
  assign ZrotationDegrees := flit "0.0f" ;;
  assign positionXYZ := (flit "4.6f", flit "3.0f", flit "-7.0f") ;;
  SetTransformations scaleXYZ XrotationDegrees YrotationDegrees
    ZrotationDegrees positionXYZ ;;
  SetShaderTexture "shiplap" ;;
  SetShaderMaterial "shiplap" (indeterminate 878) ;;
  emit (Mesh "DrawBoxMesh") ;;
  assign scaleXYZ := (flit "0.5f", flit "16.0f", flit "0.5f") ;;
  assign XrotationDegrees := flit "0.0f" ;;
  assign YrotationDegrees := flit "0.0f" ;;
  assign ZrotationDegrees := flit "0.0f" ;;
  assign positionXYZ := (flit "-5.9f", flit "8.0f", flit "-4.0f") ;;
  SetTransformations scaleXYZ XrotationDegrees YrotationDegrees
    ZrotationDegrees positionXYZ ;;
  SetShaderColor (flit "1") (flit "1") (flit "1") (flit "1") ;;
  SetShaderMaterial "wood" (indeterminate 908) ;;
  emit (Mesh "DrawBoxMesh") ;;
  assign scaleXYZ := (flit "0.5f", flit "16.0f", flit "0.5f") ;;
  assign XrotationDegrees := flit "0.0f" ;;
  assign YrotationDegrees := flit "0.0f" ;;
  assign ZrotationDegrees := flit "0.0f" ;;
  assign positionXYZ := (flit "5.9f", flit "8.0f", flit "-4.0f") ;;
  SetTransformations scaleXYZ XrotationDegrees YrotationDegrees
    ZrotationDegrees positionXYZ ;;
  SetShaderColor (flit "1") (flit "1") (flit "1") (flit "1") ;;
  SetShaderMaterial "wood" (indeterminate 936) ;;
  emit (Mesh "DrawBoxMesh") ;;
  assign scaleXYZ := (flit "0.5f", flit "16.0f", flit "0.5f") ;;
  assign XrotationDegrees := flit "0.0f" ;;
  assign YrotationDegrees := flit "0.0f" ;;
  assign ZrotationDegrees := flit "0.0f" ;;
  assign positionXYZ := (flit "-5.9f", flit "8.0f", flit "-9.75f") ;;
  SetTransformations scaleXYZ XrotationDegrees YrotationDegrees
    ZrotationDegrees positionXYZ ;;
  SetShaderColor (flit "1") (flit "1") (flit "1") (flit "1") ;;
  SetShaderMaterial "wood" (indeterminate 964) ;;
  emit (Mesh "DrawBoxMesh") ;;
  assign scaleXYZ := (flit "0.5f", flit "16.0f", flit "0.5f") ;;
  assign XrotationDegrees := flit "0.0f" ;;
  assign YrotationDegrees := flit "0.0f" ;;
  assign ZrotationDegrees := flit "0.0f" ;;
  assign positionXYZ := (flit "5.9f", flit "8.0f", flit "-9.75f") ;;
  SetTransformations scaleXYZ XrotationDegrees YrotationDegrees
    ZrotationDegrees positionXYZ ;;
  SetShaderColor (flit "1") (flit "1") (flit "1") (flit "1") ;;
  SetShaderMaterial "wood" (indeterminate 992) ;;
  emit (Mesh "DrawBoxMesh") ;;
  assign scaleXYZ := (flit "10.0f", flit "1.0f", flit "2.0f") ;;
  assign XrotationDegrees := flit "0.0f" ;;
  assign YrotationDegrees := flit "0.0f" ;;
  assign ZrotationDegrees := flit "0.0f" ;;
  assign positionXYZ := (flit "0.0f", flit "8.0f", flit "-3.0f") ;;
  SetTransformations scaleXYZ XrotationDegrees YrotationDegrees
    ZrotationDegrees positionXYZ ;;
  SetShaderTexture "mantle" ;;
  SetShaderMaterial "wood" (indeterminate 1021) ;;
  emit (Mesh "DrawBoxMesh") ;;
  assign scaleXYZ := (flit "9.0f", flit "5.0f", flit "0.25f") ;;
  assign XrotationDegrees := flit "0.0f" ;;
  assign YrotationDegrees := flit "0.0f" ;;
  assign ZrotationDegrees := flit "0.0f" ;;
  assign positionXYZ := (flit "0.0f", flit "11.5f", flit "-3.6f") ;;
  SetTransformations scaleXYZ XrotationDegrees YrotationDegrees
    ZrotationDegrees positionXYZ ;;
  SetShaderColor (flit "0") (flit "0") (flit "0") (flit "1") ;;
  emit (Mesh "DrawBoxMesh") ;;
  assign scaleXYZ := (flit "8.75f", flit "4.75f", flit "0.25f") ;;
  assign XrotationDegrees := flit "0.0f" ;;
  assign YrotationDegrees := flit "0.0f" ;;
  assign ZrotationDegrees := flit "0.0f" ;;
  assign positionXYZ := (flit "0.0f", flit "11.5f", flit "-3.59f") ;;
  SetTransformations scaleXYZ XrotationDegrees YrotationDegrees
    ZrotationDegrees positionXYZ ;;
  SetShaderColor (flit "0.01") (flit "0.01") (flit "0.01") (flit "1") ;;
  SetShaderMaterial "metal" (indeterminate 1074) ;;
  SetTextureUVScale (flit "1") (flit "1") ;;
  emit (Mesh "DrawBoxMesh") ;;
  assign scaleXYZ := (flit "0.21f", flit "0.21f", flit "0.17f") ;;
  assign XrotationDegrees := flit "90.0f" ;;
  assign YrotationDegrees := flit "0.0f" ;;
  assign ZrotationDegrees := flit "0.0f" ;;
  assign positionXYZ := (flit "-3.5f", flit "8.6f", flit "-2.6f") ;;
  SetTransformations scaleXYZ XrotationDegrees YrotationDegrees
    ZrotationDegrees positionXYZ ;;
  SetShaderColor (flit "0.9") (flit "0.9") (flit "0.9") (flit "1") ;;
  SetShaderMaterial "metal" (indeterminate 1103) ;;
  emit (Mesh "DrawSphereMesh") ;;
  assign scaleXYZ := (flit "0.15f", flit "0.15f", flit "0.15f") ;;
  assign XrotationDegrees := flit "90.0f" ;;
  assign YrotationDegrees := flit "0.0f" ;;
  assign ZrotationDegrees := flit "0.0f" ;;
  assign positionXYZ := (flit "-3.5f", flit "8.74f", flit "-2.6f") ;;
  SetTransformations scaleXYZ XrotationDegrees YrotationDegrees
    ZrotationDegrees positionXYZ ;;
  SetShaderColor (flit "0.9") (flit "0.9") (flit "0.9") (flit "1") ;;
  SetShaderMaterial "metal" (indeterminate 1130) ;;
  emit (Mesh "DrawSphereMesh") ;;
  assign scaleXYZ := (flit "0.11f", flit "0.11f", flit "0.11f") ;;
  assign XrotationDegrees := flit "90.0f" ;;
  assign YrotationDegrees := flit "0.0f" ;;
  assign ZrotationDegrees := flit "0.0f" ;;
  assign positionXYZ := (flit "-3.5f", flit "8.87f", flit "-2.6f") ;;
  SetTransformations scaleXYZ XrotationDegrees YrotationDegrees
    ZrotationDegrees positionXYZ ;;
  SetShaderColor (flit "0.9") (flit "0.9") (flit "0.9") (flit "1") ;;
  SetShaderMaterial "metal" (indeterminate 1157) ;;
  emit (Mesh "DrawSphereMesh") ;;
  assign scaleXYZ := (flit "0.09f", flit "0.13f", flit "0.09f") ;;
  assign XrotationDegrees := flit "0.0f" ;;
  assign YrotationDegrees := flit "0.0f" ;;
  assign ZrotationDegrees := flit "0.0f" ;;
  assign positionXYZ := (flit "-3.5f", flit "8.94f", flit "-2.6f") ;;
  SetTransformations scaleXYZ XrotationDegrees YrotationDegrees
    ZrotationDegrees positionXYZ ;;
  SetShaderColor (flit "0.01") (flit "0.01") (flit "0.01") (flit "1") ;;
  SetShaderMaterial "metal" (indeterminate 1183) ;;
  emit (Mesh "DrawCylinderMesh") ;;
  assign scaleXYZ := (flit "0.1f", flit "0.1f", flit "0.03f") ;;
  assign XrotationDegrees := flit "90.0f" ;;
  assign YrotationDegrees := flit "0.0f" ;;
  assign ZrotationDegrees := flit "0.0f" ;;
  assign positionXYZ := (flit "-3.5f", flit "8.94f", flit "-2.6f") ;;
  SetTransformations scaleXYZ XrotationDegrees YrotationDegrees
    ZrotationDegrees positionXYZ ;;
  SetShaderColor (flit "0.01") (flit "0.01") (flit "0.01") (flit "1") ;;
  SetShaderMaterial "metal" (indeterminate 1210) ;;
  emit (Mesh "DrawTorusMesh").

End Rendering.

(** ** Vocabulary of the statements *)

Section Vocabulary.
Context {glm : GLM}.

(** The array has its sixteen entries and the count points into it. *)
Definition well_formed (s : SceneManager) : Prop :=
  length (m_textureIDs s) = 16%nat /\ 0 <= m_loadedTextures s <= capacity.

(** The entries below [m_loadedTextures], in slot order. *)
Definition loaded (s : SceneManager) : list TEXTURE_INFO :=
  take (Z.to_nat (m_loadedTextures s)) (m_textureIDs s).

(** First entry with the tag, and its position. *)
Fixpoint first_match (t : string) (l : list TEXTURE_INFO)
    : option (nat * TEXTURE_INFO) :=
  match l with
  | [] => None
  | e :: rest =>
      if bool_decide (tag e = t) then Some (O, e)
      else match first_match t rest with
           | Some (i, e') => Some (S i, e')
           | None => None
           end
  end.

(** What the two lookups make of the first match, or of its absence. *)
Definition slot_of (r : option (nat * TEXTURE_INFO)) : Z :=
  match r with
  | Some (k, _) => Z.of_nat k
  | None => -1
  end.

Definition handle_of (r : option (nat * TEXTURE_INFO)) : Z :=
  match r with
  | Some (_, e) => int_of_GLuint (ID e)
  | None => -1
  end.

(** The texture names the driver handed out, in order. *)
Fixpoint generated (tr : list event) : list Z :=
  match tr with
  | [] => []
  | GL (glGenTextures name) :: rest => name :: generated rest
  | _ :: rest => generated rest
  end.

(** The names that were freed. *)
Fixpoint deleted (tr : list event) : list Z :=
  match tr with
  | [] => []
  | GL (glDeleteTextures name) :: rest => name :: deleted rest
  | _ :: rest => deleted rest
  end.

(** How often the image loader was asked to decode a file. *)
Fixpoint decodes (tr : list event) : nat :=
  match tr with
  | [] => 0
  | stbi_load_call _ :: rest => S (decodes rest)
  | _ :: rest => decodes rest
  end.

(** The value a uniform currently has: the last push under its name. *)
Fixpoint uniform_value (sm : ShaderManager) (name : string) : option uniform :=
  match sm with
  | [] => None
  | (n, v) :: rest =>
      match uniform_value rest name with
      | Some v' => Some v'
      | None => if bool_decide (n = name) then Some v else None
      end
  end.

(** The three pushes of [SetShaderMaterial], for the material [m]. *)
Definition material_pushes (m : OBJECT_MATERIAL) : ShaderManager :=
  [ ("material.diffuseColor", Vec3Value (diffuseColor m));
    ("material.specularColor", Vec3Value (specularColor m));
    ("material.shininess", FloatValue (shininess m)) ].

(** A step that leaves the texture registry alone and can only go wrong by
    dereferencing a shader manager that was null to begin with. *)
Definition leaves_registry {A} (m : M A) : Prop :=
  forall s,
    match m s with
    | Done _ s' =>
        m_textureIDs s' = m_textureIDs s /\
        m_loadedTextures s' = m_loadedTextures s /\
        (m_pShaderManager s' = None <-> m_pShaderManager s = None)
    | Crash f => f = NullDereference /\ m_pShaderManager s = None
    end.

End Vocabulary.

(** ** Concrete collaborators, for running the model *)

(** Floats are the text of their literals, a matrix is the list of the
    factors it was multiplied from. *)
Definition symbolic_glm : GLM :=
  {| float := string;
     flit := fun text => text;
     mat4 := list string;
     glm_radians := fun d => "radians(" +:+ d +:+ ")";
     glm_scale := fun v => ["scale(" +:+ v.1.1 +:+ "," +:+ v.1.2 +:+ "," +:+ v.2 +:+ ")"];
     glm_rotate := fun a v =>
       ["rotate(" +:+ a +:+ ";" +:+ v.1.1 +:+ "," +:+ v.1.2 +:+ "," +:+ v.2 +:+ ")"];
     glm_translate := fun v =>
       ["translate(" +:+ v.1.1 +:+ "," +:+ v.1.2 +:+ "," +:+ v.2 +:+ ")"];
     mat4_mul := fun a b => a ++ b |}.

Definition symbolic_product (factors : list string) : @mat4 symbolic_glm :=
  factors.

(** A loader that decodes every file but two, and a driver that numbers
    its textures 1, 2, 3, ... *)
Definition test_platform : Platform :=
  {| stbi_load := fun filename =>
       if bool_decide (filename = "missing.jpg") then None
       else if bool_decide (filename = "gray.png") then
         Some {| width := 4; height := 4; colorChannels := 1 |}
       else Some {| width := 4; height := 4; colorChannels := 3 |};
     gl_fresh_name := fun tr => Z.of_nat (length (generated tr)) + 1 |}.

Definition wood : @OBJECT_MATERIAL symbolic_glm :=
  make_material ("0.2f", "0.2f", "0.3f") ("0.0f", "0.0f", "0.0f") "0.1" "wood".

(** What an uninitialised local might hold. *)
Definition garbage : @OBJECT_MATERIAL symbolic_glm :=
  make_material ("?", "?", "?") ("?", "?", "?") "?" "".

(** A fresh scene manager with a shader manager that saw nothing yet. *)
Definition fresh : @SceneManager symbolic_glm := SceneManager_ctor (Some []) [].

(** One material defined, as in the scenario of a lookup that misses. *)
Definition one_wood : @SceneManager symbolic_glm :=
  set_objectMaterials [wood] fresh.

(** The same without a shader manager. *)
Definition headless : @SceneManager symbolic_glm := SceneManager_ctor None [].

(** One texture loaded, under a name that reads back as [-1]. *)
Definition clash : @SceneManager symbolic_glm :=
  set_loadedTextures 1
    (set_textureIDs (<[0%nat := {| tag := "a"; ID := 4294967295 |}]>
                       (m_textureIDs fresh)) fresh).

Definition headless_wood : @SceneManager symbolic_glm :=
  set_objectMaterials [wood] headless.

(** A driver that hands out names downwards from [top]; every file decodes
    to a three-channel image. *)
Definition counting_down (top : Z) : Platform :=
  {| stbi_load := fun _ =>
       Some {| width := 4; height := 4; colorChannels := 3 |};
     gl_fresh_name := fun tr => top - Z.of_nat (length (generated tr)) |}.

(** One texture loaded into the constructor's registry under that driver. *)
Definition loaded_under (top : Z) : @SceneManager symbolic_glm :=
  match @load_textures symbolic_glm (counting_down top) [("a.jpg", "a")]
          fresh with
  | Done _ s => s
  | Crash _ => fresh
  end.

(** Three loads, the third under a tag already taken. *)
Definition three_files : list (string * string) :=
  [("a.jpg", "floor"); ("b.jpg", "brick"); ("c.jpg", "floor")].

Definition after_three : @SceneManager symbolic_glm :=
  match @load_textures symbolic_glm test_platform three_files fresh with
  | Done _ s => s
  | Crash _ => fresh
  end.

(** Sixteen loads fill the registry. *)
Definition sixteen_files : list (string * string) :=
  (fun i => ("t" +:+ i +:+ ".jpg", "t" +:+ i)) <$>
    ["0"; "1"; "2"; "3"; "4"; "5"; "6"; "7"; "8"; "9"; "10"; "11";
     "12"; "13"; "14"; "15"].

Definition full : @SceneManager symbolic_glm :=
  match @load_textures symbolic_glm test_platform sixteen_files fresh with
  | Done _ s => s
  | Crash _ => fresh
  end.

(** One texture loaded. *)
Definition one_loaded : @SceneManager symbolic_glm :=
  match @CreateGLTexture symbolic_glm test_platform "a.jpg" "floor" fresh with
  | Done _ s => s
  | Crash _ => fresh
  end.

(** A load turned down for its single channel. *)
Definition after_gray : @SceneManager symbolic_glm :=
  match @CreateGLTexture symbolic_glm test_platform "gray.png" "gray" fresh with
  | Done _ s => s
  | Crash _ => fresh
  end.

(** The fresh manager after a flat colour was set. *)
Definition coloured : @SceneManager symbolic_glm :=
  match @SetShaderColor symbolic_glm "1" "0" "0" "1" fresh with
  | Done _ s => s
  | Crash _ => fresh
  end.

(** Every uninitialised local holds the same garbage. *)
Definition all_garbage : Z -> @OBJECT_MATERIAL symbolic_glm :=
  fun _ => garbage.

(** Other garbage. *)
Definition other_garbage : Z -> @OBJECT_MATERIAL symbolic_glm :=
  fun line => make_material ("!", "!", "!") ("!", "!", "!") "!" "junk".

(** ** Vocabulary of the further statements *)

Section Frames.
Context {glm : GLM}.

(** The slot array, the count and the material list are the same. *)
Definition same_registry (s s' : SceneManager) : Prop :=
  m_textureIDs s' = m_textureIDs s /\
  m_loadedTextures s' = m_loadedTextures s /\
  m_objectMaterials s' = m_objectMaterials s.

(** The value a uniform has in a state; nothing without a shader manager. *)
Definition uniform_of (s : SceneManager) (name : string) : option uniform :=
  match m_pShaderManager s with
  | Some sm => uniform_value sm name
  | None => None
  end.

(** The state after the shader manager (if any) received [pushes] and the
    collaborators saw [tr']. *)
Definition after (pushes : ShaderManager) (tr' : list event)
    (s : SceneManager) : SceneManager :=
  set_trace (trace s ++ tr')
    (set_pShaderManager
       (match m_pShaderManager s with
        | Some sm => Some (sm ++ pushes)
        | None => None
        end) s).

(** The calls of [BindGLTextures] for the entries [es] when the first of
    them sits in slot [i]. *)
Fixpoint bind_events (i : Z) (es : list TEXTURE_INFO) : list event :=
  match es with
  | [] => []
  | e :: rest =>
      GL (glActiveTexture (GL_TEXTURE0 + i)) :: GL (glBindTexture (ID e)) ::
      bind_events (i + 1) rest
  end.

Definition is_mesh_call (e : event) : Prop :=
  match e with
  | Mesh _ => True
  | _ => False
  end.

(** A sampler value that names a loaded slot. *)
Definition sampler_in_range (s : SceneManager) (p : string * uniform) : Prop :=
  match p.2 with
  | Sampler2DValue z => 0 <= z < m_loadedTextures s
  | _ => True
  end.

(** Every tag of [tags] is the tag of a loaded texture. *)
Definition textures_loaded (tags : list string) (s : SceneManager) : Prop :=
  forall t, t ∈ tags -> exists e, e ∈ loaded s /\ tag e = t.

(** Every tag of [tags] is the tag of a defined material. *)
Definition materials_defined (tags : list string) (s : SceneManager) : Prop :=
  forall t, t ∈ tags -> exists r, r ∈ m_objectMaterials s /\ mat_tag r = t.

(** An image file that [CreateGLTexture] can upload. *)
Definition supported {platform : Platform} (filename : string) : Prop :=
  exists image,
    stbi_load filename = Some image /\
    (colorChannels image = 3 \/ colorChannels image = 4).

(** The material tags the render functions ask for. *)
Definition render_materials : list string := ["metal"; "wood"; "shiplap"].

(** A step of rendering on a registry within bounds: it ends normally with
    the registry as it was, having told the collaborators nothing but mesh
    calls, or it dereferences a shader manager that is null while materials
    are defined. *)
Definition render_frame (m : M unit) : Prop :=
  forall s, well_formed s ->
    match m s with
    | Done _ s' =>
        same_registry s s' /\
        (m_pShaderManager s' = None <-> m_pShaderManager s = None) /\
        exists tr', trace s' = trace s ++ tr' /\ Forall is_mesh_call tr'
    | Crash f =>
        f = NullDereference /\ m_pShaderManager s = None /\
        m_objectMaterials s <> []
    end.

(** Without a shader manager the step only makes its mesh calls. *)
Definition headless_skip (m : M unit) : Prop :=
  forall s, m_pShaderManager s = None ->
    exists tr', m s = Done tt (set_trace (trace s ++ tr') s).

(** Without a shader manager, and with a material defined, the step
    dereferences the null pointer. *)
Definition headless_crash (m : M unit) : Prop :=
  forall s, m_pShaderManager s = None -> m_objectMaterials s <> [] ->
    m s = Crash NullDereference.

(** On a prepared scene two steps do the same: they end normally in the
    same state, which differs from the start by pushes and mesh calls only,
    and every sampler pushed names a loaded slot. *)
Definition render_alike (m m' : M unit) : Prop :=
  forall s, well_formed s -> m_pShaderManager s <> None ->
    textures_loaded scene_textures.*2 s ->
    materials_defined render_materials s ->
    exists pushes tr',
      m s = Done tt (after pushes tr' s) /\
      m' s = Done tt (after pushes tr' s) /\
      Forall (sampler_in_range s) pushes /\
      Forall is_mesh_call tr'.

End Frames.

(** * Properties *)

Section Properties.
Context {glm : GLM} {platform : Platform}.

(** ** Material registry *)

Lemma FindMaterial_loop_unmatched (ms : list OBJECT_MATERIAL) t m :
  (forall r, r ∈ ms -> mat_tag r <> t) ->
  FindMaterial_loop ms t m = m.
Proof.
  induction ms as [|r ms IH]; intros Hno; simpl; [reflexivity|].
  rewrite bool_decide_eq_false_2 by (apply Hno; left).
  apply IH. intros r' Hr'. apply Hno. now right.
Qed.

Lemma FindMaterial_loop_first (before after : list OBJECT_MATERIAL) r t m :
  (forall r', r' ∈ before -> mat_tag r' <> t) ->
  mat_tag r = t ->
  FindMaterial_loop (before ++ r :: after) t m = copy_material r m.
Proof.
  intros Hno Hr. induction before as [|b before IH]; simpl.
  - now rewrite bool_decide_eq_true_2.
  - rewrite bool_decide_eq_false_2 by (apply Hno; left).
    apply IH. intros r' Hr'. apply Hno. now right.
Qed.

(** On an empty registry the lookup says not-found and hands the output
    parameter back as it came. *)
Lemma FindMaterial_empty (s : SceneManager) t m :
  m_objectMaterials s = [] ->
  FindMaterial t m s = Done (false, m) s.
Proof. intros H. unfold FindMaterial, bind, get. now rewrite H. Qed.

(** With a record of that tag present, the lookup says found and the output
    carries the three fields of the first such record. *)
Lemma FindMaterial_found (s : SceneManager) before after r t m :
  m_objectMaterials s = before ++ r :: after ->
  (forall r', r' ∈ before -> mat_tag r' <> t) ->
  mat_tag r = t ->
  FindMaterial t m s = Done (true, copy_material r m) s.
Proof.
  intros H Hno Hr. unfold FindMaterial, bind, get. rewrite H.
  rewrite bool_decide_eq_false_2 by (rewrite length_app; simpl; lia).
  unfold ret. now rewrite FindMaterial_loop_first.
Qed.

(** No record has the tag, yet the registry is not empty: the scan leaves
    the output parameter alone and the function still returns [true]. *)
Lemma FindMaterial_miss (s : SceneManager) t m :
  m_objectMaterials s <> [] ->
  (forall r, r ∈ m_objectMaterials s -> mat_tag r <> t) ->
  FindMaterial t m s = Done (true, m) s.
Proof.
  intros Hne Hno. unfold FindMaterial, bind, get.
  rewrite bool_decide_eq_false_2.
  - unfold ret. now rewrite FindMaterial_loop_unmatched.
  - destruct (m_objectMaterials s); [congruence | discriminate].
Qed.

(** C1: the lookup is claimed to report not-found whenever no record has
    the tag.  On a registry that is not empty the code reports found all the
    same, with the output parameter as it was passed in. *)
Theorem FindMaterial_unmatched_reports_found (s : SceneManager) t m :
  m_objectMaterials s <> [] ->
  (forall r, r ∈ m_objectMaterials s -> mat_tag r <> t) ->
  FindMaterial t m s = Done (true, m) s.
Proof. apply FindMaterial_miss. Qed.

(** ** Shader-state setters *)

Lemma shader_set_present (s : SceneManager) sm name v :
  m_pShaderManager s = Some sm ->
  shader_set name v s =
    Done tt (set_pShaderManager (Some (sm ++ [(name, v)])) s).
Proof. intros H. unfold shader_set. now rewrite H. Qed.

Lemma shader_set_null (s : SceneManager) name v :
  m_pShaderManager s = None ->
  shader_set name v s = Crash NullDereference.
Proof. intros H. unfold shader_set. now rewrite H. Qed.

Lemma if_shader_null (s : SceneManager) body :
  m_pShaderManager s = None -> if_shader body s = Done tt s.
Proof. intros H. unfold if_shader. now rewrite H. Qed.

Lemma if_shader_present (s : SceneManager) sm body :
  m_pShaderManager s = Some sm -> if_shader body s = body s.
Proof. intros H. unfold if_shader. now rewrite H. Qed.

Lemma materials_nonempty (s : SceneManager) :
  m_objectMaterials s <> [] ->
  bool_decide (0 < length (m_objectMaterials s))%nat = true.
Proof.
  intros H. apply bool_decide_eq_true_2.
  destruct (m_objectMaterials s); [congruence | simpl; lia].
Qed.

(** C2: an unmatched tag is claimed to push nothing.  With at least one
    material defined, the code pushes all three material uniforms, with
    whatever the uninitialised local held. *)
Theorem SetShaderMaterial_unmatched_pushes (s : SceneManager) sm t indeterminate :
  m_pShaderManager s = Some sm ->
  m_objectMaterials s <> [] ->
  (forall r, r ∈ m_objectMaterials s -> mat_tag r <> t) ->
  SetShaderMaterial t indeterminate s =
    Done tt (set_pShaderManager (Some (sm ++ material_pushes indeterminate)) s).
Proof.
  intros Hsm Hne Hno. unfold SetShaderMaterial, bind at 1. unfold get.
  rewrite materials_nonempty by assumption.
  unfold bind at 1. rewrite FindMaterial_miss by assumption.
  unfold bind. rewrite (shader_set_present s sm) by assumption.
  rewrite (shader_set_present _ (sm ++ [_])) by reflexivity.
  rewrite (shader_set_present _ ((sm ++ [_]) ++ [_])) by reflexivity.
  unfold set_pShaderManager, material_pushes; simpl.
  now rewrite <- !app_assoc.
Qed.

(** C10: with a null shader manager every setter is claimed to do nothing
    and to end normally.  The four guarded setters do; [SetShaderMaterial]
    has no guard and dereferences the null pointer as soon as one material
    is defined, whatever the tag. *)
Theorem setters_on_null_shader_manager (s : SceneManager) :
  m_pShaderManager s = None ->
  (forall scale x y z position,
      SetTransformations scale x y z position s = Done tt s) /\
  (forall r g b a, SetShaderColor r g b a s = Done tt s) /\
  (forall t, SetShaderTexture t s = Done tt s) /\
  (forall u v, SetTextureUVScale u v s = Done tt s) /\
  (forall t indeterminate,
      m_objectMaterials s = [] -> SetShaderMaterial t indeterminate s = Done tt s) /\
  (forall t indeterminate,
      m_objectMaterials s <> [] ->
      SetShaderMaterial t indeterminate s = Crash NullDereference).
Proof.
  intros Hnull. repeat split; intros.
  - now apply if_shader_null.
  - now apply if_shader_null.
  - now apply if_shader_null.
  - now apply if_shader_null.
  - unfold SetShaderMaterial, bind, get. now rewrite H.
  - unfold SetShaderMaterial, bind at 1. unfold get.
    rewrite materials_nonempty by assumption.
    unfold bind at 1. unfold FindMaterial, bind at 1. unfold get.
    rewrite bool_decide_eq_false_2
      by (destruct (m_objectMaterials s); [congruence | discriminate]).
    unfold ret, bind. now rewrite shader_set_null.
Qed.

(** C5: the model matrix pushed by [SetTransformations] is the product
    translation * rotationZ * rotationY * rotationX * scale, each rotation
    built from its angle converted to radians, about the X, Y and Z axis
    respectively; it goes to the uniform named "model" and nothing else is
    touched. *)
Theorem SetTransformations_pushes_TRzRyRxS (s : SceneManager) sm
    scaleXYZ xdeg ydeg zdeg positionXYZ :
  m_pShaderManager s = Some sm ->
  let T := glm_translate positionXYZ in
  let Rz := glm_rotate (glm_radians zdeg) (flit "0.0f", flit "0.0f", flit "1.0f") in
  let Ry := glm_rotate (glm_radians ydeg) (flit "0.0f", flit "1.0f", flit "0.0f") in
  let Rx := glm_rotate (glm_radians xdeg) (flit "1.0f", flit "0.0f", flit "0.0f") in
  let S := glm_scale scaleXYZ in
  SetTransformations scaleXYZ xdeg ydeg zdeg positionXYZ s =
    Done tt (set_pShaderManager
               (Some (sm ++ [("model",
                              Mat4Value (mat4_mul (mat4_mul (mat4_mul (mat4_mul T Rz) Ry) Rx) S))]))
               s).
Proof.
  intros Hsm T Rz Ry Rx S. unfold SetTransformations.
  rewrite (if_shader_present s sm) by assumption.
  now rewrite (shader_set_present s sm).
Qed.

(** ** Texture registry: loading *)

Lemma generated_app (a b : list event) :
  generated (a ++ b) = generated a ++ generated b.
Proof.
  induction a as [|e a IH]; simpl; [reflexivity|].
  destruct e as [| | |c|]; try assumption.
  destruct c; simpl; try assumption. now rewrite IH.
Qed.

Lemma deleted_app (a b : list event) :
  deleted (a ++ b) = deleted a ++ deleted b.
Proof.
  induction a as [|e a IH]; simpl; [reflexivity|].
  destruct e as [| | |c|]; try assumption.
  destruct c; simpl; try assumption. now rewrite IH.
Qed.

Lemma decodes_app (a b : list event) :
  decodes (a ++ b) = (decodes a + decodes b)%nat.
Proof.
  induction a as [|e a IH]; simpl; [reflexivity|].
  destruct e; simpl; now rewrite ?IH.
Qed.

Lemma read_slot_in (s : SceneManager) i e :
  0 <= i -> m_textureIDs s !! Z.to_nat i = Some e ->
  read_slot i s = Done e s.
Proof.
  intros Hi He. unfold read_slot.
  destruct (decide (0 <= i)); [|lia]. now rewrite He.
Qed.

Lemma read_slot_out (s : SceneManager) i :
  (i < 0 \/ (length (m_textureIDs s) <= Z.to_nat i)%nat) ->
  read_slot i s = Crash OutOfBounds.
Proof.
  intros H. unfold read_slot.
  destruct (decide (0 <= i)); [|reflexivity].
  destruct H as [H|H]; [lia|].
  now rewrite (proj2 (lookup_ge_None _ _) H).
Qed.

(** The registration writes the entry at the count and moves the count. *)
Lemma register_texture_in (s : SceneManager) textureID t :
  0 <= m_loadedTextures s ->
  (Z.to_nat (m_loadedTextures s) < length (m_textureIDs s))%nat ->
  register_texture textureID t s =
    Done true
      (set_loadedTextures (m_loadedTextures s + 1)
         (set_textureIDs
            (<[Z.to_nat (m_loadedTextures s) := {| tag := t; ID := textureID |}]>
               (m_textureIDs s)) s)).
Proof.
  intros Hn Hlt. destruct (lookup_lt_is_Some_2 _ _ Hlt) as [e He].
  unfold register_texture, bind at 1. unfold get.
  unfold bind at 1. unfold write_slot at 1. unfold bind at 1.
  rewrite (read_slot_in s _ e) by assumption.
  unfold modify at 1. unfold bind at 1. unfold write_slot, bind at 1.
  rewrite (read_slot_in _ _ (with_ID textureID e))
    by (try assumption; simpl; now rewrite list_lookup_insert_eq).
  unfold modify, bind, ret, with_tag, with_ID; simpl.
  now rewrite list_insert_insert_eq.
Qed.

(** With the count outside the array the first write already leaves it. *)
Lemma register_texture_out (s : SceneManager) textureID t :
  (m_loadedTextures s < 0 \/
   (length (m_textureIDs s) <= Z.to_nat (m_loadedTextures s))%nat) ->
  register_texture textureID t s = Crash OutOfBounds.
Proof.
  intros H. unfold register_texture, bind at 1. unfold get.
  unfold bind at 1. unfold write_slot at 1. unfold bind at 1.
  now rewrite read_slot_out.
Qed.

Lemma set_trace_twice (s : SceneManager) a b :
  set_trace a (set_trace b s) = set_trace a s.
Proof. reflexivity. Qed.

Ltac run_events :=
  unfold finish_texture, gen_texture, gl; unfold emit, modify, get, ret, bind;
  simpl; rewrite ?set_trace_twice, <- ?app_assoc; simpl.

(** A decoded image of three or four channels: everything up to the
    registration only talks to the collaborators, and asks the driver for
    exactly one texture name. *)
(** A [GLuint] lies in [0 .. 2^32 - 1]; read as an [int] it is itself below
    [2^31] and [2^32] less from there on. *)
Lemma GLuint_of_int_range (z : Z) : 0 <= GLuint_of_int z < 2 ^ 32.
Proof. unfold GLuint_of_int. apply Z.mod_pos_bound. lia. Qed.

Lemma int_of_GLuint_low (u : Z) : u < 2 ^ 31 -> int_of_GLuint u = u.
Proof.
  intros Hu. unfold int_of_GLuint.
  destruct (Z.ltb_spec u (2 ^ 31)); [reflexivity | lia].
Qed.

Lemma int_of_GLuint_high (u : Z) :
  2 ^ 31 <= u -> int_of_GLuint u = u - 2 ^ 32.
Proof.
  intros Hu. unfold int_of_GLuint.
  destruct (Z.ltb_spec u (2 ^ 31)); [lia | reflexivity].
Qed.

Lemma CreateGLTexture_supported (s : SceneManager) filename t image :
  stbi_load filename = Some image ->
  colorChannels image = 3 \/ colorChannels image = 4 ->
  let name :=
    GLuint_of_int
      (gl_fresh_name
         (trace s ++ [stbi_set_flip_vertically_on_load true;
                      stbi_load_call filename])) in
  exists tr',
    CreateGLTexture filename t s =
      register_texture name t (set_trace (trace s ++ tr') s) /\
    generated tr' = [name] /\ deleted tr' = [] /\ decodes tr' = 1%nat.
Proof.
  intros Hl Hc name. unfold CreateGLTexture. rewrite Hl.
  destruct Hc as [Hc|Hc]; rewrite Hc; simpl.
  - eexists. split; [run_events; reflexivity|]. now simpl.
  - eexists. split; [run_events; reflexivity|]. now simpl.
Qed.

(** A file that does not decode: two calls to the loader, [false]. *)
Lemma CreateGLTexture_undecodable (s : SceneManager) filename t :
  stbi_load filename = None ->
  CreateGLTexture filename t s =
    Done false
      (set_trace (trace s ++ [stbi_set_flip_vertically_on_load true;
                              stbi_load_call filename]) s).
Proof.
  intros Hl. unfold CreateGLTexture. rewrite Hl. run_events. reflexivity.
Qed.

(** An image of any other channel count: the texture name is generated,
    bound and configured, then the function returns [false]. *)
Lemma CreateGLTexture_other_channels (s : SceneManager) filename t image :
  stbi_load filename = Some image ->
  colorChannels image <> 3 ->
  colorChannels image <> 4 ->
  exists tr',
    CreateGLTexture filename t s = Done false (set_trace (trace s ++ tr') s) /\
    decodes tr' = 1%nat /\ deleted tr' = [].
Proof.
  intros Hl H3 H4. unfold CreateGLTexture. rewrite Hl.
  destruct (Z.eqb_spec (colorChannels image) 3) as [|_]; [contradiction|].
  destruct (Z.eqb_spec (colorChannels image) 4) as [|_]; [contradiction|].
  eexists. split; [run_events; reflexivity|]. now simpl.
Qed.

(** C7: an image that decodes with a channel count other than 3 or 4 makes
    [CreateGLTexture] return [false]; the call ends normally and neither the
    slot count nor any entry of the slot array changes (nor the materials or
    the shader manager: only collaborator calls were made). *)
Theorem CreateGLTexture_unsupported_channels
    (s : SceneManager) filename t image :
  stbi_load filename = Some image ->
  colorChannels image <> 3 ->
  colorChannels image <> 4 ->
  exists s',
    CreateGLTexture filename t s = Done false s' /\
    m_loadedTextures s' = m_loadedTextures s /\
    m_textureIDs s' = m_textureIDs s /\
    m_objectMaterials s' = m_objectMaterials s /\
    m_pShaderManager s' = m_pShaderManager s.
Proof.
  intros Hl H3 H4.
  destruct (CreateGLTexture_other_channels s filename t image Hl H3 H4)
    as (tr' & -> & _).
  eexists. split; [reflexivity|]. now simpl.
Qed.

(** C3: a load into a full registry is claimed to fail cleanly.  In the code
    a decodable image of 3 or 4 channels reaches the registration with
    [m_loadedTextures = 16], and the first assignment indexes the sixteen
    entry array at 16. *)
Theorem CreateGLTexture_full_writes_past_array
    (s : SceneManager) filename t image :
  stbi_load filename = Some image ->
  colorChannels image = 3 \/ colorChannels image = 4 ->
  length (m_textureIDs s) = 16%nat ->
  m_loadedTextures s = capacity ->
  CreateGLTexture filename t s = Crash OutOfBounds.
Proof.
  intros Hl Hc Hlen Hfull.
  destruct (CreateGLTexture_supported s filename t image Hl Hc)
    as (tr' & -> & _).
  apply register_texture_out. right. simpl. rewrite Hlen, Hfull.
  unfold capacity. lia.
Qed.

(** ** Texture registry: lookups *)

Lemma first_match_Some t (l : list TEXTURE_INFO) k e :
  first_match t l = Some (k, e) ->
  l !! k = Some e /\ tag e = t /\
  forall j e', (j < k)%nat -> l !! j = Some e' -> tag e' <> t.
Proof.
  revert k. induction l as [|x l IH]; intros k; simpl; [discriminate|].
  case_bool_decide as Hx.
  - intros [= <- <-]. repeat split; [assumption|]. intros j e' Hj. lia.
  - destruct (first_match t l) as [[i e0]|] eqn:Hf; [|discriminate].
    intros [= <- <-]. destruct (IH i eq_refl) as (Hl & Ht & Hbefore).
    repeat split; [assumption..|].
    intros [|j] e' Hj; simpl.
    + now intros [= <-].
    + apply Hbefore. lia.
Qed.

Lemma first_match_None t (l : list TEXTURE_INFO) :
  first_match t l = None <-> forall e, e ∈ l -> tag e <> t.
Proof.
  induction l as [|x l IH]; simpl.
  - split; [|reflexivity]. intros _ e He. now apply elem_of_nil in He.
  - case_bool_decide as Hx.
    + split; [discriminate|]. intros H. exfalso. apply (H x); [left|assumption].
    + destruct (first_match t l) as [[i e0]|].
      * split; [discriminate|]. intros H.
        assert (Hnone : Some (i, e0) = None)
          by (apply IH; intros e He; apply H; now right).
        discriminate.
      * split; [|reflexivity]. intros _ e He.
        apply elem_of_cons in He as [->|He]; [assumption|].
        now apply (proj1 IH).
Qed.

Lemma first_match_first t (l : list TEXTURE_INFO) k e :
  l !! k = Some e -> tag e = t ->
  (forall j e', (j < k)%nat -> l !! j = Some e' -> tag e' <> t) ->
  first_match t l = Some (k, e).
Proof.
  revert k. induction l as [|x l IH]; intros k Hk Ht Hbefore; [discriminate|].
  simpl. destruct k as [|k]; simpl in Hk.
  - injection Hk as ->. now rewrite bool_decide_eq_true_2.
  - rewrite bool_decide_eq_false_2 by (apply (Hbefore O); [lia|reflexivity]).
    rewrite (IH k); [reflexivity|assumption..|].
    intros j e' Hj He'. apply (Hbefore (S j)); [lia|assumption].
Qed.

(** The slot scan from [i] over [todo] entries is the first match among
    them; the state is handed back as it came. *)
Lemma FindTextureSlot_loop_spec (s : SceneManager) t todo i :
  (i + todo <= length (m_textureIDs s))%nat ->
  FindTextureSlot_loop t (Z.of_nat i) todo s =
    Done (match first_match t (take todo (drop i (m_textureIDs s))) with
          | Some (k, _) => Z.of_nat (i + k)
          | None => -1
          end) s.
Proof.
  revert i. induction todo as [|todo IH]; intros i Hi; simpl; [reflexivity|].
  destruct (lookup_lt_is_Some_2 (m_textureIDs s) i) as [e He]; [lia|].
  unfold bind. rewrite (read_slot_in s _ e) by (rewrite ?Nat2Z.id; auto; lia).
  rewrite (drop_S _ _ _ He). simpl.
  case_bool_decide as Ht.
  - unfold ret. do 2 f_equal. lia.
  - replace (Z.of_nat i + 1) with (Z.of_nat (S i)) by lia.
    rewrite IH by lia.
    destruct (first_match t (take todo (drop (S i) (m_textureIDs s))))
      as [[k e']|]; [|reflexivity].
    do 2 f_equal. lia.
Qed.

Lemma FindTextureID_loop_spec (s : SceneManager) t todo i :
  (i + todo <= length (m_textureIDs s))%nat ->
  FindTextureID_loop t (Z.of_nat i) todo s =
    Done (handle_of (first_match t (take todo (drop i (m_textureIDs s))))) s.
Proof.
  revert i. induction todo as [|todo IH]; intros i Hi; simpl; [reflexivity|].
  destruct (lookup_lt_is_Some_2 (m_textureIDs s) i) as [e He]; [lia|].
  unfold bind. rewrite (read_slot_in s _ e) by (rewrite ?Nat2Z.id; auto; lia).
  rewrite (drop_S _ _ _ He). simpl.
  case_bool_decide as Ht; [reflexivity|].
  replace (Z.of_nat i + 1) with (Z.of_nat (S i)) by lia.
  rewrite IH by lia.
  now destruct (first_match t (take todo (drop (S i) (m_textureIDs s))))
    as [[k e']|].
Qed.

Lemma loaded_in_array (s : SceneManager) :
  well_formed s ->
  (Z.to_nat (m_loadedTextures s) <= length (m_textureIDs s))%nat.
Proof. intros [Hlen [H0 Hcap]]. unfold capacity in Hcap. rewrite Hlen. lia. Qed.

(** On a registry whose count stays within the array, both lookups end
    normally, change nothing, and answer from the first loaded entry that
    carries the tag. *)
Lemma FindTextureSlot_spec (s : SceneManager) t :
  well_formed s ->
  FindTextureSlot t s = Done (slot_of (first_match t (loaded s))) s.
Proof.
  intros Hwf. unfold FindTextureSlot, bind, get.
  rewrite (FindTextureSlot_loop_spec s t _ 0) by (apply loaded_in_array, Hwf).
  rewrite drop_0. fold (loaded s).
  now destruct (first_match t (loaded s)) as [[k e]|].
Qed.

Lemma FindTextureID_spec (s : SceneManager) t :
  well_formed s ->
  FindTextureID t s = Done (handle_of (first_match t (loaded s))) s.
Proof.
  intros Hwf. unfold FindTextureID, bind, get.
  rewrite (FindTextureID_loop_spec s t _ 0) by (apply loaded_in_array, Hwf).
  now rewrite drop_0.
Qed.

(** ** Texture registry: sequences of loads *)

Lemma channels_cases (image : Image) :
  (colorChannels image = 3 \/ colorChannels image = 4) \/
  (colorChannels image <> 3 /\ colorChannels image <> 4).
Proof. lia. Qed.

(** What a load that returned [true] did. *)
Lemma CreateGLTexture_true (s s1 : SceneManager) filename t :
  length (m_textureIDs s) = 16%nat ->
  CreateGLTexture filename t s = Done true s1 ->
  exists name tr',
    0 <= m_loadedTextures s < capacity /\
    trace s1 = trace s ++ tr' /\
    generated tr' = [name] /\ deleted tr' = [] /\ decodes tr' = 1%nat /\
    m_textureIDs s1 =
      <[Z.to_nat (m_loadedTextures s) := {| tag := t; ID := name |}]>
        (m_textureIDs s) /\
    m_loadedTextures s1 = m_loadedTextures s + 1 /\
    m_objectMaterials s1 = m_objectMaterials s /\
    m_pShaderManager s1 = m_pShaderManager s /\
    0 <= name < 2 ^ 32.
Proof.
  intros Hlen Hrun.
  destruct (stbi_load filename) as [image|] eqn:Hl;
    [|now rewrite CreateGLTexture_undecodable in Hrun].
  destruct (channels_cases image) as [Hc|[H3 H4]].
  - destruct (CreateGLTexture_supported s filename t image Hl Hc)
      as (tr' & Heq & Hgen & Hdel & Hdec).
    rewrite Heq in Hrun. clear Heq.
    destruct (decide (0 <= m_loadedTextures s < capacity)) as [Hin|Hout].
    + rewrite register_texture_in in Hrun
        by (simpl; rewrite ?Hlen; unfold capacity in Hin; lia).
      injection Hrun as <-. simpl.
      eexists _, tr'. split; [exact Hin|]. split; [reflexivity|].
      split; [exact Hgen|]. split; [exact Hdel|]. split; [exact Hdec|].
      split; [reflexivity|]. split; [reflexivity|]. split; [reflexivity|].
      split; [reflexivity|]. apply GLuint_of_int_range.
    + rewrite register_texture_out in Hrun; [discriminate|].
      simpl. rewrite Hlen. unfold capacity in Hout. lia.
  - destruct (CreateGLTexture_other_channels s filename t image Hl H3 H4)
      as (tr' & Heq & _).
    rewrite Heq in Hrun. discriminate.
Qed.

(** Below capacity a load always ends normally, asks the loader once and
    moves the count by at most one. *)
Lemma CreateGLTexture_below_capacity (s : SceneManager) filename t :
  length (m_textureIDs s) = 16%nat ->
  0 <= m_loadedTextures s < capacity ->
  exists b s1,
    CreateGLTexture filename t s = Done b s1 /\
    length (m_textureIDs s1) = 16%nat /\
    m_loadedTextures s <= m_loadedTextures s1 <= m_loadedTextures s + 1 /\
    decodes (trace s1) = S (decodes (trace s)) /\
    deleted (trace s1) = deleted (trace s) /\
    m_objectMaterials s1 = m_objectMaterials s /\
    m_pShaderManager s1 = m_pShaderManager s.
Proof.
  intros Hlen Hin.
  destruct (stbi_load filename) as [image|] eqn:Hl.
  - destruct (channels_cases image) as [Hc|[H3 H4]].
    + destruct (CreateGLTexture_supported s filename t image Hl Hc)
        as (tr' & -> & Hgen & Hdel & Hdec).
      rewrite register_texture_in
        by (simpl; rewrite ?Hlen; unfold capacity in Hin; lia).
      do 2 eexists. split; [reflexivity|]. simpl.
      rewrite length_insert, decodes_app, deleted_app, Hdec, Hdel, app_nil_r.
      repeat split; auto; lia.
    + destruct (CreateGLTexture_other_channels s filename t image Hl H3 H4)
        as (tr' & -> & Hdec & Hdel).
      do 2 eexists. split; [reflexivity|]. simpl.
      rewrite decodes_app, deleted_app, Hdec, Hdel, app_nil_r.
      repeat split; auto; lia.
  - rewrite CreateGLTexture_undecodable by assumption.
    do 2 eexists. split; [reflexivity|]. simpl.
    rewrite decodes_app, deleted_app, app_nil_r. simpl.
    repeat split; auto; lia.
Qed.

Lemma loaded_after_register (s : SceneManager) x :
  0 <= m_loadedTextures s ->
  (Z.to_nat (m_loadedTextures s) < length (m_textureIDs s))%nat ->
  take (Z.to_nat (m_loadedTextures s + 1))
       (<[Z.to_nat (m_loadedTextures s) := x]> (m_textureIDs s)) =
    loaded s ++ [x].
Proof.
  intros H0 Hlt. unfold loaded.
  replace (Z.to_nat (m_loadedTextures s + 1))
    with (S (Z.to_nat (m_loadedTextures s))) by lia.
  rewrite (take_S_r _ _ x) by now apply list_lookup_insert_eq.
  now rewrite take_insert_ge by lia.
Qed.

(** A run of loads that all returned [true] appended one entry per file, in
    order, each with the tag given and the name the driver handed out. *)
Lemma load_textures_all_true files : forall (s s' : SceneManager) bs,
  well_formed s ->
  load_textures files s = Done bs s' ->
  Forall (eq true) bs ->
  exists recorded : list TEXTURE_INFO,
    tag <$> recorded = files.*2 /\
    generated (trace s') = generated (trace s) ++ (ID <$> recorded) /\
    loaded s' = loaded s ++ recorded /\
    well_formed s' /\
    m_loadedTextures s' = m_loadedTextures s + Z.of_nat (length files) /\
    Forall (fun e => 0 <= ID e < 2 ^ 32) recorded.
Proof.
  induction files as [|[filename t] rest IH]; intros s s' bs Hwf Hrun Hall.
  - injection Hrun as <- <-. exists []. simpl.
    rewrite !app_nil_r.
    split; [reflexivity|]. split; [reflexivity|]. split; [reflexivity|].
    split; [exact Hwf|]. split; [lia | constructor].
  - simpl in Hrun. unfold bind at 1 in Hrun.
    destruct (CreateGLTexture filename t s) as [b s1|] eqn:Hone;
      [|discriminate].
    unfold bind at 1 in Hrun.
    destruct (load_textures rest s1) as [others s2|] eqn:Hrest;
      [|discriminate].
    injection Hrun as <- <-.
    apply Forall_cons in Hall as [<- Hall].
    destruct Hwf as [Hlen Hcount].
    destruct (CreateGLTexture_true s s1 filename t Hlen Hone)
      as (name & tr' & Hin & Htr & Hgen & _ & _ & Harr & Hn & _ & _ & Hname).
    assert (Hwf1 : well_formed s1).
    { split; [now rewrite Harr, length_insert|]. rewrite Hn. lia. }
    destruct (IH s1 s2 others Hwf1 Hrest Hall)
      as (recorded & Htags & Hgens & Hloaded & Hwf2 & Hn2 & Hnames).
    exists ({| tag := t; ID := name |} :: recorded).
    rewrite !fmap_cons, Htags, Hgens, Htr, generated_app, Hgen, <- app_assoc.
    simpl.
    split; [reflexivity|]. split; [reflexivity|].
    split; [|split; [exact Hwf2|split; [lia | now constructor]]].
    rewrite Hloaded. unfold loaded at 1. rewrite Hn, Harr.
    rewrite loaded_after_register by (rewrite ?Hlen; unfold capacity in *; lia).
    now rewrite <- app_assoc.
Qed.

(** With room for all of them, a run of loads ends normally whatever the
    files decode to; each load asks the loader once. *)
Lemma load_textures_within_capacity files : forall (s : SceneManager),
  length (m_textureIDs s) = 16%nat ->
  0 <= m_loadedTextures s ->
  m_loadedTextures s + Z.of_nat (length files) <= capacity ->
  exists bs s',
    load_textures files s = Done bs s' /\
    length (m_textureIDs s') = 16%nat /\
    m_loadedTextures s <= m_loadedTextures s' <=
      m_loadedTextures s + Z.of_nat (length files) /\
    decodes (trace s') = (decodes (trace s) + length files)%nat /\
    deleted (trace s') = deleted (trace s) /\
    m_objectMaterials s' = m_objectMaterials s /\
    m_pShaderManager s' = m_pShaderManager s.
Proof.
  induction files as [|[filename t] rest IH]; intros s Hlen H0 Hroom.
  - exists [], s. simpl. repeat split; auto; lia.
  - simpl in Hroom.
    destruct (CreateGLTexture_below_capacity s filename t Hlen)
      as (b & s1 & Hone & Hlen1 & Hn1 & Hdec1 & Hdel1 & Hm1 & Hp1); [lia|].
    destruct (IH s1 Hlen1) as (bs & s2 & Hrest & Hlen2 & Hn2 & Hdec2 & Hdel2 & Hm2 & Hp2);
      [lia..|].
    exists (b :: bs), s2. simpl. unfold bind. rewrite Hone, Hrest.
    split; [reflexivity|].
    rewrite Hdec2, Hdec1, Hdel2, Hdel1, Hm2, Hm1, Hp2, Hp1.
    repeat split; auto; lia.
Qed.

(** C6, as the code has it: after a run of loads that all succeeded
    (necessarily at most sixteen), the registry holds one record per load,
    in load order, with the tag given and the name the driver handed out, a
    [GLuint].  For every loaded tag both lookups answer from the first
    record carrying that tag, so a tag loaded twice gives the first load's
    data.  The slot lookup answers that record's position.  The handle
    lookup answers the recorded name itself when the name is below [2^31];
    a name from [2^31] on comes back as the name minus [2^32], a negative
    number, and the name 4294967295 as [-1].  For a tag that was never
    loaded both answer [-1].  The lookups end normally and leave the state
    as it was. *)
Theorem lookups_after_loading
    (p : option ShaderManager) tr files bs (s : SceneManager) :
  load_textures files (SceneManager_ctor p tr) = Done bs s ->
  Forall (eq true) bs ->
  exists recorded : list TEXTURE_INFO,
    tag <$> recorded = files.*2 /\
    generated (trace s) = generated tr ++ (ID <$> recorded) /\
    (length files <= 16)%nat /\
    m_loadedTextures s = Z.of_nat (length files) /\
    (forall k e, recorded !! k = Some e ->
       exists j first,
         (j <= k)%nat /\ recorded !! j = Some first /\ tag first = tag e /\
         (forall i e', (i < j)%nat -> recorded !! i = Some e' ->
                       tag e' <> tag e) /\
         FindTextureSlot (tag e) s = Done (Z.of_nat j) s /\
         exists handle,
           FindTextureID (tag e) s = Done handle s /\
           0 <= ID first < 2 ^ 32 /\
           (ID first < 2 ^ 31 -> handle = ID first) /\
           (2 ^ 31 <= ID first -> handle = ID first - 2 ^ 32) /\
           (ID first = 4294967295 -> handle = -1)) /\
    (forall t, t ∉ files.*2 ->
       FindTextureSlot t s = Done (-1) s /\
       FindTextureID t s = Done (-1) s).
Proof.
  intros Hrun Hall.
  assert (Hwf0 : well_formed (SceneManager_ctor p tr))
    by (split; [reflexivity | simpl; unfold capacity; lia]).
  destruct (load_textures_all_true _ _ _ _ Hwf0 Hrun Hall)
    as (recorded & Htags & Hgen & Hloaded & Hwf & Hn & Hnames).
  simpl in Hgen, Hloaded, Hn.
  exists recorded. split; [assumption|]. split; [assumption|].
  split; [destruct Hwf as [_ Hcap]; unfold capacity in Hcap; lia|].
  split; [lia|]. split.
  - intros k e Hk.
    destruct (first_match (tag e) recorded) as [[j first]|] eqn:Hfirst.
    + destruct (first_match_Some _ _ _ _ Hfirst) as (Hj & Htag & Hbefore).
      exists j, first. repeat split; try assumption.
      * destruct (decide (j <= k)%nat) as [|Hgt]; [assumption|].
        exfalso. apply (Hbefore k e); [lia|assumption|reflexivity].
      * rewrite FindTextureSlot_spec, Hloaded, Hfirst by assumption.
        reflexivity.
      * exists (int_of_GLuint (ID first)).
        split; [now rewrite FindTextureID_spec, Hloaded, Hfirst|].
        split; [exact (proj1 (Forall_lookup _ _) Hnames j first Hj)|].
        split; [apply int_of_GLuint_low|].
        split; [apply int_of_GLuint_high | now intros ->].
    + exfalso. apply (proj1 (first_match_None _ _) Hfirst e);
        [now apply list_elem_of_lookup_2 with k | reflexivity].
  - intros t Hnot.
    assert (Hnone : first_match t recorded = None).
    { apply first_match_None. intros e He <-. apply Hnot.
      rewrite <- Htags. now apply list_elem_of_fmap_2. }
    rewrite FindTextureSlot_spec, FindTextureID_spec, Hloaded, Hnone
      by assumption.
    now split.
Qed.

(** C8, as the code has it: on a registry whose count lies within the
    sixteen-entry array both lookups end normally and hand the state back
    unchanged; the slot lookup answers [-1] or an index [i] with
    [0 <= i < m_loadedTextures], and then the handle lookup answers the [ID]
    stored at slot [i], as an [int]; a slot answer of [-1] comes with a
    handle answer of [-1]; the converse needs that no loaded entry's [ID]
    reads back as [-1] (the [GLuint] 4294967295 does). *)
Theorem lookups_agree (s : SceneManager) t :
  well_formed s ->
  exists i h,
    FindTextureSlot t s = Done i s /\
    FindTextureID t s = Done h s /\
    (i = -1 \/ 0 <= i) /\
    (0 <= i ->
       i < m_loadedTextures s /\
       exists e, m_textureIDs s !! Z.to_nat i = Some e /\ tag e = t /\
                 h = int_of_GLuint (ID e)) /\
    (i = -1 -> h = -1) /\
    ((forall e, e ∈ loaded s -> int_of_GLuint (ID e) <> -1) ->
     h = -1 -> i = -1).
Proof.
  intros Hwf.
  exists (slot_of (first_match t (loaded s))),
         (handle_of (first_match t (loaded s))).
  split; [now apply FindTextureSlot_spec|].
  split; [now apply FindTextureID_spec|].
  destruct (first_match t (loaded s)) as [[k e]|] eqn:Hfirst; simpl.
  - destruct (first_match_Some _ _ _ _ Hfirst) as (Hk & Htag & _).
    unfold loaded in Hk. apply lookup_take_Some in Hk as [Hk Hlt].
    split; [right; lia|]. split; [|split].
    + intros _. split; [lia|]. exists e. now rewrite Nat2Z.id.
    + lia.
    + intros Hno Hh. exfalso. apply (Hno e); [|assumption].
      apply list_elem_of_lookup_2 with k. unfold loaded.
      now apply lookup_take_Some.
  - split; [now left|]. split; [lia|]. now split.
Qed.

(** ** Loops over the loaded slots *)

Lemma BindGLTextures_loop (s : SceneManager) todo : forall i tr0,
  (i + todo <= length (m_textureIDs s))%nat ->
  exists tr',
    for_from (Z.of_nat i) todo
      (fun i => gl (glActiveTexture (GL_TEXTURE0 + i)) ;;
                e <- read_slot i ;;
                gl (glBindTexture (ID e)))
      (set_trace tr0 s) = Done tt (set_trace (tr0 ++ tr') s) /\
    decodes tr' = 0%nat /\ deleted tr' = [] /\ generated tr' = [].
Proof.
  induction todo as [|todo IH]; intros i tr0 Hi.
  - exists []. rewrite app_nil_r. now simpl.
  - destruct (lookup_lt_is_Some_2 (m_textureIDs s) i) as [e He]; [lia|].
    destruct (IH (S i)
                (tr0 ++ [GL (glActiveTexture (GL_TEXTURE0 + Z.of_nat i));
                         GL (glBindTexture (ID e))])) as (tr' & Hrun & Hfacts);
      [lia|].
    eexists. split.
    + simpl. unfold bind at 1. unfold bind at 1. unfold gl at 1, emit, modify.
      unfold bind at 1.
      rewrite (read_slot_in _ _ e) by (rewrite ?Nat2Z.id; auto; lia).
      unfold gl, emit, modify. simpl. rewrite !set_trace_twice.
      replace (Z.of_nat i + 1) with (Z.of_nat (S i)) by lia.
      rewrite <- app_assoc. simpl. refine (eq_trans Hrun _).
      now rewrite <- app_assoc.
    + now simpl.
Qed.

(** Binding talks to the driver only. *)
Lemma BindGLTextures_spec (s : SceneManager) :
  well_formed s ->
  exists tr',
    BindGLTextures s = Done tt (set_trace (trace s ++ tr') s) /\
    decodes tr' = 0%nat /\ deleted tr' = [] /\ generated tr' = [].
Proof.
  intros Hwf. unfold BindGLTextures, bind at 1. unfold get, for_upto.
  destruct (BindGLTextures_loop s (Z.to_nat (m_loadedTextures s)) 0 (trace s))
    as (tr' & Hrun & Hfacts); [apply loaded_in_array, Hwf|].
  exists tr'. split; [|assumption].
  rewrite <- Hrun. f_equal. now destruct s.
Qed.

Lemma DestroyGLTextures_loop todo : forall i (s : SceneManager),
  (i + todo <= length (m_textureIDs s))%nat ->
  exists s',
    for_from (Z.of_nat i) todo
      (fun i => name <- gen_texture ;; write_slot i (with_ID name)) s =
      Done tt s' /\
    length (m_textureIDs s') = length (m_textureIDs s) /\
    m_loadedTextures s' = m_loadedTextures s /\
    deleted (trace s') = deleted (trace s) /\
    length (generated (trace s')) = (length (generated (trace s)) + todo)%nat.
Proof.
  induction todo as [|todo IH]; intros i s Hi.
  - exists s. simpl. repeat split; lia.
  - destruct (lookup_lt_is_Some_2 (m_textureIDs s) i) as [e He]; [lia|].
    simpl. unfold bind at 1. unfold bind at 1.
    unfold gen_texture at 1, bind at 1, get. unfold bind at 1.
    unfold gl at 1, emit, modify. unfold ret at 1.
    unfold write_slot, bind at 1.
    rewrite (read_slot_in _ _ e) by (rewrite ?Nat2Z.id; auto; lia).
    unfold modify. replace (Z.of_nat i + 1) with (Z.of_nat (S i)) by lia.
    match goal with |- context [for_from _ _ _ ?s1] =>
      destruct (IH (S i) s1) as (s' & Hrun & Hlen & Hn & Hdel & Hgen)
    end; [simpl; rewrite length_insert; lia|].
    exists s'. split; [exact Hrun|].
    simpl in Hlen, Hn, Hdel, Hgen.
    rewrite length_insert in Hlen.
    rewrite deleted_app, app_nil_r in Hdel.
    rewrite generated_app, length_app in Hgen. simpl in Hgen.
    repeat split; try assumption. lia.
Qed.

(** With nothing loaded the release loop does not run. *)
Lemma DestroyGLTextures_nothing_loaded (s : SceneManager) :
  m_loadedTextures s = 0 -> DestroyGLTextures s = Done tt s.
Proof.
  intros H. unfold DestroyGLTextures, bind, get, for_upto. now rewrite H.
Qed.

(** C4: the release operation is claimed to free every handle and to reset
    the count.  The code frees nothing: it issues no [glDeleteTextures] at
    all, asks the driver for one new name per loaded slot, and leaves
    [m_loadedTextures] as it was, so that a second call does the same
    again. *)
Theorem DestroyGLTextures_frees_nothing (s : SceneManager) :
  well_formed s ->
  exists s',
    DestroyGLTextures s = Done tt s' /\
    m_loadedTextures s' = m_loadedTextures s /\
    deleted (trace s') = deleted (trace s) /\
    length (generated (trace s')) =
      (length (generated (trace s)) + Z.to_nat (m_loadedTextures s))%nat.
Proof.
  intros Hwf. unfold DestroyGLTextures, bind at 1. unfold get, for_upto.
  destruct (DestroyGLTextures_loop (Z.to_nat (m_loadedTextures s)) 0 s)
    as (s' & Hrun & _ & Hn & Hdel & Hgen); [apply loaded_in_array, Hwf|].
  exists s'. now repeat split.
Qed.

(** ** Scene preparation *)

Lemma leaves_registry_bind {A B} (m : M A) (k : A -> M B) :
  leaves_registry m -> (forall a, leaves_registry (k a)) ->
  leaves_registry (bind m k).
Proof.
  intros Hm Hk s. unfold bind. specialize (Hm s).
  destruct (m s) as [a s1|f]; [|assumption].
  specialize (Hk a s1). destruct Hm as (Harr & Hn & Hp).
  destruct (k a s1) as [b s2|f].
  - destruct Hk as (Harr2 & Hn2 & Hp2).
    rewrite Harr2, Hn2, Hp2. auto.
  - destruct Hk as [-> Hnull]. split; [reflexivity|]. now apply Hp.
Qed.

Lemma leaves_registry_shader_set name v : leaves_registry (shader_set name v).
Proof.
  intros s. unfold shader_set.
  destruct (m_pShaderManager s) as [sm|] eqn:Hp; simpl; [|auto].
  repeat split; discriminate.
Qed.

Lemma leaves_registry_emit e : leaves_registry (emit e).
Proof. intros s. now simpl. Qed.

Lemma leaves_registry_push_back m : leaves_registry (push_back m).
Proof. intros s. now simpl. Qed.

Ltac leaves_registry :=
  repeat first
    [ apply leaves_registry_bind; [|intros _]
    | apply leaves_registry_shader_set
    | apply leaves_registry_emit
    | apply leaves_registry_push_back ].

Lemma DefineObjectMaterials_leaves_registry :
  leaves_registry DefineObjectMaterials.
Proof. unfold DefineObjectMaterials. leaves_registry. Qed.

Lemma SetupSceneLights_leaves_registry : leaves_registry SetupSceneLights.
Proof.
  unfold SetupSceneLights, point_light, set_vec3, set_float, set_bool.
  leaves_registry.
Qed.

(** The eleven loads and the binding, from a freshly constructed scene
    manager: they end normally whatever the files decode to. *)
Lemma LoadSceneTextures_runs (p : option ShaderManager) tr :
  exists s',
    LoadSceneTextures (SceneManager_ctor p tr) = Done tt s' /\
    decodes (trace s') = (decodes tr + 11)%nat /\
    deleted (trace s') = deleted tr /\
    length (m_textureIDs s') = 16%nat /\
    0 <= m_loadedTextures s' <= 11 /\
    m_pShaderManager s' = p.
Proof.
  destruct (load_textures_within_capacity scene_textures
              (SceneManager_ctor p tr))
    as (bs & s1 & Hrun & Hlen & Hn & Hdec & Hdel & _ & Hp);
    [reflexivity | simpl; lia | simpl; unfold capacity; lia |].
  simpl in Hn, Hdec, Hdel, Hp.
  destruct (BindGLTextures_spec s1) as (tr' & Hbind & Hdec' & Hdel' & _);
    [split; [assumption | unfold capacity; lia]|].
  eexists. split.
  - unfold LoadSceneTextures, bind. rewrite Hrun. exact Hbind.
  - simpl. rewrite decodes_app, deleted_app, Hdec, Hdec', Hdel, Hdel', app_nil_r.
    repeat split; try assumption; lia.
Qed.

(** C9: from the constructor's empty registry, [LoadSceneTextures] asks the
    image loader exactly eleven times, ends normally, and leaves a count
    between 0 and 11, below the capacity of 16: no registration indexes
    past the array.  [PrepareScene] changes the count no further; the only
    way it can go wrong is the null shader manager in [SetupSceneLights]. *)
Theorem PrepareScene_stays_within_capacity (p : option ShaderManager) tr :
  exists s',
    LoadSceneTextures (SceneManager_ctor p tr) = Done tt s' /\
    decodes (trace s') = (decodes tr + 11)%nat /\
    0 <= m_loadedTextures s' <= 11 /\
    m_loadedTextures s' < capacity /\
    match PrepareScene (SceneManager_ctor p tr) with
    | Done _ s'' => m_loadedTextures s'' = m_loadedTextures s'
    | Crash f => f = NullDereference /\ p = None
    end.
Proof.
  destruct (LoadSceneTextures_runs p tr)
    as (s' & Hrun & Hdec & _ & _ & Hn & Hp).
  exists s'. repeat split; try assumption; try lia; [unfold capacity; lia|].
  unfold PrepareScene, bind at 1. rewrite Hrun.
  match goal with |- match ?rest s' with _ => _ end =>
    assert (Hrest : leaves_registry rest)
  end.
  { apply leaves_registry_bind;
      [apply DefineObjectMaterials_leaves_registry | intros _].
    apply leaves_registry_bind;
      [apply SetupSceneLights_leaves_registry | intros _].
    leaves_registry. }
  specialize (Hrest s').
  match goal with |- match ?r with _ => _ end => destruct r as [u s''|f] end.
  - apply Hrest.
  - destruct Hrest as [-> Hnull]. split; [reflexivity|]. congruence.
Qed.

End Properties.

(** ** Reading the product as a sequence of transformations *)

Section Action.
Context {glm : GLM}.
Variable point : Type.
Variable act : mat4 -> point -> point.
Hypothesis act_mul : forall a b v, act (mat4_mul a b) v = act a (act b v).

(** Whenever matrices act on points compatibly with their product, the
    model matrix scales first, then rotates about X, Y and Z in that order,
    and translates last. *)
Lemma model_matrix_acts_right_to_left (T Rz Ry Rx S : mat4) v :
  act (mat4_mul (mat4_mul (mat4_mul (mat4_mul T Rz) Ry) Rx) S) v =
    act T (act Rz (act Ry (act Rx (act S v)))).
Proof. now rewrite !act_mul. Qed.

End Action.

(** * Further properties *)

Section Further.
Context {glm : GLM} {platform : Platform}.

(** ** Material registry: first match, shadowing *)

Lemma FindMaterial_loop_app_hit (ms more : list OBJECT_MATERIAL) t m :
  (exists r, r ∈ ms /\ mat_tag r = t) ->
  FindMaterial_loop (ms ++ more) t m = FindMaterial_loop ms t m.
Proof.
  intros (r & Hr & Ht). induction ms as [|x ms IH]; [now apply elem_of_nil in Hr|].
  simpl. case_bool_decide as Hx; [reflexivity|].
  apply IH. apply elem_of_cons in Hr as [->|Hr]; [contradiction|assumption].
Qed.

Lemma FindMaterial_loop_app_miss (ms more : list OBJECT_MATERIAL) t m :
  (forall r, r ∈ ms -> mat_tag r <> t) ->
  FindMaterial_loop (ms ++ more) t m = FindMaterial_loop more t m.
Proof.
  intros Hno. induction ms as [|x ms IH]; [reflexivity|].
  simpl. rewrite bool_decide_eq_false_2 by (apply Hno; left).
  apply IH. intros r Hr. apply Hno. now right.
Qed.

(** The records before the first one with tag [t]. *)
Lemma first_material (ms : list OBJECT_MATERIAL) t :
  (exists r, r ∈ ms /\ mat_tag r = t) ->
  exists before r after,
    ms = before ++ r :: after /\ mat_tag r = t /\
    forall r', r' ∈ before -> mat_tag r' <> t.
Proof.
  induction ms as [|x ms IH]; intros (r & Hr & Ht);
    [now apply elem_of_nil in Hr|].
  destruct (decide (mat_tag x = t)) as [Hx|Hx].
  - exists [], x, ms. repeat split; [assumption|].
    intros r' Hr'. now apply elem_of_nil in Hr'.
  - apply elem_of_cons in Hr as [->|Hr]; [contradiction|].
    destruct IH as (before & r0 & after & -> & Ht0 & Hno); [eauto|].
    exists (x :: before), r0, after. repeat split; [assumption|].
    intros r' Hr'. apply elem_of_cons in Hr' as [->|Hr']; auto.
Qed.

(** X1: with a record of the tag present, [FindMaterial] reports found and
    hands back the output parameter with the diffuse colour, specular
    colour and shininess of the first such record; the tag of the output
    parameter is not assigned, and the registry is as it was. *)
Theorem FindMaterial_copies_first_match
    (s : SceneManager) before after r t m :
  m_objectMaterials s = before ++ r :: after ->
  (forall r', r' ∈ before -> mat_tag r' <> t) ->
  mat_tag r = t ->
  exists m',
    FindMaterial t m s = Done (true, m') s /\
    diffuseColor m' = diffuseColor r /\
    specularColor m' = specularColor r /\
    shininess m' = shininess r /\
    mat_tag m' = mat_tag m.
Proof.
  intros Hms Hno Ht. exists (copy_material r m).
  split; [now apply FindMaterial_found with before after|]. now simpl.
Qed.

(** X2: the list is append-only and the first match wins, so a record
    appended later never changes what [FindMaterial] answers for a tag that
    is already defined. *)
Theorem FindMaterial_later_records_shadowed
    (s : SceneManager) more t m :
  (exists r, r ∈ m_objectMaterials s /\ mat_tag r = t) ->
  let s' := set_objectMaterials (m_objectMaterials s ++ more) s in
  exists m',
    FindMaterial t m s = Done (true, m') s /\
    FindMaterial t m s' = Done (true, m') s'.
Proof.
  intros Hhit s'. exists (FindMaterial_loop (m_objectMaterials s) t m).
  destruct Hhit as (r & Hr & Ht).
  unfold FindMaterial, bind, get, ret. subst s'. simpl.
  rewrite !bool_decide_eq_false_2.
  - rewrite FindMaterial_loop_app_hit by eauto. now split.
  - rewrite length_app. destruct (m_objectMaterials s);
      [now apply elem_of_nil in Hr | simpl; lia].
  - destruct (m_objectMaterials s); [now apply elem_of_nil in Hr | discriminate].
Qed.

(** The pushes of [SetShaderMaterial] for a tag that is defined. *)
Lemma SetShaderMaterial_first_match_run
    (s : SceneManager) sm before after r t indeterminate :
  m_pShaderManager s = Some sm ->
  m_objectMaterials s = before ++ r :: after ->
  (forall r', r' ∈ before -> mat_tag r' <> t) ->
  mat_tag r = t ->
  SetShaderMaterial t indeterminate s =
    Done tt (set_pShaderManager (Some (sm ++ material_pushes r)) s).
Proof.
  intros Hsm Hms Hno Ht. unfold SetShaderMaterial, bind at 1. unfold get.
  rewrite materials_nonempty by (rewrite Hms; now destruct before).
  unfold bind at 1.
  rewrite (FindMaterial_found s before after r) by assumption.
  unfold bind. rewrite (shader_set_present s sm) by assumption.
  rewrite (shader_set_present _ (sm ++ [_])) by reflexivity.
  rewrite (shader_set_present _ ((sm ++ [_]) ++ [_])) by reflexivity.
  unfold set_pShaderManager, material_pushes; simpl.
  now rewrite <- !app_assoc.
Qed.

(** X3: for a tag that is defined, [SetShaderMaterial] pushes the three
    values of the first record with that tag, in the order diffuse,
    specular, shininess; what the uninitialised local held plays no part,
    and nothing but the shader manager changes. *)
Theorem SetShaderMaterial_pushes_first_match
    (s : SceneManager) sm before after r t indeterminate :
  m_pShaderManager s = Some sm ->
  m_objectMaterials s = before ++ r :: after ->
  (forall r', r' ∈ before -> mat_tag r' <> t) ->
  mat_tag r = t ->
  SetShaderMaterial t indeterminate s =
    Done tt (set_pShaderManager (Some (sm ++ material_pushes r)) s).
Proof. apply SetShaderMaterial_first_match_run. Qed.

Lemma set_objectMaterials_twice (s : SceneManager) a b :
  set_objectMaterials a (set_objectMaterials b s) = set_objectMaterials a s.
Proof. reflexivity. Qed.

(** [DefineObjectMaterials] appends the same nine records to whatever is
    there. *)
Lemma DefineObjectMaterials_appends :
  exists nine : list OBJECT_MATERIAL,
    (forall s, DefineObjectMaterials s =
                 Done tt (set_objectMaterials (m_objectMaterials s ++ nine) s)) /\
    mat_tag <$> nine =
      ["metal"; "wood"; "glass"; "plate"; "cheese"; "bread"; "darkbread";
       "shiplap"; "grape"].
Proof.
  eexists. split.
  - intros s. unfold DefineObjectMaterials, push_back, modify, bind. simpl.
    rewrite !set_objectMaterials_twice, <- !app_assoc. simpl. reflexivity.
  - reflexivity.
Qed.

(** X4: calling [DefineObjectMaterials] a second time appends the nine
    records again, and no lookup notices: for every tag, [FindMaterial]
    answers after the second call what it answered after the first. *)
Theorem DefineObjectMaterials_twice_same_lookups (s : SceneManager) t m :
  exists s1 s2 answer,
    DefineObjectMaterials s = Done tt s1 /\
    DefineObjectMaterials s1 = Done tt s2 /\
    length (m_objectMaterials s2) = (length (m_objectMaterials s) + 18)%nat /\
    FindMaterial t m s1 = Done answer s1 /\
    FindMaterial t m s2 = Done answer s2.
Proof.
  destruct DefineObjectMaterials_appends as (nine & Hrun & Htags).
  assert (Hlen : length nine = 9%nat)
    by (rewrite <- (length_fmap mat_tag), Htags; reflexivity).
  do 3 eexists. split; [apply Hrun|]. split; [apply Hrun|].
  simpl. split; [rewrite !length_app; lia|].
  unfold FindMaterial, bind, get, ret. simpl.
  rewrite !bool_decide_eq_false_2 by (rewrite !length_app; lia).
  split; [reflexivity|]. do 2 f_equal.
  set (ms := m_objectMaterials s ++ nine).
  destruct (decide (Exists (fun r => mat_tag r = t) ms)) as [Hhit|Hmiss].
  - apply Exists_exists in Hhit. now rewrite FindMaterial_loop_app_hit.
  - assert (Hno : forall r, r ∈ ms -> mat_tag r <> t).
    { intros r Hr Ht. apply Hmiss, Exists_exists. eauto. }
    rewrite FindMaterial_loop_app_miss by assumption.
    rewrite (FindMaterial_loop_unmatched ms) by assumption.
    apply FindMaterial_loop_unmatched. intros r Hr. apply Hno.
    subst ms. apply elem_of_app. now right.
Qed.

(** ** Uniform values *)

Lemma uniform_value_app (sm sm' : ShaderManager) name :
  uniform_value (sm ++ sm') name =
    match uniform_value sm' name with
    | Some v => Some v
    | None => uniform_value sm name
    end.
Proof.
  induction sm as [|[n v] sm IH]; simpl.
  - now destruct (uniform_value sm' name).
  - rewrite IH. destruct (uniform_value sm' name); [reflexivity|].
    reflexivity.
Qed.

Lemma uniform_value_other (sm sm' : ShaderManager) name :
  (forall p, p ∈ sm' -> p.1 <> name) ->
  uniform_value (sm ++ sm') name = uniform_value sm name.
Proof.
  intros Hno. rewrite uniform_value_app.
  assert (Hnone : uniform_value sm' name = None).
  { induction sm' as [|[n v] sm' IH]; [reflexivity|]. simpl.
    rewrite IH by (intros p Hp; apply Hno; now right).
    rewrite bool_decide_eq_false_2; [reflexivity|].
    apply (Hno (n, v)). left. }
  now rewrite Hnone.
Qed.

(** ** Shader-state setters with a shader manager *)

Lemma SetShaderTexture_run (s : SceneManager) sm t :
  well_formed s ->
  m_pShaderManager s = Some sm ->
  SetShaderTexture t s =
    Done tt
      (set_pShaderManager
         (Some (sm ++ [(g_UseTextureName, IntValue 1);
                       (g_TextureValueName,
                        Sampler2DValue (slot_of (first_match t (loaded s))))]))
         s).
Proof.
  intros Hwf Hsm. unfold SetShaderTexture.
  rewrite (if_shader_present s sm) by assumption.
  unfold bind at 1. rewrite (shader_set_present s sm) by assumption.
  unfold bind at 1.
  rewrite FindTextureSlot_spec by exact Hwf.
  rewrite (shader_set_present _ (sm ++ [_])) by reflexivity.
  unfold set_pShaderManager. simpl. now rewrite <- app_assoc.
Qed.

Lemma SetShaderColor_run (s : SceneManager) sm r g b a :
  m_pShaderManager s = Some sm ->
  SetShaderColor r g b a s =
    Done tt
      (set_pShaderManager
         (Some (sm ++ [(g_UseTextureName, IntValue 0);
                       (g_ColorValueName, Vec4Value (r, g, b, a))]))
         s).
Proof.
  intros Hsm. unfold SetShaderColor.
  rewrite (if_shader_present s sm) by assumption.
  unfold bind. rewrite (shader_set_present s sm) by assumption.
  rewrite (shader_set_present _ (sm ++ [_])) by reflexivity.
  unfold set_pShaderManager. simpl. now rewrite <- app_assoc.
Qed.

(** X5: with a shader manager, on a registry within bounds,
    [SetShaderTexture] switches texturing on and pushes as the sampler the
    slot of the first loaded texture with the tag; for a tag that is not
    loaded it pushes the sentinel [-1] as the sampler, and ends normally all
    the same.  Nothing but the shader manager changes. *)
Theorem SetShaderTexture_pushes_slot_or_sentinel (s : SceneManager) sm t :
  well_formed s ->
  m_pShaderManager s = Some sm ->
  exists slot s',
    SetShaderTexture t s = Done tt s' /\
    s' = set_pShaderManager
           (Some (sm ++ [("bUseTexture", IntValue 1);
                         ("objectTexture", Sampler2DValue slot)])) s /\
    ((forall e, e ∈ loaded s -> tag e <> t) -> slot = -1) /\
    (forall k e, loaded s !! k = Some e -> tag e = t ->
       (forall j e', (j < k)%nat -> loaded s !! j = Some e' -> tag e' <> t) ->
       slot = Z.of_nat k).
Proof.
  intros Hwf Hsm. do 2 eexists.
  split; [apply SetShaderTexture_run; eassumption|].
  split; [reflexivity|]. split.
  - intros Hno. now rewrite (proj2 (first_match_None t (loaded s)) Hno).
  - intros k e Hk Ht Hbefore.
    now rewrite (first_match_first t (loaded s) k e).
Qed.

(** X6: whichever of [SetShaderTexture] and [SetShaderColor] is called
    last decides the "use texture" flag; the colour pushed by
    [SetShaderColor] stays in place when [SetShaderTexture] follows. *)
Theorem appearance_last_call_decides (s : SceneManager) t r g b a :
  well_formed s ->
  m_pShaderManager s <> None ->
  (exists s', (SetShaderTexture t ;; SetShaderColor r g b a) s = Done tt s' /\
     uniform_of s' "bUseTexture" = Some (IntValue 0) /\
     uniform_of s' "objectColor" = Some (Vec4Value (r, g, b, a))) /\
  (exists s', (SetShaderColor r g b a ;; SetShaderTexture t) s = Done tt s' /\
     uniform_of s' "bUseTexture" = Some (IntValue 1) /\
     uniform_of s' "objectColor" = Some (Vec4Value (r, g, b, a))).
Proof.
  intros Hwf Hsm. destruct (m_pShaderManager s) as [sm|] eqn:Hp; [|congruence].
  split.
  - eexists. split.
    + unfold bind. rewrite (SetShaderTexture_run s sm) by assumption.
      erewrite SetShaderColor_run; reflexivity.
    + unfold uniform_of. simpl. rewrite !uniform_value_app. now simpl.
  - eexists. split.
    + unfold bind. rewrite (SetShaderColor_run s sm) by assumption.
      erewrite SetShaderTexture_run; [reflexivity | exact Hwf | reflexivity].
    + unfold uniform_of. simpl. rewrite !uniform_value_app. now simpl.
Qed.

Lemma set_pShaderManager_twice (s : SceneManager) a b :
  set_pShaderManager a (set_pShaderManager b s) = set_pShaderManager a s.
Proof. reflexivity. Qed.

Lemma SetTransformations_run (s : SceneManager) sm scale x y z position :
  m_pShaderManager s = Some sm ->
  exists modelView,
    SetTransformations scale x y z position s =
      Done tt (set_pShaderManager
                 (Some (sm ++ [(g_ModelName, Mat4Value modelView)])) s).
Proof.
  intros Hsm. eexists. unfold SetTransformations.
  rewrite (if_shader_present s sm) by assumption.
  now rewrite (shader_set_present s sm).
Qed.

Lemma SetTextureUVScale_run (s : SceneManager) sm u v :
  m_pShaderManager s = Some sm ->
  SetTextureUVScale u v s =
    Done tt (set_pShaderManager (Some (sm ++ [("UVscale", Vec2Value (u, v))])) s).
Proof.
  intros Hsm. unfold SetTextureUVScale.
  rewrite (if_shader_present s sm) by assumption.
  now rewrite (shader_set_present s sm).
Qed.

(** With a shader manager and a material defined, [SetShaderMaterial]
    pushes the three fields of some record: of the first match, or of the
    uninitialised local. *)
Lemma SetShaderMaterial_run (s : SceneManager) sm t indeterminate :
  m_pShaderManager s = Some sm ->
  m_objectMaterials s <> [] ->
  exists m,
    SetShaderMaterial t indeterminate s =
      Done tt (set_pShaderManager (Some (sm ++ material_pushes m)) s).
Proof.
  intros Hsm Hne.
  exists (FindMaterial_loop (m_objectMaterials s) t indeterminate).
  unfold SetShaderMaterial, bind at 1. unfold get.
  rewrite materials_nonempty by assumption.
  unfold bind at 1. unfold FindMaterial, bind at 1. unfold get.
  rewrite bool_decide_eq_false_2
    by (destruct (m_objectMaterials s); [congruence | discriminate]).
  unfold ret, bind. rewrite (shader_set_present s sm) by assumption.
  rewrite (shader_set_present _ (sm ++ [_])) by reflexivity.
  rewrite (shader_set_present _ ((sm ++ [_]) ++ [_])) by reflexivity.
  unfold set_pShaderManager, material_pushes; simpl.
  now rewrite <- !app_assoc.
Qed.

Lemma SetShaderMaterial_no_materials (s : SceneManager) t indeterminate :
  m_objectMaterials s = [] -> SetShaderMaterial t indeterminate s = Done tt s.
Proof. intros H. unfold SetShaderMaterial, bind, get. now rewrite H. Qed.

Lemma SetShaderMaterial_null (s : SceneManager) t indeterminate :
  m_pShaderManager s = None -> m_objectMaterials s <> [] ->
  SetShaderMaterial t indeterminate s = Crash NullDereference.
Proof.
  intros Hnull Hne. unfold SetShaderMaterial, bind at 1. unfold get.
  rewrite materials_nonempty by assumption.
  unfold bind at 1. unfold FindMaterial, bind at 1. unfold get.
  rewrite bool_decide_eq_false_2
    by (destruct (m_objectMaterials s); [congruence | discriminate]).
  unfold ret, bind. now rewrite shader_set_null.
Qed.

Lemma uniform_of_pushed (s : SceneManager) sm pushes name :
  m_pShaderManager s = Some sm ->
  (forall p, p ∈ pushes -> p.1 <> name) ->
  uniform_of (set_pShaderManager (Some (sm ++ pushes)) s) name =
    uniform_of s name.
Proof.
  intros Hsm Hno. unfold uniform_of. simpl. rewrite Hsm.
  now apply uniform_value_other.
Qed.

Ltac other_names :=
  let p := fresh "p" in
  let Hp := fresh "Hp" in
  intros p Hp;
  repeat (apply elem_of_cons in Hp as [->|Hp];
          [simpl; unfold g_ModelName, g_ColorValueName, g_TextureValueName,
             g_UseTextureName; congruence|]);
  now apply elem_of_nil in Hp.

(** X7: a setter that ends normally leaves the slot array, the count, the
    materials and the collaborator trace alone, and leaves every uniform
    outside its own names at the value it had: "model" for
    [SetTransformations]; "bUseTexture" and "objectColor" for
    [SetShaderColor]; "bUseTexture" and "objectTexture" for
    [SetShaderTexture]; "UVscale" for [SetTextureUVScale]; the three
    material uniforms for [SetShaderMaterial]. *)
Theorem setters_leave_other_uniforms (s s' : SceneManager) name :
  well_formed s ->
  (forall scale x y z position,
     SetTransformations scale x y z position s = Done tt s' ->
     name <> "model" ->
     same_registry s s' /\ trace s' = trace s /\
     uniform_of s' name = uniform_of s name) /\
  (forall r g b a,
     SetShaderColor r g b a s = Done tt s' ->
     name <> "bUseTexture" -> name <> "objectColor" ->
     same_registry s s' /\ trace s' = trace s /\
     uniform_of s' name = uniform_of s name) /\
  (forall t,
     SetShaderTexture t s = Done tt s' ->
     name <> "bUseTexture" -> name <> "objectTexture" ->
     same_registry s s' /\ trace s' = trace s /\
     uniform_of s' name = uniform_of s name) /\
  (forall u v,
     SetTextureUVScale u v s = Done tt s' ->
     name <> "UVscale" ->
     same_registry s s' /\ trace s' = trace s /\
     uniform_of s' name = uniform_of s name) /\
  (forall t indeterminate,
     SetShaderMaterial t indeterminate s = Done tt s' ->
     name <> "material.diffuseColor" -> name <> "material.specularColor" ->
     name <> "material.shininess" ->
     same_registry s s' /\ trace s' = trace s /\
     uniform_of s' name = uniform_of s name).
Proof.
  intros Hwf.
  assert (Hsame : same_registry s s /\ trace s = trace s /\
                  uniform_of s name = uniform_of s name) by (now repeat split).
  assert (Hpushed : forall sm pushes,
            m_pShaderManager s = Some sm ->
            (forall p, p ∈ pushes -> p.1 <> name) ->
            Done tt (set_pShaderManager (Some (sm ++ pushes)) s) = Done tt s' ->
            same_registry s s' /\ trace s' = trace s /\
            uniform_of s' name = uniform_of s name).
  { intros sm pushes Hsm Hno [= <-].
    split; [now repeat split|]. split; [reflexivity|].
    now apply uniform_of_pushed. }
  destruct (m_pShaderManager s) as [sm|] eqn:Hp.
  - repeat apply conj.
    + intros scale x y z position Hrun Hn.
      destruct (SetTransformations_run s sm scale x y z position Hp)
        as [modelView Heq].
      rewrite Heq in Hrun. apply (Hpushed sm _ eq_refl) in Hrun;
        [assumption | other_names].
    + intros r g b a Hrun Hn1 Hn2.
      rewrite (SetShaderColor_run s sm) in Hrun by assumption.
      apply (Hpushed sm _ eq_refl) in Hrun; [assumption | other_names].
    + intros t Hrun Hn1 Hn2.
      rewrite (SetShaderTexture_run s sm) in Hrun by assumption.
      apply (Hpushed sm _ eq_refl) in Hrun; [assumption | other_names].
    + intros u v Hrun Hn.
      rewrite (SetTextureUVScale_run s sm) in Hrun by assumption.
      apply (Hpushed sm _ eq_refl) in Hrun; [assumption | other_names].
    + intros t indeterminate Hrun Hn1 Hn2 Hn3.
      destruct (m_objectMaterials s) as [|r0 ms] eqn:Hms.
      * rewrite SetShaderMaterial_no_materials in Hrun by assumption.
        now injection Hrun as <-.
      * destruct (SetShaderMaterial_run s sm t indeterminate Hp) as [m Heq];
          [rewrite Hms; discriminate|].
        rewrite Heq in Hrun. apply (Hpushed sm _ eq_refl) in Hrun;
          [assumption | other_names].
  - repeat apply conj.
    + intros scale x y z position Hrun _. unfold SetTransformations in Hrun.
      rewrite if_shader_null in Hrun by assumption. now injection Hrun as <-.
    + intros r g b a Hrun _ _. unfold SetShaderColor in Hrun.
      rewrite if_shader_null in Hrun by assumption. now injection Hrun as <-.
    + intros t Hrun _ _. unfold SetShaderTexture in Hrun.
      rewrite if_shader_null in Hrun by assumption. now injection Hrun as <-.
    + intros u v Hrun _. unfold SetTextureUVScale in Hrun.
      rewrite if_shader_null in Hrun by assumption. now injection Hrun as <-.
    + intros t indeterminate Hrun _ _ _.
      destruct (m_objectMaterials s) as [|r0 ms] eqn:Hms.
      * rewrite SetShaderMaterial_no_materials in Hrun by assumption.
        now injection Hrun as <-.
      * rewrite SetShaderMaterial_null in Hrun
          by (rewrite ?Hms; auto; discriminate).
        discriminate.
Qed.

(** ** Texture registry: what a load does *)

Ltac run_load :=
  unfold finish_texture, gen_texture, gl; unfold emit, modify, get, ret, bind;
  simpl; rewrite ?set_trace_twice, <- ?app_assoc; simpl.

(** The events of a load that reaches the registration: the image is
    released and the texture unbound at the end. *)
Lemma CreateGLTexture_supported_events (s : SceneManager) filename t image :
  stbi_load filename = Some image ->
  colorChannels image = 3 \/ colorChannels image = 4 ->
  exists name tr',
    CreateGLTexture filename t s =
      register_texture name t (set_trace (trace s ++ tr') s) /\
    generated tr' = [name] /\ deleted tr' = [] /\
    GL (glBindTexture name) ∈ tr' /\
    stbi_image_free ∈ tr' /\ last tr' = Some (GL (glBindTexture 0)).
Proof.
  intros Hl Hc. unfold CreateGLTexture. rewrite Hl.
  destruct Hc as [Hc|Hc]; rewrite Hc; simpl.
  - do 2 eexists. split; [run_load; reflexivity|].
    repeat split; [do 3 right; left | do 10 right; left].
  - do 2 eexists. split; [run_load; reflexivity|].
    repeat split; [do 3 right; left | do 10 right; left].
Qed.

(** The events of a load that gives up on the channel count: a texture
    name was generated and bound, the image is not released and the
    texture not unbound. *)
Lemma CreateGLTexture_other_channels_events
    (s : SceneManager) filename t image :
  stbi_load filename = Some image ->
  colorChannels image <> 3 ->
  colorChannels image <> 4 ->
  exists name tr',
    CreateGLTexture filename t s = Done false (set_trace (trace s ++ tr') s) /\
    generated tr' = [name] /\ deleted tr' = [] /\
    (stbi_image_free ∉ tr') /\
    (forall x, GL (glBindTexture x) ∈ tr' -> x = name) /\
    GL (glBindTexture name) ∈ tr'.
Proof.
  intros Hl H3 H4. unfold CreateGLTexture. rewrite Hl.
  destruct (Z.eqb_spec (colorChannels image) 3) as [|_]; [contradiction|].
  destruct (Z.eqb_spec (colorChannels image) 4) as [|_]; [contradiction|].
  do 2 eexists. split; [run_load; reflexivity|].
  split; [reflexivity|]. split; [reflexivity|].
  split; [|split].
  - intros H. repeat (apply elem_of_cons in H as [H|H]; [discriminate|]).
    now apply elem_of_nil in H.
  - intros x H.
    repeat (apply elem_of_cons in H as [H|H];
            [first [discriminate | now injection H] |]).
    now apply elem_of_nil in H.
  - do 3 right. left.
Qed.

Lemma supported_cases filename :
  supported filename \/
  stbi_load filename = None \/
  exists image, stbi_load filename = Some image /\
                colorChannels image <> 3 /\ colorChannels image <> 4.
Proof.
  unfold supported. destruct (stbi_load filename) as [image|]; [|auto].
  destruct (channels_cases image) as [Hc|Hc]; eauto.
Qed.

Lemma not_supported_undecodable filename :
  stbi_load filename = None -> ~ supported filename.
Proof. intros H (image & Hl & _). congruence. Qed.

Lemma not_supported_other_channels filename image :
  stbi_load filename = Some image ->
  colorChannels image <> 3 -> colorChannels image <> 4 ->
  ~ supported filename.
Proof. intros H H3 H4 (image' & Hl & Hc). assert (image' = image) by congruence. subst. lia. Qed.

(** X8: on a registry within bounds a load leaves defined behaviour in one
    case only: the image decodes with 3 or 4 channels and all sixteen slots
    are taken.  A file that does not decode, or decodes with another channel
    count, is turned down safely even then. *)
Theorem CreateGLTexture_crashes_iff_full_and_supported
    (s : SceneManager) filename t :
  well_formed s ->
  (exists f, CreateGLTexture filename t s = Crash f) <->
  (supported filename /\ m_loadedTextures s = capacity).
Proof.
  intros [Hlen Hn]. split.
  - intros [f Hcrash].
    destruct (supported_cases filename)
      as [Hs|[Hnone|(image & Hl & H3 & H4)]].
    + split; [assumption|].
      destruct (decide (m_loadedTextures s = capacity)) as [|Hroom];
        [assumption|].
      destruct (CreateGLTexture_below_capacity s filename t Hlen)
        as (b & s1 & Hrun & _); [lia|]. congruence.
    + rewrite CreateGLTexture_undecodable in Hcrash by assumption.
      discriminate.
    + destruct (CreateGLTexture_other_channels s filename t image Hl H3 H4)
        as (tr' & Hrun & _). congruence.
  - intros [(image & Hl & Hc) Hfull]. exists OutOfBounds.
    destruct (CreateGLTexture_supported s filename t image Hl Hc)
      as (tr' & -> & _).
    apply register_texture_out. right. simpl. rewrite Hlen, Hfull.
    unfold capacity. lia.
Qed.

(** X9: the value returned by [CreateGLTexture] says whether an entry was
    appended.  [true] comes exactly for an image of 3 or 4 channels; the new
    entry then sits in the slot the count pointed to, with the tag given and
    the name the driver generated, the count has moved by one and the
    entries loaded before are as they were.  [false] leaves array and count
    untouched.  Either way the registry stays within bounds and materials
    and shader manager are not touched. *)
Theorem CreateGLTexture_true_iff_appended
    (s s' : SceneManager) filename t b :
  well_formed s ->
  CreateGLTexture filename t s = Done b s' ->
  well_formed s' /\
  m_objectMaterials s' = m_objectMaterials s /\
  m_pShaderManager s' = m_pShaderManager s /\
  (b = true <-> supported filename) /\
  (b = true ->
     exists name,
       generated (trace s') = generated (trace s) ++ [name] /\
       loaded s' = loaded s ++ [{| tag := t; ID := name |}] /\
       m_loadedTextures s' = m_loadedTextures s + 1) /\
  (b = false ->
     m_textureIDs s' = m_textureIDs s /\
     m_loadedTextures s' = m_loadedTextures s).
Proof.
  intros [Hlen Hn] Hrun. destruct b.
  - destruct (CreateGLTexture_true s s' filename t Hlen Hrun)
      as (name & tr' & Hin & Htr & Hgen & _ & _ & Harr & Hcount & Hm & Hp & _).
    split; [split; [now rewrite Harr, length_insert | lia]|].
    split; [assumption|]. split; [assumption|]. split; [|split].
    + split; [|reflexivity]. intros _.
      destruct (supported_cases filename)
        as [Hs|[Hnone|(image & Hl & H3 & H4)]]; [assumption| |].
      * rewrite CreateGLTexture_undecodable in Hrun by assumption.
        discriminate.
      * destruct (CreateGLTexture_other_channels s filename t image Hl H3 H4)
          as (tr0 & Hrun0 & _). congruence.
    + intros _. exists name.
      rewrite Htr, generated_app, Hgen. split; [reflexivity|].
      split; [|assumption]. unfold loaded at 1. rewrite Hcount, Harr.
      apply loaded_after_register; [lia|]. rewrite Hlen.
      unfold capacity in Hin. lia.
    + discriminate.
  - assert (Hsame : m_textureIDs s' = m_textureIDs s /\
                    m_loadedTextures s' = m_loadedTextures s /\
                    m_objectMaterials s' = m_objectMaterials s /\
                    m_pShaderManager s' = m_pShaderManager s /\
                    ~ supported filename).
    { destruct (supported_cases filename)
        as [(image & Hl & Hc)|[Hnone|(image & Hl & H3 & H4)]].
      - exfalso.
        destruct (CreateGLTexture_supported s filename t image Hl Hc)
          as (tr' & Heq & _). rewrite Heq in Hrun.
        destruct (decide (m_loadedTextures s < capacity)) as [Hroom|Hfull].
        + rewrite register_texture_in in Hrun
            by (simpl; rewrite ?Hlen; unfold capacity in Hroom; lia).
          discriminate.
        + rewrite register_texture_out in Hrun; [discriminate|].
          right. simpl. rewrite Hlen. unfold capacity in *. lia.
      - rewrite CreateGLTexture_undecodable in Hrun by assumption.
        injection Hrun as <-. simpl.
        repeat split. now apply not_supported_undecodable.
      - destruct (CreateGLTexture_other_channels s filename t image Hl H3 H4)
          as (tr' & Heq & _). rewrite Heq in Hrun.
        injection Hrun as <-. simpl.
        repeat split. now apply not_supported_other_channels with image. }
    destruct Hsame as (Harr & Hcount & Hm & Hp & Hnot).
    split; [split; [now rewrite Harr | now rewrite Hcount]|].
    split; [assumption|]. split; [assumption|]. split; [|split].
    + split; [discriminate | contradiction].
    + discriminate.
    + now split.
Qed.

Lemma register_texture_Done (s s' : SceneManager) textureID t b :
  register_texture textureID t s = Done b s' ->
  b = true /\ trace s' = trace s.
Proof.
  intros Hrun.
  destruct (decide (0 <= m_loadedTextures s /\
                    (Z.to_nat (m_loadedTextures s) < length (m_textureIDs s))%nat))
    as [[H0 Hlt]|Hout].
  - rewrite register_texture_in in Hrun by assumption.
    now injection Hrun as <- <-.
  - rewrite register_texture_out in Hrun; [discriminate|]. lia.
Qed.

(** X10: a load that decodes the file but turns it down for its channel
    count has already generated and bound a texture name.  That name is
    never deleted nor recorded, no other texture is bound afterwards, and
    the pixel buffer is not released; a load that returns [true] releases
    the buffer and binds texture 0 as its last call to the driver. *)
Theorem CreateGLTexture_cleans_up_only_on_success
    (s s' : SceneManager) filename t image b :
  stbi_load filename = Some image ->
  CreateGLTexture filename t s = Done b s' ->
  exists name tr',
    trace s' = trace s ++ tr' /\
    generated tr' = [name] /\ deleted tr' = [] /\
    GL (glBindTexture name) ∈ tr' /\
    (b = true ->
       stbi_image_free ∈ tr' /\ last tr' = Some (GL (glBindTexture 0))) /\
    (b = false ->
       (stbi_image_free ∉ tr') /\
       (forall x, GL (glBindTexture x) ∈ tr' -> x = name) /\
       m_textureIDs s' = m_textureIDs s).
Proof.
  intros Hl Hrun. destruct (channels_cases image) as [Hc|[H3 H4]].
  - destruct (CreateGLTexture_supported_events s filename t image Hl Hc)
      as (name & tr' & Heq & Hgen & Hdel & Hbind & Hfree & Hlast).
    rewrite Heq in Hrun. apply register_texture_Done in Hrun as [-> Htr].
    exists name, tr'. simpl in Htr.
    repeat split; try assumption; discriminate.
  - destruct (CreateGLTexture_other_channels_events s filename t image Hl H3 H4)
      as (name & tr' & Heq & Hgen & Hdel & Hfree & Hunbind & Hbind).
    rewrite Heq in Hrun. injection Hrun as <- <-.
    exists name, tr'. simpl. repeat split; try assumption; discriminate.
Qed.

(** ** Texture registry: loading and looking up *)

Lemma first_match_app t (l l' : list TEXTURE_INFO) :
  first_match t (l ++ l') =
    match first_match t l with
    | Some r => Some r
    | None =>
        match first_match t l' with
        | Some (k, e) => Some ((length l + k)%nat, e)
        | None => None
        end
    end.
Proof.
  induction l as [|x l IH]; simpl.
  - now destruct (first_match t l') as [[k e]|].
  - case_bool_decide; [reflexivity|]. rewrite IH.
    destruct (first_match t l) as [[k e]|]; [reflexivity|].
    now destruct (first_match t l') as [[k e]|].
Qed.

Lemma length_loaded (s : SceneManager) :
  well_formed s -> length (loaded s) = Z.to_nat (m_loadedTextures s).
Proof.
  intros Hwf. unfold loaded. apply length_take_le.
  now apply loaded_in_array.
Qed.

(** X11: loading and then looking up.  After a load that returned [true],
    a tag that was already loaded is answered as before by both lookups,
    also when it is the tag just loaded again; the new tag, if it was not
    loaded before, is answered with the slot the count pointed to and with
    the name the driver generated read as an [int]: the name itself when it
    is below [2^31], the name minus [2^32] (a negative number) from there
    on; every other tag still misses. *)
Theorem lookups_after_one_more_load
    (s s' : SceneManager) filename t t' :
  well_formed s ->
  CreateGLTexture filename t s = Done true s' ->
  exists name slot handle slot' handle',
    generated (trace s') = generated (trace s) ++ [name] /\
    0 <= name < 2 ^ 32 /\
    FindTextureSlot t' s = Done slot s /\
    FindTextureID t' s = Done handle s /\
    FindTextureSlot t' s' = Done slot' s' /\
    FindTextureID t' s' = Done handle' s' /\
    (slot <> -1 -> slot' = slot /\ handle' = handle) /\
    (slot = -1 -> t' = t ->
       slot' = m_loadedTextures s /\
       (name < 2 ^ 31 -> handle' = name) /\
       (2 ^ 31 <= name -> handle' = name - 2 ^ 32)) /\
    (slot = -1 -> t' <> t -> slot' = -1 /\ handle' = -1).
Proof.
  intros Hwf Hrun.
  destruct (CreateGLTexture_true s s' filename t (proj1 Hwf) Hrun)
    as (name & tr' & Hin & Htr & Hgen & _ & _ & Harr & Hcount & _ & _ & Hname).
  assert (Hwf' : well_formed s').
  { split; [rewrite Harr, length_insert; apply Hwf | lia]. }
  assert (Hloaded : loaded s' = loaded s ++ [{| tag := t; ID := name |}]).
  { unfold loaded at 1. rewrite Hcount, Harr.
    apply loaded_after_register; [lia|].
    rewrite (proj1 Hwf). unfold capacity in Hin. lia. }
  exists name, (slot_of (first_match t' (loaded s))),
    (handle_of (first_match t' (loaded s))),
    (slot_of (first_match t' (loaded s'))),
    (handle_of (first_match t' (loaded s'))).
  split; [now rewrite Htr, generated_app, Hgen|].
  split; [exact Hname|].
  split; [now apply FindTextureSlot_spec|].
  split; [now apply FindTextureID_spec|].
  split; [now apply FindTextureSlot_spec|].
  split; [now apply FindTextureID_spec|].
  rewrite Hloaded, first_match_app.
  destruct (first_match t' (loaded s)) as [[k e]|] eqn:Hfirst; simpl.
  - split; [now intros _|]. split; intros; lia.
  - rewrite length_loaded by assumption.
    case_bool_decide as Ht; simpl.
    + split; [intros; lia|]. split; [|intros; congruence].
      intros _ _. split; [lia|].
      split; [apply int_of_GLuint_low | apply int_of_GLuint_high].
    + split; [intros; lia|]. split; [intros; congruence|]. now intros _ _.
Qed.

(** ** Binding and releasing *)

Lemma BindGLTextures_loop_events (s : SceneManager) todo : forall i tr0,
  (i + todo <= length (m_textureIDs s))%nat ->
  for_from (Z.of_nat i) todo
    (fun i => gl (glActiveTexture (GL_TEXTURE0 + i)) ;;
              e <- read_slot i ;;
              gl (glBindTexture (ID e)))
    (set_trace tr0 s) =
  Done tt
    (set_trace
       (tr0 ++ bind_events (Z.of_nat i) (take todo (drop i (m_textureIDs s))))
       s).
Proof.
  induction todo as [|todo IH]; intros i tr0 Hi.
  - simpl. now rewrite app_nil_r.
  - destruct (lookup_lt_is_Some_2 (m_textureIDs s) i) as [e He]; [lia|].
    rewrite (drop_S _ _ _ He). simpl.
    unfold bind at 1. unfold bind at 1. unfold gl at 1, emit, modify.
    unfold bind at 1.
    rewrite (read_slot_in _ _ e) by (rewrite ?Nat2Z.id; auto; lia).
    unfold gl, emit, modify. simpl. rewrite !set_trace_twice.
    replace (Z.of_nat i + 1) with (Z.of_nat (S i)) by lia.
    rewrite <- app_assoc. simpl.
    refine (eq_trans (IH (S i) _ _) _); [lia|].
    now rewrite <- app_assoc.
Qed.

(** X12: on a registry within bounds [BindGLTextures] makes, for each
    loaded slot in order, the texture unit of that number active and binds
    the stored name to it; nothing else happens, and with nothing loaded
    nothing happens at all. *)
Theorem BindGLTextures_binds_slots_in_order (s : SceneManager) :
  well_formed s ->
  BindGLTextures s =
    Done tt (set_trace (trace s ++ bind_events 0 (loaded s)) s) /\
  length (bind_events 0 (loaded s)) = (2 * Z.to_nat (m_loadedTextures s))%nat /\
  forall k e, loaded s !! k = Some e ->
    bind_events 0 (loaded s) !! (2 * k)%nat =
      Some (GL (glActiveTexture (GL_TEXTURE0 + Z.of_nat k))) /\
    bind_events 0 (loaded s) !! (2 * k + 1)%nat =
      Some (GL (glBindTexture (ID e))).
Proof.
  intros Hwf. split; [|split].
  - unfold BindGLTextures, bind at 1. unfold get, for_upto.
    pose proof (BindGLTextures_loop_events s
                  (Z.to_nat (m_loadedTextures s)) 0 (trace s)
                  (loaded_in_array s Hwf)) as Hrun.
    rewrite drop_0 in Hrun. fold (loaded s) in Hrun.
    replace (set_trace (trace s) s) with s in Hrun by now destruct s.
    exact Hrun.
  - rewrite <- length_loaded by assumption.
    generalize 0. induction (loaded s) as [|e l IH]; intros i; simpl;
      [reflexivity|]. rewrite IH. lia.
  - assert (Hat : forall (l : list TEXTURE_INFO) i k e, l !! k = Some e ->
              bind_events i l !! (2 * k)%nat =
                Some (GL (glActiveTexture (GL_TEXTURE0 + (i + Z.of_nat k)))) /\
              bind_events i l !! (2 * k + 1)%nat =
                Some (GL (glBindTexture (ID e)))).
    { induction l as [|x l IH]; intros i k e Hk; [discriminate|].
      destruct k as [|k]; simpl in Hk.
      - injection Hk as ->. simpl. split; [do 3 f_equal; lia | reflexivity].
      - destruct (IH (i + 1) k e Hk) as [Hactive Hbind].
        replace (2 * S k)%nat with (S (S (2 * k))) by lia.
        replace (2 * S k + 1)%nat with (S (S (2 * k + 1))) by lia.
        split; [|exact Hbind].
        refine (eq_trans Hactive _). do 3 f_equal. lia. }
    intros k e Hk. destruct (Hat (loaded s) 0 k e Hk) as [Hactive Hbind].
    split; [|exact Hbind]. rewrite Hactive. do 3 f_equal.
Qed.

Lemma DestroyGLTextures_loop_names todo : forall i (s : SceneManager),
  (i + todo <= length (m_textureIDs s))%nat ->
  exists s' names,
    for_from (Z.of_nat i) todo
      (fun i => name <- gen_texture ;; write_slot i (with_ID name)) s =
      Done tt s' /\
    tag <$> m_textureIDs s' = tag <$> m_textureIDs s /\
    take i (m_textureIDs s') = take i (m_textureIDs s) /\
    drop (i + todo) (m_textureIDs s') = drop (i + todo) (m_textureIDs s) /\
    ID <$> take todo (drop i (m_textureIDs s')) = names /\
    generated (trace s') = generated (trace s) ++ names /\
    m_loadedTextures s' = m_loadedTextures s /\
    m_objectMaterials s' = m_objectMaterials s /\
    m_pShaderManager s' = m_pShaderManager s.
Proof.
  induction todo as [|todo IH]; intros i s Hi.
  - exists s, []. simpl. rewrite app_nil_r. now repeat split.
  - destruct (lookup_lt_is_Some_2 (m_textureIDs s) i) as [e He]; [lia|].
    simpl. unfold bind at 1. unfold bind at 1.
    unfold gen_texture at 1, bind at 1, get. unfold bind at 1.
    unfold gl at 1, emit, modify. unfold ret at 1.
    unfold write_slot, bind at 1.
    rewrite (read_slot_in _ _ e) by (rewrite ?Nat2Z.id; auto; lia).
    unfold modify. replace (Z.of_nat i + 1) with (Z.of_nat (S i)) by lia.
    match goal with |- context [for_from _ _ _ ?s1] =>
      destruct (IH (S i) s1)
        as (s' & names & Hrun & Htags & Htake & Hdrop & Hids & Hgen &
            Hn & Hm & Hp)
    end; [simpl; rewrite length_insert; lia|].
    simpl in Htags, Htake, Hdrop, Hids, Hgen, Hn, Hm, Hp.
    rewrite Nat2Z.id in Htags, Htake, Hdrop.
    set (name := GLuint_of_int (gl_fresh_name (trace s))) in *.
    assert (Hlen : length (m_textureIDs s') = length (m_textureIDs s)).
    { rewrite <- (length_fmap tag), Htags, length_fmap. apply length_insert. }
    assert (Hi' : m_textureIDs s' !! i = Some (with_ID name e)).
    { rewrite <- (lookup_take_lt _ (S i)) by lia. rewrite Htake.
      rewrite lookup_take_lt by lia. apply list_lookup_insert_eq. lia. }
    exists s', (name :: names). split; [exact Hrun|].
    split.
    { rewrite Htags, list_fmap_insert. apply list_insert_id.
      rewrite list_lookup_fmap, He. reflexivity. }
    split.
    { apply (f_equal (take i)) in Htake.
      rewrite !take_take, Nat.min_l in Htake by lia.
      now rewrite take_insert_ge in Htake by lia. }
    split.
    { replace (i + S todo)%nat with (S (i + todo)) by lia.
      change (S i + todo)%nat with (S (i + todo)) in Hdrop.
      rewrite Hdrop. apply drop_insert_lt. lia. }
    split.
    { rewrite <- Hids, (drop_S _ _ _ Hi'). reflexivity. }
    split.
    { rewrite Hgen, generated_app. simpl. now rewrite <- app_assoc. }
    now repeat split.
Qed.

Lemma slot_of_same_tags t (l l' : list TEXTURE_INFO) :
  tag <$> l = tag <$> l' ->
  slot_of (first_match t l) = slot_of (first_match t l').
Proof.
  revert l'. induction l as [|x l IH]; intros [|x' l'] Htags;
    try discriminate; [reflexivity|].
  injection Htags as Hx Htags. simpl. rewrite Hx.
  case_bool_decide; [reflexivity|].
  specialize (IH l' Htags).
  destruct (first_match t l) as [[k e]|], (first_match t l') as [[k' e']|];
    simpl in *; lia.
Qed.

(** X13: what [DestroyGLTextures] leaves behind on a registry within
    bounds.  Tags and count are as before, so every tag is still found in
    its slot; the names stored in the loaded slots are now the ones the
    driver has just generated, one per slot in slot order, whatever was
    stored before; the slots above the count are untouched. *)
Theorem DestroyGLTextures_keeps_tags_replaces_names (s : SceneManager) :
  well_formed s ->
  exists s',
    DestroyGLTextures s = Done tt s' /\
    well_formed s' /\
    tag <$> m_textureIDs s' = tag <$> m_textureIDs s /\
    m_loadedTextures s' = m_loadedTextures s /\
    generated (trace s') = generated (trace s) ++ (ID <$> loaded s') /\
    drop (Z.to_nat (m_loadedTextures s)) (m_textureIDs s') =
      drop (Z.to_nat (m_loadedTextures s)) (m_textureIDs s) /\
    forall t, exists slot,
      FindTextureSlot t s = Done slot s /\
      FindTextureSlot t s' = Done slot s'.
Proof.
  intros Hwf. unfold DestroyGLTextures, bind at 1. unfold get, for_upto.
  destruct (DestroyGLTextures_loop_names (Z.to_nat (m_loadedTextures s)) 0 s)
    as (s' & names & Hrun & Htags & _ & Hdrop & Hids & Hgen & Hn & _ & _);
    [apply loaded_in_array, Hwf|].
  rewrite drop_0 in Hids. simpl in Hdrop.
  assert (Hwf' : well_formed s').
  { split; [|rewrite Hn; apply Hwf].
    rewrite <- (length_fmap tag), Htags, length_fmap. apply Hwf. }
  exists s'. split; [exact Hrun|]. split; [exact Hwf'|].
  split; [exact Htags|]. split; [exact Hn|].
  split; [unfold loaded; now rewrite Hn, Hids|].
  split; [exact Hdrop|].
  intros t. exists (slot_of (first_match t (loaded s))).
  split; [now apply FindTextureSlot_spec|].
  rewrite FindTextureSlot_spec by assumption. f_equal.
  apply slot_of_same_tags. unfold loaded.
  now rewrite !fmap_take, Htags, Hn.
Qed.

(** X14: the destructor on a registry within bounds ends normally with
    the shader manager pointer null and releases no texture: no name is
    deleted, one new name per loaded slot is generated, and the count is
    not reset. *)
Theorem SceneManager_dtor_releases_nothing (s : SceneManager) :
  well_formed s ->
  exists s',
    SceneManager_dtor s = Done tt s' /\
    m_pShaderManager s' = None /\
    m_loadedTextures s' = m_loadedTextures s /\
    deleted (trace s') = deleted (trace s) /\
    length (generated (trace s')) =
      (length (generated (trace s)) + Z.to_nat (m_loadedTextures s))%nat.
Proof.
  intros Hwf. unfold SceneManager_dtor, bind at 1. unfold modify at 1.
  unfold bind at 1. unfold emit at 1, modify.
  unfold DestroyGLTextures, bind at 1. unfold get, for_upto. simpl.
  match goal with |- context [for_from _ _ _ ?s1] =>
    destruct (DestroyGLTextures_loop_names (Z.to_nat (m_loadedTextures s)) 0 s1)
      as (s' & names & Hrun & _ & _ & _ & _ & _ & _ & _ & Hp);
      [simpl; apply loaded_in_array, Hwf|];
    destruct (DestroyGLTextures_loop (Z.to_nat (m_loadedTextures s)) 0 s1)
      as (s2 & Hrun2 & _ & Hn & Hdel & Hlen);
      [simpl; apply loaded_in_array, Hwf|]
  end.
  assert (s2 = s') by congruence. subst s2.
  simpl in Hp, Hn, Hdel, Hlen.
  rewrite deleted_app, app_nil_r in Hdel.
  rewrite generated_app, app_nil_r in Hlen.
  exists s'. now repeat split.
Qed.

(** ** A fresh scene manager *)

(** X15: right after construction nothing is registered.  The registry is
    within bounds; both texture lookups miss for every tag, also for the
    placeholder tag that the constructor writes into all sixteen slots;
    [FindMaterial] reports not-found and [SetShaderMaterial],
    [BindGLTextures] and [DestroyGLTextures] do nothing. *)
Theorem SceneManager_ctor_registers_nothing
    (p : option ShaderManager) tr t m indeterminate :
  let s := SceneManager_ctor p tr in
  well_formed s /\
  Forall (fun e => tag e = "/0" /\ int_of_GLuint (ID e) = -1) (m_textureIDs s) /\
  FindTextureSlot t s = Done (-1) s /\
  FindTextureID t s = Done (-1) s /\
  FindMaterial t m s = Done (false, m) s /\
  SetShaderMaterial t indeterminate s = Done tt s /\
  BindGLTextures s = Done tt s /\
  DestroyGLTextures s = Done tt s.
Proof.
  intros s. split; [split; [reflexivity | simpl; unfold capacity; lia]|].
  split; [|now repeat split].
  subst s. unfold SceneManager_ctor. cbn [m_textureIDs].
  apply Forall_replicate. now split.
Qed.

(** ** Lights and scene preparation *)

Ltac run_pushes Hsm :=
  unfold bind;
  rewrite (shader_set_present _ _ _ _ Hsm);
  repeat (erewrite shader_set_present by reflexivity);
  rewrite ?set_pShaderManager_twice, <- ?app_assoc; simpl.

(** With a shader manager [SetupSceneLights] pushes the same sequence of
    uniforms whatever the state, and touches nothing else. *)
Lemma SetupSceneLights_pushes :
  exists lights : ShaderManager,
    (forall s sm, m_pShaderManager s = Some sm ->
       SetupSceneLights s =
         Done tt (set_pShaderManager (Some (sm ++ lights)) s)) /\
    length lights = 38%nat /\
    uniform_value lights "bUseLighting" = Some (BoolValue true) /\
    uniform_value lights "directionalLight.bActive" = Some (BoolValue true) /\
    Forall (fun i => uniform_value lights ("pointLights[" +:+ i +:+ "].bActive")
                     = Some (BoolValue true)) ["0"; "1"; "2"; "3"].
Proof.
  eexists. split.
  - intros s sm Hsm.
    unfold SetupSceneLights, point_light, set_vec3, set_float, set_bool.
    run_pushes Hsm. reflexivity.
  - split; [reflexivity|]. split; [reflexivity|]. split; [reflexivity|].
    repeat constructor.
Qed.

(** X16: [SetupSceneLights] tests no pointer: it dereferences the shader
    manager in its first statement, so it fails exactly when the pointer is
    null.  There is one list of 38 uniforms, the same for every state, among
    them the lighting switch, the directional light and four point lights
    all set active, such that in every state with a shader manager the call
    appends exactly that list to what the shader manager received and
    changes nothing else. *)
Theorem SetupSceneLights_needs_shader_manager :
  exists lights : ShaderManager,
    length lights = 38%nat /\
    uniform_value lights "bUseLighting" = Some (BoolValue true) /\
    uniform_value lights "directionalLight.bActive" = Some (BoolValue true) /\
    Forall (fun i => uniform_value lights ("pointLights[" +:+ i +:+ "].bActive")
                     = Some (BoolValue true)) ["0"; "1"; "2"; "3"] /\
    forall s : SceneManager,
      (SetupSceneLights s = Crash NullDereference <->
       m_pShaderManager s = None) /\
      (forall sm, m_pShaderManager s = Some sm ->
         SetupSceneLights s =
           Done tt (set_pShaderManager (Some (sm ++ lights)) s)).
Proof.
  destruct SetupSceneLights_pushes as (lights & Hrun & Hlen & H1 & H2 & H3).
  exists lights. split; [exact Hlen|]. split; [exact H1|].
  split; [exact H2|]. split; [exact H3|].
  intros s. split; [|intros sm Hsm; now apply Hrun].
  split.
  - intros Hcrash. destruct (m_pShaderManager s) as [sm|] eqn:Hp;
      [|reflexivity]. rewrite (Hrun s sm Hp) in Hcrash. discriminate.
  - intros Hnull. unfold SetupSceneLights, set_bool, bind.
    now rewrite shader_set_null.
Qed.

(** ** Rendering: the registry is left alone *)

Lemma render_frame_bind (m k : M unit) :
  render_frame m -> render_frame k -> render_frame (m ;; k).
Proof.
  intros Hm Hk s Hwf. unfold bind. specialize (Hm s Hwf).
  destruct (m s) as [u s1|f]; [|assumption].
  destruct Hm as ((Harr & Hn & Hms) & Hp & tr1 & Htr1 & Hmesh1).
  assert (Hwf1 : well_formed s1).
  { destruct Hwf as [Hlen Hcount]. split; [now rewrite Harr | now rewrite Hn]. }
  specialize (Hk s1 Hwf1). destruct (k s1) as [u2 s2|f].
  - destruct Hk as ((Harr2 & Hn2 & Hms2) & Hp2 & tr2 & Htr2 & Hmesh2).
    split; [repeat split; congruence|]. split; [now rewrite Hp2|].
    exists (tr1 ++ tr2). split; [now rewrite Htr2, Htr1, app_assoc|].
    now apply Forall_app.
  - destruct Hk as (-> & Hnull & Hne). split; [reflexivity|].
    split; [now apply Hp | congruence].
Qed.

Lemma render_frame_pushed (s : SceneManager) sm pushes :
  m_pShaderManager s = Some sm ->
  same_registry s (set_pShaderManager (Some (sm ++ pushes)) s) /\
  (m_pShaderManager (set_pShaderManager (Some (sm ++ pushes)) s) = None <->
   m_pShaderManager s = None) /\
  exists tr', trace (set_pShaderManager (Some (sm ++ pushes)) s) = trace s ++ tr' /\
              Forall is_mesh_call tr'.
Proof.
  intros Hsm. split; [now repeat split|]. split.
  - simpl. rewrite Hsm. split; discriminate.
  - exists []. simpl. now rewrite app_nil_r.
Qed.

Lemma render_frame_unchanged (s : SceneManager) :
  same_registry s s /\
  (m_pShaderManager s = None <-> m_pShaderManager s = None) /\
  exists tr', trace s = trace s ++ tr' /\ Forall is_mesh_call tr'.
Proof.
  split; [now repeat split|]. split; [reflexivity|].
  exists []. now rewrite app_nil_r.
Qed.

Ltac shader_cases s sm Hp :=
  destruct (decide (m_pShaderManager s = None)) as [Hp|Hp];
  [| apply not_eq_None_Some in Hp as [sm Hp]].

Lemma render_frame_SetTransformations scale x y z position :
  render_frame (SetTransformations scale x y z position).
Proof.
  intros s Hwf. shader_cases s sm Hp.
  - unfold SetTransformations. rewrite if_shader_null by assumption.
    apply render_frame_unchanged.
  - destruct (SetTransformations_run s sm scale x y z position Hp) as [mv ->].
    now apply render_frame_pushed.
Qed.

Lemma render_frame_SetShaderColor r g b a :
  render_frame (SetShaderColor r g b a).
Proof.
  intros s Hwf. shader_cases s sm Hp.
  - unfold SetShaderColor. rewrite if_shader_null by assumption.
    apply render_frame_unchanged.
  - rewrite (SetShaderColor_run s sm) by assumption.
    now apply render_frame_pushed.
Qed.

Lemma render_frame_SetShaderTexture t : render_frame (SetShaderTexture t).
Proof.
  intros s Hwf. shader_cases s sm Hp.
  - unfold SetShaderTexture. rewrite if_shader_null by assumption.
    apply render_frame_unchanged.
  - rewrite (SetShaderTexture_run s sm) by assumption.
    now apply render_frame_pushed.
Qed.

Lemma render_frame_SetTextureUVScale u v :
  render_frame (SetTextureUVScale u v).
Proof.
  intros s Hwf. shader_cases s sm Hp.
  - unfold SetTextureUVScale. rewrite if_shader_null by assumption.
    apply render_frame_unchanged.
  - rewrite (SetTextureUVScale_run s sm) by assumption.
    now apply render_frame_pushed.
Qed.

Lemma render_frame_SetShaderMaterial t indeterminate :
  render_frame (SetShaderMaterial t indeterminate).
Proof.
  intros s Hwf.
  destruct (decide (m_objectMaterials s = [])) as [Hms|Hne].
  - rewrite SetShaderMaterial_no_materials by assumption.
    apply render_frame_unchanged.
  - shader_cases s sm Hp.
    + rewrite SetShaderMaterial_null by assumption. now repeat split.
    + destruct (SetShaderMaterial_run s sm t indeterminate Hp Hne) as [m ->].
      now apply render_frame_pushed.
Qed.

Lemma render_frame_mesh name : render_frame (emit (Mesh name)).
Proof.
  intros s Hwf. simpl. split; [now repeat split|]. split; [reflexivity|].
  exists [Mesh name]. split; [reflexivity|]. now repeat constructor.
Qed.

Ltac render_frame_steps :=
  repeat lazymatch goal with
    | |- render_frame (bind _ _) => apply render_frame_bind
    | |- render_frame (SetTransformations _ _ _ _ _) =>
        apply render_frame_SetTransformations
    | |- render_frame (SetShaderColor _ _ _ _) =>
        apply render_frame_SetShaderColor
    | |- render_frame (SetShaderTexture _) => apply render_frame_SetShaderTexture
    | |- render_frame (SetTextureUVScale _ _) =>
        apply render_frame_SetTextureUVScale
    | |- render_frame (SetShaderMaterial _ _) =>
        apply render_frame_SetShaderMaterial
    | |- render_frame (emit (Mesh _)) => apply render_frame_mesh
    end.

Lemma RenderWall_frame : render_frame RenderWall.
Proof. unfold RenderWall. cbv zeta. render_frame_steps. Qed.

Lemma RenderTrees_frame : render_frame RenderTrees.
Proof. unfold RenderTrees. cbv zeta. render_frame_steps. Qed.

Lemma RenderWoodenBowl_frame indeterminate :
  render_frame (RenderWoodenBowl indeterminate).
Proof. unfold RenderWoodenBowl. cbv zeta. render_frame_steps. Qed.

Lemma RenderFireBox_frame indeterminate :
  render_frame (RenderFireBox indeterminate).
Proof. unfold RenderFireBox. cbv zeta. render_frame_steps. Qed.

Lemma RenderScene_frame indeterminate :
  render_frame (RenderScene indeterminate).
Proof.
  unfold RenderScene. cbv zeta.
  apply render_frame_bind; [apply RenderWall_frame|].
  apply render_frame_bind; [apply RenderFireBox_frame|].
  apply render_frame_bind; [apply RenderTrees_frame|].
  apply render_frame_bind; [apply RenderWoodenBowl_frame|].
  render_frame_steps.
Qed.

(** ** Rendering without a shader manager *)

Lemma headless_skip_bind (m k : M unit) :
  headless_skip m -> headless_skip k -> headless_skip (m ;; k).
Proof.
  intros Hm Hk s Hnull. unfold bind.
  destruct (Hm s Hnull) as [tr1 ->].
  destruct (Hk (set_trace (trace s ++ tr1) s) Hnull) as [tr2 ->].
  exists (tr1 ++ tr2). simpl. now rewrite set_trace_twice, app_assoc.
Qed.

Lemma headless_skip_if_shader body : headless_skip (if_shader body).
Proof.
  intros s Hnull. exists []. rewrite if_shader_null by assumption.
  rewrite app_nil_r. now destruct s.
Qed.

Lemma headless_skip_mesh name : headless_skip (emit (Mesh name)).
Proof. intros s Hnull. now exists [Mesh name]. Qed.

Lemma headless_crash_now t indeterminate :
  headless_crash (SetShaderMaterial t indeterminate).
Proof. intros s Hnull Hne. now apply SetShaderMaterial_null. Qed.

Lemma headless_crash_first (m k : M unit) :
  headless_crash m -> headless_crash (m ;; k).
Proof. intros Hm s Hnull Hne. unfold bind. now rewrite Hm. Qed.

Lemma headless_crash_later (m k : M unit) :
  headless_skip m -> headless_crash k -> headless_crash (m ;; k).
Proof.
  intros Hm Hk s Hnull Hne. unfold bind.
  destruct (Hm s Hnull) as [tr1 ->]. now apply Hk.
Qed.

Ltac headless_skip_steps :=
  repeat lazymatch goal with
    | |- headless_skip (bind _ _) => apply headless_skip_bind
    | |- headless_skip (emit (Mesh _)) => apply headless_skip_mesh
    | |- headless_skip (SetTransformations _ _ _ _ _) =>
        apply headless_skip_if_shader
    | |- headless_skip (SetShaderColor _ _ _ _) => apply headless_skip_if_shader
    | |- headless_skip (SetShaderTexture _) => apply headless_skip_if_shader
    | |- headless_skip (SetTextureUVScale _ _) => apply headless_skip_if_shader
    end.

Ltac headless_crash_steps :=
  repeat lazymatch goal with
    | |- headless_crash (bind (SetShaderMaterial _ _) _) =>
        apply headless_crash_first, headless_crash_now
    | |- headless_crash (bind _ _) =>
        apply headless_crash_later; [headless_skip_steps|]
    end.

Lemma RenderWall_headless : headless_skip RenderWall.
Proof. unfold RenderWall. cbv zeta. headless_skip_steps. Qed.

Lemma RenderTrees_headless : headless_skip RenderTrees.
Proof. unfold RenderTrees. cbv zeta. headless_skip_steps. Qed.

Lemma RenderFireBox_headless indeterminate :
  headless_crash (RenderFireBox indeterminate).
Proof. unfold RenderFireBox. cbv zeta. headless_crash_steps. Qed.

Lemma RenderWoodenBowl_headless indeterminate :
  headless_crash (RenderWoodenBowl indeterminate).
Proof. unfold RenderWoodenBowl. cbv zeta. headless_crash_steps. Qed.

Lemma RenderScene_headless indeterminate :
  headless_crash (RenderScene indeterminate).
Proof.
  unfold RenderScene. cbv zeta.
  apply headless_crash_later; [apply RenderWall_headless|].
  apply headless_crash_first, RenderFireBox_headless.
Qed.

(** X17: what a frame does to the scene manager.  On a registry within
    bounds [RenderScene] goes wrong in one situation only, a null shader
    manager while at least one material is defined, and then by
    dereferencing a null pointer.  In every other
    situation it ends normally with slot array, count and materials
    unchanged, having told the collaborators nothing but mesh calls: no
    image is decoded and no texture name generated or deleted. *)
Theorem RenderScene_outcome (s : SceneManager) indeterminate :
  well_formed s ->
  (RenderScene indeterminate s = Crash NullDereference <->
   m_pShaderManager s = None /\ m_objectMaterials s <> []) /\
  (forall f, RenderScene indeterminate s = Crash f -> f = NullDereference) /\
  (forall s', RenderScene indeterminate s = Done tt s' ->
     same_registry s s' /\
     (m_pShaderManager s' = None <-> m_pShaderManager s = None) /\
     exists tr', trace s' = trace s ++ tr' /\ Forall is_mesh_call tr' /\
                 generated tr' = [] /\ deleted tr' = [] /\ decodes tr' = 0%nat).
Proof.
  intros Hwf. pose proof (RenderScene_frame indeterminate s Hwf) as Hframe.
  split; [split|split].
  - intros Hcrash. rewrite Hcrash in Hframe. now destruct Hframe as (_ & ? & ?).
  - intros [Hnull Hne]. now apply RenderScene_headless.
  - intros f Hcrash. rewrite Hcrash in Hframe. apply Hframe.
  - intros s' Hrun. rewrite Hrun in Hframe.
    destruct Hframe as (Hsame & Hp & tr' & Htr & Hmesh).
    split; [assumption|]. split; [assumption|].
    exists tr'. split; [assumption|]. split; [assumption|].
    clear -Hmesh. induction Hmesh as [|e tr' He _ IH]; [now repeat split|].
    destruct e; try contradiction. exact IH.
Qed.

(** X18: the two render functions that never call [SetShaderMaterial],
    [RenderWall] and [RenderTrees], end normally on every registry within
    bounds, with or without a shader manager; [RenderFireBox] and
    [RenderWoodenBowl] dereference a null shader manager as soon as one
    material is defined. *)
Theorem render_functions_and_null_shader_manager
    (s : SceneManager) indeterminate :
  well_formed s ->
  (exists s', RenderWall s = Done tt s' /\ same_registry s s') /\
  (exists s', RenderTrees s = Done tt s' /\ same_registry s s') /\
  (m_pShaderManager s = None -> m_objectMaterials s <> [] ->
   RenderFireBox indeterminate s = Crash NullDereference /\
   RenderWoodenBowl indeterminate s = Crash NullDereference).
Proof.
  intros Hwf. split; [|split].
  - pose proof (RenderWall_frame s Hwf) as Hframe.
    destruct (RenderWall s) as [[] s'|f] eqn:Hrun.
    + exists s'. split; [reflexivity | apply Hframe].
    + destruct Hframe as (_ & Hnull & _).
      destruct (RenderWall_headless s Hnull) as [tr' Hskip]. congruence.
  - pose proof (RenderTrees_frame s Hwf) as Hframe.
    destruct (RenderTrees s) as [[] s'|f] eqn:Hrun.
    + exists s'. split; [reflexivity | apply Hframe].
    + destruct Hframe as (_ & Hnull & _).
      destruct (RenderTrees_headless s Hnull) as [tr' Hskip]. congruence.
  - intros Hnull Hne. split.
    + now apply RenderFireBox_headless.
    + now apply RenderWoodenBowl_headless.
Qed.

(** ** Scene preparation *)

Lemma load_textures_all_supported files : forall (s : SceneManager),
  length (m_textureIDs s) = 16%nat ->
  0 <= m_loadedTextures s ->
  m_loadedTextures s + Z.of_nat (length files) <= capacity ->
  (forall f, f ∈ files.*1 -> supported f) ->
  exists s',
    load_textures files s = Done (replicate (length files) true) s'.
Proof.
  induction files as [|[filename t] rest IH]; intros s Hlen H0 Hroom Hall.
  - now exists s.
  - simpl in Hroom.
    destruct (Hall filename) as (image & Hl & Hc); [left|].
    destruct (CreateGLTexture_supported s filename t image Hl Hc)
      as (tr' & Hone & _).
    rewrite register_texture_in in Hone
      by (simpl; rewrite ?Hlen; unfold capacity in Hroom; lia).
    match type of Hone with _ = Done true ?s1 =>
      destruct (IH s1) as [s' Hrest]
    end.
    + simpl. now rewrite length_insert.
    + simpl. lia.
    + simpl. lia.
    + intros f Hf. apply Hall. now right.
    + exists s'. simpl. unfold bind. rewrite Hone, Hrest. reflexivity.
Qed.

(** The state [LoadSceneTextures] leaves behind on a fresh scene manager. *)
Lemma LoadSceneTextures_state (p : option ShaderManager) tr :
  exists bs s0 tr',
    load_textures scene_textures (SceneManager_ctor p tr) = Done bs s0 /\
    LoadSceneTextures (SceneManager_ctor p tr) =
      Done tt (set_trace (trace s0 ++ tr') s0) /\
    length (m_textureIDs s0) = 16%nat /\
    0 <= m_loadedTextures s0 <= 11 /\
    m_objectMaterials s0 = [] /\
    m_pShaderManager s0 = p.
Proof.
  destruct (load_textures_within_capacity scene_textures
              (SceneManager_ctor p tr))
    as (bs & s0 & Hrun & Hlen & Hn & _ & _ & Hm & Hp);
    [reflexivity | simpl; lia | simpl; unfold capacity; lia |].
  simpl in Hn, Hm, Hp.
  destruct (BindGLTextures_spec s0) as (tr' & Hbind & _);
    [split; [assumption | unfold capacity; lia]|].
  exists bs, s0, tr'. split; [assumption|]. split.
  - unfold LoadSceneTextures, bind. now rewrite Hrun.
  - repeat split; try assumption; lia.
Qed.

(** What follows the texture loads in [PrepareScene], with a shader
    manager. *)
Lemma PrepareScene_rest :
  exists (nine : list OBJECT_MATERIAL) (lights : ShaderManager) tr2,
    mat_tag <$> nine =
      ["metal"; "wood"; "glass"; "plate"; "cheese"; "bread"; "darkbread";
       "shiplap"; "grape"] /\
    length lights = 38%nat /\
    Forall is_mesh_call tr2 /\
    forall (s1 : SceneManager) sm, m_pShaderManager s1 = Some sm ->
      (DefineObjectMaterials ;; SetupSceneLights ;;
       emit (Mesh "LoadPlaneMesh") ;; emit (Mesh "LoadBoxMesh") ;;
       emit (Mesh "LoadCylinderMesh") ;; emit (Mesh "LoadTorusMesh") ;;
       emit (Mesh "LoadSphereMesh") ;; emit (Mesh "LoadConeMesh") ;;
       emit (Mesh "DrawExtraTorusMesh1") ;;
       emit (Mesh "DrawExtraTorusMesh2")) s1 =
      Done tt
        (set_trace (trace s1 ++ tr2)
           (set_pShaderManager (Some (sm ++ lights))
              (set_objectMaterials (m_objectMaterials s1 ++ nine) s1))).
Proof.
  destruct DefineObjectMaterials_appends as (nine & Hdefine & Htags).
  destruct SetupSceneLights_pushes as (lights & Hlights & Hlen & _).
  exists nine, lights. eexists. split; [assumption|]. split; [assumption|].
  split; cycle 1.
  - intros s1 sm Hsm. unfold bind at 1. rewrite Hdefine.
    unfold bind at 1. rewrite (Hlights _ sm) by assumption.
    unfold emit, modify, bind. simpl.
    rewrite !set_trace_twice, <- !app_assoc. simpl. reflexivity.
  - repeat constructor.
Qed.

Lemma PrepareScene_null tr : 
  PrepareScene (SceneManager_ctor None tr) = Crash NullDereference.
Proof.
  destruct (LoadSceneTextures_state None tr)
    as (bs & s0 & tr' & _ & Hload & _ & _ & _ & Hp).
  destruct DefineObjectMaterials_appends as (nine & Hdefine & _).
  unfold PrepareScene, bind at 1. rewrite Hload.
  unfold bind at 1. rewrite Hdefine.
  unfold bind at 1. unfold SetupSceneLights, set_bool, bind at 1.
  now rewrite shader_set_null.
Qed.

(** X19: [PrepareScene] on a fresh scene manager ends normally exactly
    when the manager was constructed with a shader manager; with a null one
    it dereferences the null pointer.  When it
    ends normally the registry is within bounds with at most eleven
    textures, the nine materials metal, wood, glass, plate, cheese, bread,
    darkbread, shiplap and grape are defined in that order, and the shader
    manager holds 38 uniforms more than it was constructed with. *)
Theorem PrepareScene_outcome (p : option ShaderManager) tr :
  (PrepareScene (SceneManager_ctor p tr) = Crash NullDereference <->
   p = None) /\
  forall sm, p = Some sm ->
    exists s lights,
      PrepareScene (SceneManager_ctor p tr) = Done tt s /\
      well_formed s /\
      m_loadedTextures s <= 11 /\
      mat_tag <$> m_objectMaterials s =
        ["metal"; "wood"; "glass"; "plate"; "cheese"; "bread"; "darkbread";
         "shiplap"; "grape"] /\
      m_pShaderManager s = Some (sm ++ lights) /\
      length lights = 38%nat.
Proof.
  destruct (LoadSceneTextures_state p tr)
    as (bs & s0 & tr' & _ & Hload & Hlen & Hn & Hm & Hp).
  destruct PrepareScene_rest as (nine & lights & tr2 & Htags & Hlights & _ & Hrest).
  assert (Hsome : forall sm, p = Some sm ->
            PrepareScene (SceneManager_ctor p tr) =
              Done tt
                (set_trace ((trace s0 ++ tr') ++ tr2)
                   (set_pShaderManager (Some (sm ++ lights))
                      (set_objectMaterials nine s0)))).
  { intros sm ->. unfold PrepareScene, bind at 1. rewrite Hload.
    erewrite Hrest by exact Hp. simpl. now rewrite Hm. }
  split.
  - split.
    + intros Hcrash. destruct p as [sm|]; [|reflexivity].
      rewrite (Hsome sm eq_refl) in Hcrash. discriminate.
    + intros ->. apply PrepareScene_null.
  - intros sm Hsm. eexists _, lights. split; [exact (Hsome sm Hsm)|]. simpl.
    split; [split; [assumption | unfold capacity; simpl; lia]|].
    split; [lia|]. now repeat split.
Qed.

(** ** Rendering a prepared scene *)

Lemma after_after (s : SceneManager) p1 t1 p2 t2 :
  after p2 t2 (after p1 t1 s) = after (p1 ++ p2) (t1 ++ t2) s.
Proof.
  unfold after. destruct s as [[sm|] arr n ms tr]; simpl;
    unfold set_trace, set_pShaderManager; simpl;
    rewrite <- ?app_assoc; reflexivity.
Qed.

Lemma after_pushes (s : SceneManager) sm pushes :
  m_pShaderManager s = Some sm ->
  set_pShaderManager (Some (sm ++ pushes)) s = after pushes [] s.
Proof.
  intros Hsm. unfold after. rewrite Hsm, app_nil_r. now destruct s.
Qed.

Lemma after_events (s : SceneManager) tr' :
  m_pShaderManager s <> None ->
  set_trace (trace s ++ tr') s = after [] tr' s.
Proof.
  intros Hp. unfold after. destruct s as [[sm|] arr n ms tr]; simpl in *;
    [|contradiction].
  unfold set_trace, set_pShaderManager. simpl. now rewrite app_nil_r.
Qed.

Lemma render_alike_bind (m k m' k' : M unit) :
  render_alike m m' -> render_alike k k' -> render_alike (m ;; k) (m' ;; k').
Proof.
  intros Hm Hk s Hwf Hp Htex Hmat.
  destruct (Hm s Hwf Hp Htex Hmat) as (p1 & t1 & Hrun & Hrun' & Hs1 & Hm1).
  destruct (Hk (after p1 t1 s)) as (p2 & t2 & Hrun2 & Hrun2' & Hs2 & Hm2).
  - exact Hwf.
  - unfold after. simpl. now destruct (m_pShaderManager s).
  - exact Htex.
  - exact Hmat.
  - exists (p1 ++ p2), (t1 ++ t2). unfold bind.
    rewrite Hrun, Hrun', Hrun2, Hrun2', after_after.
    repeat split; now apply Forall_app.
Qed.

Lemma render_alike_pushes (m : M unit) :
  (forall s sm, well_formed s -> m_pShaderManager s = Some sm ->
     exists pushes,
       m s = Done tt (set_pShaderManager (Some (sm ++ pushes)) s) /\
       Forall (sampler_in_range s) pushes) ->
  render_alike m m.
Proof.
  intros Hm s Hwf Hp Htex Hmat.
  apply not_eq_None_Some in Hp as [sm Hsm].
  destruct (Hm s sm Hwf Hsm) as (pushes & Hrun & Hs).
  exists pushes, []. rewrite Hrun, (after_pushes s sm) by assumption.
  now repeat split.
Qed.

Lemma render_alike_SetTransformations scale x y z position :
  render_alike (SetTransformations scale x y z position)
               (SetTransformations scale x y z position).
Proof.
  apply render_alike_pushes. intros s sm Hwf Hsm.
  destruct (SetTransformations_run s sm scale x y z position Hsm) as [mv ->].
  eexists. split; [reflexivity|]. now repeat constructor.
Qed.

Lemma render_alike_SetShaderColor r g b a :
  render_alike (SetShaderColor r g b a) (SetShaderColor r g b a).
Proof.
  apply render_alike_pushes. intros s sm Hwf Hsm.
  rewrite (SetShaderColor_run s sm) by assumption.
  eexists. split; [reflexivity|]. now repeat constructor.
Qed.

Lemma render_alike_SetTextureUVScale u v :
  render_alike (SetTextureUVScale u v) (SetTextureUVScale u v).
Proof.
  apply render_alike_pushes. intros s sm Hwf Hsm.
  rewrite (SetTextureUVScale_run s sm) by assumption.
  eexists. split; [reflexivity|]. now repeat constructor.
Qed.

Lemma loaded_tag_slot (s : SceneManager) t :
  well_formed s ->
  (exists e, e ∈ loaded s /\ tag e = t) ->
  0 <= slot_of (first_match t (loaded s)) < m_loadedTextures s.
Proof.
  intros Hwf (e & He & Ht).
  destruct (first_match t (loaded s)) as [[k e']|] eqn:Hfirst.
  - destruct (first_match_Some _ _ _ _ Hfirst) as (Hk & _).
    apply lookup_lt_Some in Hk. rewrite length_loaded in Hk by assumption.
    simpl. destruct Hwf as [_ Hn]. lia.
  - exfalso. now apply (proj1 (first_match_None _ _) Hfirst e).
Qed.

Lemma render_alike_SetShaderTexture t :
  t ∈ scene_textures.*2 ->
  render_alike (SetShaderTexture t) (SetShaderTexture t).
Proof.
  intros Ht s Hwf Hp Htex Hmat.
  apply not_eq_None_Some in Hp as [sm Hsm].
  rewrite (SetShaderTexture_run s sm), (after_pushes s sm) by assumption.
  do 2 eexists. split; [reflexivity|]. split; [reflexivity|].
  split; [|constructor].
  constructor; [exact I|]. constructor; [|constructor].
  unfold sampler_in_range. simpl.
  apply loaded_tag_slot; [assumption|]. now apply Htex.
Qed.

Lemma render_alike_SetShaderMaterial t indeterminate indeterminate' :
  t ∈ render_materials ->
  render_alike (SetShaderMaterial t indeterminate)
               (SetShaderMaterial t indeterminate').
Proof.
  intros Ht s Hwf Hp Htex Hmat.
  apply not_eq_None_Some in Hp as [sm Hsm].
  destruct (first_material (m_objectMaterials s) t (Hmat t Ht))
    as (before & r & rest & Hms & Hr & Hno).
  rewrite !(SetShaderMaterial_first_match_run s sm before rest r t)
    by assumption.
  rewrite (after_pushes s sm) by assumption.
  do 2 eexists. split; [reflexivity|]. split; [reflexivity|].
  split; [|constructor]. now repeat constructor.
Qed.

Lemma render_alike_mesh name :
  render_alike (emit (Mesh name)) (emit (Mesh name)).
Proof.
  intros s Hwf Hp Htex Hmat. exists [], [Mesh name].
  unfold emit, modify. rewrite after_events by assumption.
  now repeat constructor.
Qed.

Ltac tag_known := apply (bool_decide_unpack _); vm_compute; exact I.

Ltac render_alike_steps :=
  repeat lazymatch goal with
    | |- render_alike (bind _ _) (bind _ _) => apply render_alike_bind
    | |- render_alike (SetTransformations _ _ _ _ _) _ =>
        apply render_alike_SetTransformations
    | |- render_alike (SetShaderColor _ _ _ _) _ =>
        apply render_alike_SetShaderColor
    | |- render_alike (SetTextureUVScale _ _) _ =>
        apply render_alike_SetTextureUVScale
    | |- render_alike (SetShaderTexture _) _ =>
        apply render_alike_SetShaderTexture; tag_known
    | |- render_alike (SetShaderMaterial _ _) _ =>
        apply render_alike_SetShaderMaterial; tag_known
    | |- render_alike (emit (Mesh _)) _ => apply render_alike_mesh
    end.

Lemma RenderWall_alike : render_alike RenderWall RenderWall.
Proof. unfold RenderWall. cbv zeta. render_alike_steps. Qed.

Lemma RenderTrees_alike : render_alike RenderTrees RenderTrees.
Proof. unfold RenderTrees. cbv zeta. render_alike_steps. Qed.

Lemma RenderWoodenBowl_alike indeterminate indeterminate' :
  render_alike (RenderWoodenBowl indeterminate)
               (RenderWoodenBowl indeterminate').
Proof. unfold RenderWoodenBowl. cbv zeta. render_alike_steps. Qed.

Lemma RenderFireBox_alike indeterminate indeterminate' :
  render_alike (RenderFireBox indeterminate) (RenderFireBox indeterminate').
Proof. unfold RenderFireBox. cbv zeta. render_alike_steps. Qed.

Lemma RenderScene_alike indeterminate indeterminate' :
  render_alike (RenderScene indeterminate) (RenderScene indeterminate').
Proof.
  unfold RenderScene. cbv zeta.
  apply render_alike_bind; [apply RenderWall_alike|].
  apply render_alike_bind; [apply RenderFireBox_alike|].
  apply render_alike_bind; [apply RenderTrees_alike|].
  apply render_alike_bind; [apply RenderWoodenBowl_alike|].
  render_alike_steps.
Qed.

(** [PrepareScene] with a shader manager when every scene texture file
    decodes with 3 or 4 channels. *)
Lemma PrepareScene_prepared sm tr :
  (forall f, f ∈ scene_textures.*1 -> supported f) ->
  exists s lights,
    PrepareScene (SceneManager_ctor (Some sm) tr) = Done tt s /\
    well_formed s /\
    m_loadedTextures s = 11 /\
    tag <$> loaded s = scene_textures.*2 /\
    mat_tag <$> m_objectMaterials s =
      ["metal"; "wood"; "glass"; "plate"; "cheese"; "bread"; "darkbread";
       "shiplap"; "grape"] /\
    m_pShaderManager s = Some (sm ++ lights).
Proof.
  intros Hall.
  destruct (LoadSceneTextures_state (Some sm) tr)
    as (bs & s0 & tr' & Hloads & Hload & Hlen & Hn & Hm & Hp).
  destruct (load_textures_all_supported scene_textures
              (SceneManager_ctor (Some sm) tr))
    as [s0' Hloads']; [reflexivity | simpl; lia | simpl; unfold capacity; lia
                      | assumption |].
  rewrite Hloads in Hloads'. injection Hloads' as -> <-.
  assert (Hwf_ctor : well_formed (SceneManager_ctor (Some sm) tr))
    by (split; [reflexivity | simpl; unfold capacity; lia]).
  assert (Htrue : Forall (eq true) (replicate (length scene_textures) true))
    by (apply Forall_replicate; reflexivity).
  destruct (load_textures_all_true scene_textures _ _ _ Hwf_ctor Hloads Htrue)
    as (recorded & Htags & _ & Hloaded & Hwf0 & Hcount & _).
  simpl in Hloaded, Hcount.
  destruct PrepareScene_rest
    as (nine & lights & tr2 & Hnine & _ & _ & Hrest).
  eexists _, lights. split.
  - unfold PrepareScene, bind at 1. rewrite Hload.
    erewrite Hrest by exact Hp. reflexivity.
  - simpl. rewrite Hm. simpl.
    split; [split; [assumption | unfold capacity; simpl; lia]|].
    split; [lia|]. split; [|now split].
    unfold loaded. simpl. fold (loaded s0). now rewrite Hloaded.
Qed.

Lemma scene_tags_distinct : NoDup scene_textures.*2.
Proof. apply (bool_decide_unpack _). vm_compute. exact I. Qed.

(** X20: when each of the eleven scene texture files decodes with 3 or 4
    channels, [PrepareScene] on a manager with a shader manager loads all
    eleven, and afterwards every scene tag is found in the slot of its
    position in the load order (floor 0, shiplap 1, ... cartoon 10) and
    every one of the nine material tags is found by [FindMaterial], which
    copies that material's record. *)
Theorem PrepareScene_registers_everything sm tr :
  (forall f, f ∈ scene_textures.*1 -> supported f) ->
  exists s,
    PrepareScene (SceneManager_ctor (Some sm) tr) = Done tt s /\
    m_loadedTextures s = 11 /\
    (forall k t, scene_textures.*2 !! k = Some t ->
       FindTextureSlot t s = Done (Z.of_nat k) s) /\
    (forall t,
       t ∈ ["metal"; "wood"; "glass"; "plate"; "cheese"; "bread";
            "darkbread"; "shiplap"; "grape"] ->
       exists r, r ∈ m_objectMaterials s /\ mat_tag r = t /\
         forall m, FindMaterial t m s = Done (true, copy_material r m) s).
Proof.
  intros Hall.
  destruct (PrepareScene_prepared sm tr Hall)
    as (s & lights & Hrun & Hwf & Hn & Htags & Hmats & _).
  exists s. split; [assumption|]. split; [assumption|]. split.
  - intros k t Hk. rewrite FindTextureSlot_spec by assumption.
    rewrite <- Htags, list_lookup_fmap in Hk.
    destruct (loaded s !! k) as [e|] eqn:He; [|discriminate].
    injection Hk as Ht.
    rewrite (first_match_first t (loaded s) k e); [reflexivity|assumption..|].
    intros j e' Hj He' Ht'.
    assert (Hjk : j = k); [|lia].
    apply (NoDup_lookup (tag <$> loaded s) j k t).
    + rewrite Htags. apply scene_tags_distinct.
    + now rewrite list_lookup_fmap, He', <- Ht'.
    + now rewrite list_lookup_fmap, He, <- Ht.
  - intros t Ht. rewrite <- Hmats in Ht.
    apply list_elem_of_fmap in Ht as (r0 & -> & Hr0).
    destruct (first_material (m_objectMaterials s) (mat_tag r0))
      as (before & r & rest & Hms & Hr & Hno); [eauto|].
    exists r. split; [|split; [assumption|]].
    + rewrite Hms. apply elem_of_app. right. left.
    + intros m. now apply FindMaterial_found with before rest.
Qed.

Lemma render_materials_defined (s : SceneManager) :
  mat_tag <$> m_objectMaterials s =
    ["metal"; "wood"; "glass"; "plate"; "cheese"; "bread"; "darkbread";
     "shiplap"; "grape"] ->
  materials_defined render_materials s.
Proof.
  intros Hmats t Ht.
  assert (Hin : t ∈ mat_tag <$> m_objectMaterials s).
  { rewrite Hmats. unfold render_materials in Ht.
    repeat (apply elem_of_cons in Ht as [->|Ht]; [tag_known|]).
    now apply elem_of_nil in Ht. }
  apply list_elem_of_fmap in Hin as (r & -> & Hr). eauto.
Qed.

(** X21: a frame on a prepared scene.  When each of the eleven scene
    texture files decodes with 3 or 4 channels and the manager has a shader
    manager, [RenderScene] after [PrepareScene] ends normally, leaves slot
    array, count and materials as they were, pushes as sampler only slots
    of loaded textures (never the sentinel), and ends in
    the same state whatever the uninitialised locals of its
    [SetShaderMaterial] calls held. *)
Theorem RenderScene_on_prepared_scene sm tr indeterminate indeterminate' :
  (forall f, f ∈ scene_textures.*1 -> supported f) ->
  exists s s' sm0 pushes,
    PrepareScene (SceneManager_ctor (Some sm) tr) = Done tt s /\
    RenderScene indeterminate s = Done tt s' /\
    RenderScene indeterminate' s = Done tt s' /\
    same_registry s s' /\
    m_pShaderManager s = Some sm0 /\
    m_pShaderManager s' = Some (sm0 ++ pushes) /\
    forall name z, (name, Sampler2DValue z) ∈ pushes -> 0 <= z < 11.
Proof.
  intros Hall.
  destruct (PrepareScene_prepared sm tr Hall)
    as (s & lights & Hrun & Hwf & Hn & Htags & Hmats & Hp).
  destruct (RenderScene_alike indeterminate indeterminate' s)
    as (pushes & tr' & Hrender & Hrender' & Hsamplers & _).
  - assumption.
  - rewrite Hp. discriminate.
  - intros t Ht. rewrite <- Htags in Ht.
    apply list_elem_of_fmap in Ht as (e & -> & He). eauto.
  - now apply render_materials_defined.
  - exists s, (after pushes tr' s), (sm ++ lights), pushes.
    split; [assumption|]. split; [assumption|]. split; [assumption|].
    split; [now repeat split|]. split; [assumption|].
    split; [unfold after; simpl; now rewrite Hp|].
    intros name z Hin.
    apply (proj1 (Forall_forall _ _) Hsamplers) in Hin.
    unfold sampler_in_range in Hin. simpl in Hin. lia.
Qed.

End Further.

(** * The model at work *)

(** The scenario of three textures: "metal" sits in slot 2, and that is
    the sampler value pushed. *)
Example SetShaderTexture_third_slot :
  let loads := [("f.jpg", "floor"); ("b.jpg", "brick"); ("m.jpg", "metal")] in
  match @load_textures symbolic_glm test_platform loads fresh with
  | Done _ s =>
      match SetShaderTexture "metal" s with
      | Done _ s' =>
          m_pShaderManager s' =
            Some [("bUseTexture", IntValue 1);
                  ("objectTexture", Sampler2DValue 2)]
      | Crash _ => False
      end
  | Crash _ => False
  end.
Proof. vm_compute. reflexivity. Qed.

(** A tag that was never loaded pushes the sentinel as the sampler. *)
Example SetShaderTexture_unknown_tag :
  match SetShaderTexture "wporcelain" after_three with
  | Done _ s' =>
      m_pShaderManager s' =
        Some [("bUseTexture", IntValue 1);
              ("objectTexture", Sampler2DValue (-1))]
  | Crash _ => False
  end.
Proof. vm_compute. reflexivity. Qed.

(** Looking up "wood" among the scene's materials copies the wood record. *)
Example FindMaterial_wood :
  match DefineObjectMaterials fresh with
  | Done _ s =>
      exists m,
        FindMaterial "wood" garbage s = Done (true, m) s /\
        diffuseColor m = ("0.2f", "0.2f", "0.3f") /\
        specularColor m = ("0.0f", "0.0f", "0.0f") /\
        shininess m = "0.1"
  | Crash _ => False
  end.
Proof. vm_compute. eexists. repeat split. Qed.

(** The symbolic matrix spells the product out, left to right. *)
Example SetTransformations_symbolic :
  match @SetTransformations symbolic_glm
          ("sx", "sy", "sz") "xdeg" "ydeg" "zdeg" ("px", "py", "pz") fresh with
  | Done _ s' =>
      m_pShaderManager s' =
        Some [("model",
               Mat4Value
                 (symbolic_product
                    ["translate(px,py,pz)";
                     "rotate(radians(zdeg);0.0f,0.0f,1.0f)";
                     "rotate(radians(ydeg);0.0f,1.0f,0.0f)";
                     "rotate(radians(xdeg);1.0f,0.0f,0.0f)";
                     "scale(sx,sy,sz)"]))]
  | Crash _ => False
  end.
Proof. vm_compute. reflexivity. Qed.

(** Whichever of [SetShaderTexture] and [SetShaderColor] ran last decides
    the "use texture" flag. *)
Example last_appearance_call_decides :
  match (SetShaderTexture "floor" ;;
         @SetShaderColor symbolic_glm "1" "0" "0" "1") after_three,
        (@SetShaderColor symbolic_glm "1" "0" "0" "1" ;;
         SetShaderTexture "floor") after_three with
  | Done _ s1, Done _ s2 =>
      (m_pShaderManager s1 ≫= fun sm => uniform_value sm "bUseTexture") =
        Some (IntValue 0) /\
      (m_pShaderManager s2 ≫= fun sm => uniform_value sm "bUseTexture") =
        Some (IntValue 1)
  | _, _ => False
  end.
Proof. vm_compute. split; reflexivity. Qed.

(** The miss of C2 in terms of uniform values: the shininess uniform had no
    value, and has the local's garbage afterwards. *)
Example SetShaderMaterial_miss_changes_uniforms :
  (m_pShaderManager one_wood ≫= fun sm =>
     uniform_value sm "material.shininess") = None /\
  match SetShaderMaterial "nonexistent" garbage one_wood with
  | Done _ s' =>
      (m_pShaderManager s' ≫= fun sm =>
         uniform_value sm "material.shininess") =
        Some (FloatValue (shininess garbage))
  | Crash _ => False
  end.
Proof. vm_compute. split; reflexivity. Qed.

(** Releasing twice: each call asks the driver for three more names, the
    count stays 3, the names handed out at load time (1, 2, 3) are never
    deleted and no longer stored anywhere. *)
Example DestroyGLTextures_twice :
  match (@DestroyGLTextures symbolic_glm test_platform ;;
         @DestroyGLTextures symbolic_glm test_platform) after_three with
  | Done _ s' =>
      m_loadedTextures s' = 3 /\
      ID <$> loaded s' = [7; 8; 9] /\
      generated (trace s') = [1; 2; 3; 4; 5; 6; 7; 8; 9] /\
      deleted (trace s') = []
  | Crash _ => False
  end.
Proof. vm_compute. repeat split. Qed.

(** The destructor drops the shader manager and then "releases". *)
Example SceneManager_dtor_after_three :
  match @SceneManager_dtor symbolic_glm test_platform after_three with
  | Done _ s' =>
      m_pShaderManager s' = None /\
      m_loadedTextures s' = 3 /\
      generated (trace s') = [1; 2; 3; 4; 5; 6] /\
      deleted (trace s') = []
  | Crash _ => False
  end.
Proof. vm_compute. repeat split. Qed.

(** Sixteen loads succeed; the seventeenth is the one that leaves the
    array. *)
Example seventeen_loads :
  @load_textures symbolic_glm test_platform sixteen_files fresh =
    Done (replicate 16 true) full /\
  m_loadedTextures full = 16 /\
  @load_textures symbolic_glm test_platform
     (sixteen_files ++ [("t16.jpg", "t16")]) fresh = Crash OutOfBounds.
Proof. vm_compute. repeat split. Qed.

(** * Instances of the theorems and the sentinel clash *)

Lemma one_wood_unmatched :
  forall r, r ∈ m_objectMaterials one_wood -> mat_tag r <> "nonexistent".
Proof. intros r Hr. apply list_elem_of_singleton in Hr. subst r. discriminate. Qed.

Lemma FindMaterial_unmatched_reports_found_witness :
  m_objectMaterials one_wood <> [] /\
  (forall r, r ∈ m_objectMaterials one_wood -> mat_tag r <> "nonexistent") /\
  FindMaterial "nonexistent" garbage one_wood = Done (true, garbage) one_wood.
Proof.
  assert (Hne : m_objectMaterials one_wood <> []) by discriminate.
  split; [exact Hne|]. split; [exact one_wood_unmatched|].
  exact (FindMaterial_unmatched_reports_found one_wood "nonexistent" garbage
           Hne one_wood_unmatched).
Defined.

Lemma SetShaderMaterial_unmatched_pushes_witness :
  m_pShaderManager one_wood = Some [] /\
  m_objectMaterials one_wood <> [] /\
  (forall r, r ∈ m_objectMaterials one_wood -> mat_tag r <> "nonexistent") /\
  SetShaderMaterial "nonexistent" garbage one_wood =
    Done tt (set_pShaderManager (Some ([] ++ material_pushes garbage)) one_wood).
Proof.
  assert (Hne : m_objectMaterials one_wood <> []) by discriminate.
  split; [reflexivity|]. split; [exact Hne|]. split; [exact one_wood_unmatched|].
  exact (SetShaderMaterial_unmatched_pushes one_wood [] "nonexistent" garbage
           eq_refl Hne one_wood_unmatched).
Defined.

Lemma setters_on_null_shader_manager_witness :
  m_pShaderManager headless_wood = None /\
  @SetShaderColor symbolic_glm "1" "0" "0" "1" headless_wood =
    Done tt headless_wood /\
  SetShaderMaterial "wood" garbage headless_wood = Crash NullDereference.
Proof.
  destruct (setters_on_null_shader_manager headless_wood eq_refl)
    as (_ & Hcolor & _ & _ & _ & Hmaterial).
  split; [reflexivity|]. split; [apply Hcolor|].
  apply Hmaterial. discriminate.
Defined.

Lemma SetTransformations_pushes_TRzRyRxS_witness :
  m_pShaderManager fresh = Some [] /\
  @SetTransformations symbolic_glm
    ("2", "2", "2") "90" "0" "45" ("1", "0", "-3") fresh =
    Done tt
      (set_pShaderManager
         (Some [("model",
                 Mat4Value
                   (symbolic_product
                      ["translate(1,0,-3)";
                       "rotate(radians(45);0.0f,0.0f,1.0f)";
                       "rotate(radians(0);0.0f,1.0f,0.0f)";
                       "rotate(radians(90);1.0f,0.0f,0.0f)";
                       "scale(2,2,2)"]))])
         fresh).
Proof.
  split; [reflexivity|].
  exact (@SetTransformations_pushes_TRzRyRxS symbolic_glm fresh []
           ("2", "2", "2") "90" "0" "45" ("1", "0", "-3") eq_refl).
Defined.

Lemma CreateGLTexture_unsupported_channels_witness :
  let image := {| width := 4; height := 4; colorChannels := 1 |} in
  @stbi_load test_platform "gray.png" = Some image /\
  colorChannels image <> 3 /\
  colorChannels image <> 4 /\
  exists s',
    @CreateGLTexture symbolic_glm test_platform "gray.png" "gray" after_three =
      Done false s' /\
    m_loadedTextures s' = m_loadedTextures after_three /\
    m_textureIDs s' = m_textureIDs after_three /\
    m_objectMaterials s' = m_objectMaterials after_three /\
    m_pShaderManager s' = m_pShaderManager after_three.
Proof.
  intros image.
  assert (H3 : colorChannels image <> 3) by (simpl; lia).
  assert (H4 : colorChannels image <> 4) by (simpl; lia).
  split; [reflexivity|]. split; [exact H3|]. split; [exact H4|].
  exact (@CreateGLTexture_unsupported_channels symbolic_glm test_platform
           after_three "gray.png" "gray" image eq_refl H3 H4).
Defined.

Lemma CreateGLTexture_full_writes_past_array_witness :
  let image := {| width := 4; height := 4; colorChannels := 3 |} in
  @stbi_load test_platform "seventeenth.jpg" = Some image /\
  (colorChannels image = 3 \/ colorChannels image = 4) /\
  length (m_textureIDs full) = 16%nat /\
  m_loadedTextures full = capacity /\
  @CreateGLTexture symbolic_glm test_platform "seventeenth.jpg" "one_more" full =
    Crash OutOfBounds.
Proof.
  intros image.
  assert (Hlen : length (m_textureIDs full) = 16%nat)
    by (vm_compute; reflexivity).
  assert (Hfull : m_loadedTextures full = capacity)
    by (vm_compute; reflexivity).
  split; [reflexivity|]. split; [left; reflexivity|].
  split; [exact Hlen|]. split; [exact Hfull|].
  exact (@CreateGLTexture_full_writes_past_array symbolic_glm test_platform
           full "seventeenth.jpg" "one_more" image eq_refl
           (or_introl eq_refl) Hlen Hfull).
Defined.

Lemma after_three_well_formed : well_formed after_three.
Proof. split; [reflexivity | vm_compute; split; discriminate]. Qed.

Lemma DestroyGLTextures_frees_nothing_witness :
  well_formed after_three /\
  exists s',
    @DestroyGLTextures symbolic_glm test_platform after_three = Done tt s' /\
    m_loadedTextures s' = m_loadedTextures after_three /\
    deleted (trace s') = deleted (trace after_three) /\
    length (generated (trace s')) =
      (length (generated (trace after_three)) +
       Z.to_nat (m_loadedTextures after_three))%nat.
Proof.
  split; [exact after_three_well_formed|].
  exact (@DestroyGLTextures_frees_nothing symbolic_glm test_platform
           after_three after_three_well_formed).
Defined.

Lemma after_three_run :
  @load_textures symbolic_glm test_platform three_files
     (SceneManager_ctor (Some []) []) = Done [true; true; true] after_three.
Proof. vm_compute. reflexivity. Qed.

Lemma lookups_after_loading_witness :
  @load_textures symbolic_glm test_platform three_files
     (SceneManager_ctor (Some []) []) = Done [true; true; true] after_three /\
  Forall (eq true) [true; true; true] /\
  exists recorded : list TEXTURE_INFO,
    tag <$> recorded = three_files.*2 /\
    generated (trace after_three) = generated [] ++ (ID <$> recorded) /\
    (length three_files <= 16)%nat /\
    m_loadedTextures after_three = Z.of_nat (length three_files) /\
    (forall k e, recorded !! k = Some e ->
       exists j first,
         (j <= k)%nat /\ recorded !! j = Some first /\ tag first = tag e /\
         (forall i e', (i < j)%nat -> recorded !! i = Some e' ->
                       tag e' <> tag e) /\
         FindTextureSlot (tag e) after_three = Done (Z.of_nat j) after_three /\
         exists handle,
           FindTextureID (tag e) after_three = Done handle after_three /\
           0 <= ID first < 2 ^ 32 /\
           (ID first < 2 ^ 31 -> handle = ID first) /\
           (2 ^ 31 <= ID first -> handle = ID first - 2 ^ 32) /\
           (ID first = 4294967295 -> handle = -1)) /\
    (forall t, t ∉ three_files.*2 ->
       FindTextureSlot t after_three = Done (-1) after_three /\
       FindTextureID t after_three = Done (-1) after_three).
Proof.
  assert (Hall : Forall (eq true) [true; true; true])
    by (repeat constructor).
  split; [exact after_three_run|]. split; [exact Hall|].
  exact (@lookups_after_loading symbolic_glm test_platform (Some []) []
           three_files [true; true; true] after_three after_three_run Hall).
Defined.

Lemma lookups_agree_witness :
  well_formed after_three /\
  exists i h,
    FindTextureSlot "floor" after_three = Done i after_three /\
    FindTextureID "floor" after_three = Done h after_three /\
    (i = -1 \/ 0 <= i) /\
    (0 <= i ->
       i < m_loadedTextures after_three /\
       exists e, m_textureIDs after_three !! Z.to_nat i = Some e /\
                 tag e = "floor" /\ h = int_of_GLuint (ID e)) /\
    (i = -1 -> h = -1) /\
    ((forall e, e ∈ loaded after_three -> int_of_GLuint (ID e) <> -1) ->
     h = -1 -> i = -1).
Proof.
  split; [exact after_three_well_formed|].
  exact (lookups_agree after_three "floor" after_three_well_formed).
Defined.

(** The equivalence of the two sentinels fails on a registry whose one
    loaded entry carries the name 4294967295, which is also what the
    constructor writes into every slot for [ID = -1]: the handle lookup
    answers [-1], the slot lookup answers 0. *)
Lemma lookups_sentinel_clash :
  well_formed clash /\
  FindTextureSlot "a" clash = Done 0 clash /\
  FindTextureID "a" clash = Done (-1) clash /\
  ~ (FindTextureSlot "a" clash = Done (-1) clash <->
     FindTextureID "a" clash = Done (-1) clash).
Proof.
  split; [split; [reflexivity | vm_compute; split; discriminate]|].
  split; [reflexivity|]. split; [reflexivity|].
  intros [_ H]. specialize (H eq_refl). discriminate.
Qed.

(** The handle recorded at load time is not what the handle lookup answers
    once the driver's name reaches [2^31].  One load from the constructor's
    registry succeeds and records the name 4294967295 at slot 0; the slot
    lookup finds the tag, the handle lookup answers [-1], its answer for a
    tag that was never loaded.  With the name 3000000000 the handle lookup
    answers -1294967296. *)
Lemma loaded_handle_reads_back_negative :
  @load_textures symbolic_glm (counting_down 4294967295) [("a.jpg", "a")]
     fresh = Done [true] (loaded_under 4294967295) /\
  loaded (loaded_under 4294967295) = [{| tag := "a"; ID := 4294967295 |}] /\
  generated (trace (loaded_under 4294967295)) = [4294967295] /\
  FindTextureSlot "a" (loaded_under 4294967295) =
    Done 0 (loaded_under 4294967295) /\
  FindTextureID "a" (loaded_under 4294967295) =
    Done (-1) (loaded_under 4294967295) /\
  FindTextureID "never" (loaded_under 4294967295) =
    Done (-1) (loaded_under 4294967295) /\
  FindTextureID "a" (loaded_under 4294967295) <>
    Done 4294967295 (loaded_under 4294967295) /\
  @load_textures symbolic_glm (counting_down 3000000000) [("a.jpg", "a")]
     fresh = Done [true] (loaded_under 3000000000) /\
  loaded (loaded_under 3000000000) = [{| tag := "a"; ID := 3000000000 |}] /\
  FindTextureID "a" (loaded_under 3000000000) =
    Done (-1294967296) (loaded_under 3000000000).
Proof.
  split; [vm_compute; reflexivity|]. split; [vm_compute; reflexivity|].
  split; [vm_compute; reflexivity|]. split; [vm_compute; reflexivity|].
  split; [vm_compute; reflexivity|]. split; [vm_compute; reflexivity|].
  split; [vm_compute; discriminate|]. split; [vm_compute; reflexivity|].
  split; vm_compute; reflexivity.
Qed.

(** * Instances of the further properties *)

Lemma fresh_well_formed : well_formed fresh.
Proof. split; [reflexivity | vm_compute; split; discriminate]. Qed.

Lemma full_well_formed : well_formed full.
Proof. split; vm_compute; [reflexivity | split; discriminate]. Qed.

Lemma headless_wood_well_formed : well_formed headless_wood.
Proof. split; [reflexivity | vm_compute; split; discriminate]. Qed.

Lemma nothing_before_the_first (t : string) :
  forall r : @OBJECT_MATERIAL symbolic_glm, r ∈ [] -> mat_tag r <> t.
Proof. intros r Hr. now apply elem_of_nil in Hr. Qed.

Lemma scene_files_supported :
  forall f, f ∈ scene_textures.*1 -> @supported test_platform f.
Proof.
  intros f Hf. unfold supported.
  repeat (apply elem_of_cons in Hf as [->|Hf];
          [eexists; split; [reflexivity | left; reflexivity]|]).
  now apply elem_of_nil in Hf.
Qed.

Lemma FindMaterial_copies_first_match_witness :
  m_objectMaterials one_wood = [] ++ wood :: [] /\
  (forall r' : @OBJECT_MATERIAL symbolic_glm,
      r' ∈ [] -> mat_tag r' <> "wood") /\
  mat_tag wood = "wood" /\
  exists m',
    FindMaterial "wood" garbage one_wood = Done (true, m') one_wood /\
    diffuseColor m' = diffuseColor wood /\
    specularColor m' = specularColor wood /\
    shininess m' = shininess wood /\
    mat_tag m' = mat_tag garbage.
Proof.
  split; [reflexivity|]. split; [exact (nothing_before_the_first "wood")|].
  split; [reflexivity|].
  exact (FindMaterial_copies_first_match one_wood [] [] wood "wood" garbage
           eq_refl (nothing_before_the_first "wood") eq_refl).
Defined.

Lemma one_wood_has_wood :
  exists r, r ∈ m_objectMaterials one_wood /\ mat_tag r = "wood".
Proof. exists wood. split; [left | reflexivity]. Qed.

Lemma FindMaterial_later_records_shadowed_witness :
  (exists r, r ∈ m_objectMaterials one_wood /\ mat_tag r = "wood") /\
  let s' := set_objectMaterials (m_objectMaterials one_wood ++ [garbage; wood])
              one_wood in
  exists m',
    FindMaterial "wood" garbage one_wood = Done (true, m') one_wood /\
    FindMaterial "wood" garbage s' = Done (true, m') s'.
Proof.
  split; [exact one_wood_has_wood|].
  exact (FindMaterial_later_records_shadowed one_wood [garbage; wood] "wood"
           garbage one_wood_has_wood).
Defined.

Lemma SetShaderMaterial_pushes_first_match_witness :
  m_pShaderManager one_wood = Some [] /\
  m_objectMaterials one_wood = [] ++ wood :: [] /\
  (forall r' : @OBJECT_MATERIAL symbolic_glm,
      r' ∈ [] -> mat_tag r' <> "wood") /\
  mat_tag wood = "wood" /\
  SetShaderMaterial "wood" garbage one_wood =
    Done tt (set_pShaderManager (Some ([] ++ material_pushes wood)) one_wood).
Proof.
  split; [reflexivity|]. split; [reflexivity|].
  split; [exact (nothing_before_the_first "wood")|]. split; [reflexivity|].
  exact (SetShaderMaterial_pushes_first_match one_wood [] [] [] wood "wood"
           garbage eq_refl eq_refl (nothing_before_the_first "wood") eq_refl).
Defined.

Lemma after_three_shader : m_pShaderManager after_three = Some [].
Proof. vm_compute. reflexivity. Qed.

Lemma SetShaderTexture_pushes_slot_or_sentinel_witness :
  well_formed after_three /\
  m_pShaderManager after_three = Some [] /\
  exists slot s',
    SetShaderTexture "brick" after_three = Done tt s' /\
    s' = set_pShaderManager
           (Some ([] ++ [("bUseTexture", IntValue 1);
                         ("objectTexture", Sampler2DValue slot)])) after_three /\
    ((forall e, e ∈ loaded after_three -> tag e <> "brick") -> slot = -1) /\
    (forall k e, loaded after_three !! k = Some e -> tag e = "brick" ->
       (forall j e', (j < k)%nat -> loaded after_three !! j = Some e' ->
                     tag e' <> "brick") ->
       slot = Z.of_nat k).
Proof.
  split; [exact after_three_well_formed|]. split; [exact after_three_shader|].
  exact (SetShaderTexture_pushes_slot_or_sentinel after_three [] "brick"
           after_three_well_formed after_three_shader).
Defined.

Lemma after_three_has_shader : m_pShaderManager after_three <> None.
Proof. rewrite after_three_shader. discriminate. Qed.

Lemma appearance_last_call_decides_witness :
  well_formed after_three /\
  m_pShaderManager after_three <> None /\
  exists s',
    (SetShaderTexture "floor" ;; @SetShaderColor symbolic_glm "1" "0" "0" "1")
      after_three = Done tt s' /\
    uniform_of s' "bUseTexture" = Some (IntValue 0).
Proof.
  split; [exact after_three_well_formed|].
  split; [exact after_three_has_shader|].
  destruct (@appearance_last_call_decides symbolic_glm after_three "floor"
              "1" "0" "0" "1" after_three_well_formed after_three_has_shader)
    as [(s' & Hrun & Hflag & _) _].
  exists s'. split; [exact Hrun | exact Hflag].
Defined.

Lemma coloured_run :
  @SetShaderColor symbolic_glm "1" "0" "0" "1" fresh = Done tt coloured.
Proof. vm_compute. reflexivity. Qed.

Lemma setters_leave_other_uniforms_witness :
  well_formed fresh /\
  same_registry fresh coloured /\
  trace coloured = trace fresh /\
  uniform_of coloured "UVscale" = uniform_of fresh "UVscale".
Proof.
  split; [exact fresh_well_formed|].
  destruct (@setters_leave_other_uniforms symbolic_glm fresh coloured "UVscale"
              fresh_well_formed) as (_ & Hcolor & _).
  apply (Hcolor "1" "0" "0" "1" coloured_run); discriminate.
Defined.

Lemma CreateGLTexture_crashes_iff_full_and_supported_witness :
  well_formed full /\
  ((exists f, @CreateGLTexture symbolic_glm test_platform
                "seventeenth.jpg" "one_more" full = Crash f) <->
   (@supported test_platform "seventeenth.jpg" /\
    m_loadedTextures full = capacity)).
Proof.
  split; [exact full_well_formed|].
  exact (@CreateGLTexture_crashes_iff_full_and_supported symbolic_glm
           test_platform full "seventeenth.jpg" "one_more" full_well_formed).
Defined.

Lemma one_loaded_run :
  @CreateGLTexture symbolic_glm test_platform "a.jpg" "floor" fresh =
    Done true one_loaded.
Proof. vm_compute. reflexivity. Qed.

Lemma after_gray_run :
  @CreateGLTexture symbolic_glm test_platform "gray.png" "gray" fresh =
    Done false after_gray.
Proof. vm_compute. reflexivity. Qed.

Lemma CreateGLTexture_true_iff_appended_witness :
  well_formed fresh /\
  @CreateGLTexture symbolic_glm test_platform "a.jpg" "floor" fresh =
    Done true one_loaded /\
  well_formed one_loaded /\
  (true = true <-> @supported test_platform "a.jpg") /\
  m_pShaderManager one_loaded = m_pShaderManager fresh.
Proof.
  split; [exact fresh_well_formed|]. split; [exact one_loaded_run|].
  destruct (@CreateGLTexture_true_iff_appended symbolic_glm test_platform
              fresh one_loaded "a.jpg" "floor" true fresh_well_formed
              one_loaded_run) as (Hwf & _ & Hp & Hiff & _).
  split; [exact Hwf|]. split; [exact Hiff | exact Hp].
Defined.

Lemma CreateGLTexture_cleans_up_only_on_success_witness :
  let image := {| width := 4; height := 4; colorChannels := 1 |} in
  @stbi_load test_platform "gray.png" = Some image /\
  @CreateGLTexture symbolic_glm test_platform "gray.png" "gray" fresh =
    Done false after_gray /\
  exists name tr',
    trace after_gray = trace fresh ++ tr' /\
    generated tr' = [name] /\ deleted tr' = [] /\
    (stbi_image_free ∉ tr').
Proof.
  intros image. split; [reflexivity|]. split; [exact after_gray_run|].
  destruct (@CreateGLTexture_cleans_up_only_on_success symbolic_glm
              test_platform fresh after_gray "gray.png" "gray" image false
              eq_refl after_gray_run)
    as (name & tr' & Htr & Hgen & Hdel & _ & _ & Hfalse).
  exists name, tr'. split; [exact Htr|]. split; [exact Hgen|].
  split; [exact Hdel|]. exact (proj1 (Hfalse eq_refl)).
Defined.

Lemma lookups_after_one_more_load_witness :
  well_formed fresh /\
  @CreateGLTexture symbolic_glm test_platform "a.jpg" "floor" fresh =
    Done true one_loaded /\
  exists name slot handle slot' handle',
    generated (trace one_loaded) = generated (trace fresh) ++ [name] /\
    0 <= name < 2 ^ 32 /\
    FindTextureSlot "floor" fresh = Done slot fresh /\
    FindTextureID "floor" fresh = Done handle fresh /\
    FindTextureSlot "floor" one_loaded = Done slot' one_loaded /\
    FindTextureID "floor" one_loaded = Done handle' one_loaded /\
    (slot <> -1 -> slot' = slot /\ handle' = handle) /\
    (slot = -1 -> "floor" = "floor" ->
       slot' = m_loadedTextures fresh /\
       (name < 2 ^ 31 -> handle' = name) /\
       (2 ^ 31 <= name -> handle' = name - 2 ^ 32)) /\
    (slot = -1 -> "floor" <> "floor" -> slot' = -1 /\ handle' = -1).
Proof.
  split; [exact fresh_well_formed|]. split; [exact one_loaded_run|].
  exact (@lookups_after_one_more_load symbolic_glm test_platform fresh
           one_loaded "a.jpg" "floor" "floor" fresh_well_formed one_loaded_run).
Defined.

Lemma BindGLTextures_binds_slots_in_order_witness :
  well_formed after_three /\
  BindGLTextures after_three =
    Done tt (set_trace (trace after_three ++ bind_events 0 (loaded after_three))
               after_three) /\
  length (bind_events 0 (loaded after_three)) =
    (2 * Z.to_nat (m_loadedTextures after_three))%nat.
Proof.
  split; [exact after_three_well_formed|].
  destruct (BindGLTextures_binds_slots_in_order after_three
              after_three_well_formed) as (Hrun & Hlen & _).
  split; [exact Hrun | exact Hlen].
Defined.

Lemma DestroyGLTextures_keeps_tags_replaces_names_witness :
  well_formed after_three /\
  exists s',
    @DestroyGLTextures symbolic_glm test_platform after_three = Done tt s' /\
    tag <$> m_textureIDs s' = tag <$> m_textureIDs after_three /\
    m_loadedTextures s' = m_loadedTextures after_three /\
    generated (trace s') = generated (trace after_three) ++ (ID <$> loaded s').
Proof.
  split; [exact after_three_well_formed|].
  destruct (@DestroyGLTextures_keeps_tags_replaces_names symbolic_glm
              test_platform after_three after_three_well_formed)
    as (s' & Hrun & _ & Htags & Hn & Hgen & _).
  exists s'. split; [exact Hrun|]. split; [exact Htags|].
  split; [exact Hn | exact Hgen].
Defined.

Lemma SceneManager_dtor_releases_nothing_witness :
  well_formed after_three /\
  exists s',
    @SceneManager_dtor symbolic_glm test_platform after_three = Done tt s' /\
    m_pShaderManager s' = None /\
    m_loadedTextures s' = m_loadedTextures after_three /\
    deleted (trace s') = deleted (trace after_three) /\
    length (generated (trace s')) =
      (length (generated (trace after_three)) +
       Z.to_nat (m_loadedTextures after_three))%nat.
Proof.
  split; [exact after_three_well_formed|].
  exact (@SceneManager_dtor_releases_nothing symbolic_glm test_platform
           after_three after_three_well_formed).
Defined.

Lemma RenderScene_outcome_witness :
  well_formed headless_wood /\
  (RenderScene all_garbage headless_wood = Crash NullDereference <->
   m_pShaderManager headless_wood = None /\
   m_objectMaterials headless_wood <> []).
Proof.
  split; [exact headless_wood_well_formed|].
  exact (proj1 (@RenderScene_outcome symbolic_glm headless_wood all_garbage
                  headless_wood_well_formed)).
Defined.

Lemma render_functions_and_null_shader_manager_witness :
  well_formed headless_wood /\
  (exists s', RenderWall headless_wood = Done tt s' /\
              same_registry headless_wood s') /\
  (exists s', RenderTrees headless_wood = Done tt s' /\
              same_registry headless_wood s').
Proof.
  split; [exact headless_wood_well_formed|].
  destruct (@render_functions_and_null_shader_manager symbolic_glm
              headless_wood all_garbage headless_wood_well_formed)
    as (Hwall & Htrees & _).
  split; [exact Hwall | exact Htrees].
Defined.

Lemma PrepareScene_registers_everything_witness :
  (forall f, f ∈ scene_textures.*1 -> @supported test_platform f) /\
  exists s,
    @PrepareScene symbolic_glm test_platform (SceneManager_ctor (Some []) []) =
      Done tt s /\
    m_loadedTextures s = 11 /\
    (forall k t, scene_textures.*2 !! k = Some t ->
       FindTextureSlot t s = Done (Z.of_nat k) s).
Proof.
  split; [exact scene_files_supported|].
  destruct (@PrepareScene_registers_everything symbolic_glm test_platform
              [] [] scene_files_supported) as (s & Hrun & Hn & Hslots & _).
  exists s. split; [exact Hrun|]. split; [exact Hn | exact Hslots].
Defined.

Lemma RenderScene_on_prepared_scene_witness :
  (forall f, f ∈ scene_textures.*1 -> @supported test_platform f) /\
  exists s s',
    @PrepareScene symbolic_glm test_platform (SceneManager_ctor (Some []) []) =
      Done tt s /\
    RenderScene all_garbage s = Done tt s' /\
    RenderScene other_garbage s = Done tt s'.
Proof.
  split; [exact scene_files_supported|].
  destruct (@RenderScene_on_prepared_scene symbolic_glm test_platform [] []
              all_garbage other_garbage scene_files_supported)
    as (s & s' & sm0 & pushes & Hrun & Hrender & Hrender' & _).
  exists s, s'. split; [exact Hrun|]. split; [exact Hrender | exact Hrender'].
Defined.
